(** * TrustDog deal lifecycle: a shallow embedding of the worker's handlers

    The development follows the TypeScript sources of the worker:
    - [Orchestrator]  the orchestrator callback route ([app.post('/callback')]),
    - [Deals]         the deals router (submit-post, cancel),
    - [Solana]        the Solana payment routes (fund-escrow, processPayoutInternal,
                      processRefundInternal),
    - [Worker]        index.ts (processVerificationCompletion, processCreatorPayout,
                      processRefund),
    - [DealRoutes]    further routes of the deals router (accept, fund,
                      mark-completed, update-proof-spec),
    - [ScheduleRoutes] calculateNextVerification,
    - [Scheduler]     the scheduled handler of index.ts (dispatch of the due
                      schedules, then the completion sweep) and trigger-payout,
    - [Refunds]       the refunds route of webhooks.ts.

    The relational store is a record of tables, each table a list of rows;
    [.eq(...)] filters are boolean predicates, [.update(...)] maps the matching
    rows, [.insert(...)] appends, and [.single()] yields a row only when exactly
    one matches.  A number of the store or of a JSON text is the rational it
    denotes; a product, a sum or a quotient of numbers is an IEEE 754 double,
    the operands rounded first, and a number is printed as a template literal
    or [JSON.stringify] prints the double.  Comparisons of stored numbers are
    exact.  Instants are milliseconds since the epoch and are computed
    exactly; on the durations and intervals the handlers use (whole hours,
    0.0833 and 0.0278 hours) the doubles give the same milliseconds.  One
    handler run reads the clock once.  The callback body is a JSON object with fields of
    the declared types; the JSON text [null] is told apart.

    What lies outside the sources is taken at its best: store operations
    succeed, the environment is configured, the Solana network accepts a
    transaction the wallet can pay for, Stripe accepts a refund request.
    Row-level security of the store and notifications are not part of the
    model; neither writes the tables followed here.  Whether a URL parses and
    whether the orchestrator accepts a dispatched request are parameters of
    the scheduled handler. *)

From Stdlib Require Import List String Ascii ZArith QArith Qround Qabs Qpower Bool Lia Lqa.
From Stdlib Require Import DecimalString.
Import ListNotations.

Local Open Scope string_scope.
Local Open Scope Z_scope.

(* ------------------------------------------------------------------ *)
(** ** JavaScript values as the handlers use them *)

Module JS.

(** A number of the store or of a JSON text, as the rational it denotes. *)
Definition number := Q.
Bind Scope Q_scope with number.

(** [!!x] for a number: every number but 0 is truthy. *)
Definition truthy_number (x : number) : bool := negb (Qeq_bool x 0).

(** [!!s] for a string: every string but the empty one is truthy. *)
Definition truthy_string (s : string) : bool := negb (String.eqb s "").

(** [x || d] where [x] may be undefined. *)
Definition number_or (x : option number) (d : number) : number :=
  match x with
  | Some v => if truthy_number v then v else d
  | None => d
  end.

Definition string_or (x : option string) (d : string) : string :=
  match x with
  | Some v => if truthy_string v then v else d
  | None => d
  end.

(** [a || b] on strings that may be missing, the result possibly [null]. *)
Definition first_truthy (a b : option string) : option string :=
  match a with
  | Some v => if truthy_string v then a else b
  | None => b
  end.

(** [x || []]: an array, even an empty one, is truthy. *)
Definition array_or {A} (x : option (list A)) (d : list A) : list A :=
  match x with Some l => l | None => d end.

(** [x >= y] and [x < y] on numbers. *)
Definition ge (x y : number) : bool := Qle_bool y x.
Definition lt (x y : number) : bool := negb (Qle_bool y x).

(** [new Date(x).getTime()]: the time value is clipped to an integer,
    rounding towards zero. *)
Definition Date (x : number) : Z :=
  if Qle_bool 0 x then Qfloor x else Qceiling x.

(** *** Arithmetic

    The result of a product, a sum or a quotient is an IEEE 754 binary64
    value: the exact result rounded to the nearest double, a tie going to
    the even mantissa, or an infinity beyond the largest double. *)
Inductive double :=
| Finite (q : number)
| Infinity (negative : bool)
| NaN.

(** The exponent [e] of a positive rational: [2^e <= q < 2^(e+1)]. *)
Definition exponent2 (q : Q) : Z :=
  let e := Z.log2 (Qnum q) - Z.log2 (Zpos (Qden q)) in
  if Qle_bool (2 ^ e) q then e else e - 1.

(** The nearest integer, a half going to the even neighbour. *)
Definition round_half_even (x : Q) : Z :=
  let f := Qfloor x in
  match (x - inject_Z f ?= 1 # 2)%Q with
  | Lt => f
  | Gt => f + 1
  | Eq => if Z.even f then f else f + 1
  end.

Definition negative (q : Q) : bool := Qnum q <? 0.

(** The Number value for [q]: 53 bits of mantissa, the exponent of the
    last bit no smaller than -1074. *)
Definition double_of (q : Q) : double :=
  if Qeq_bool q 0 then Finite 0
  else
    let a := Qabs q in
    let p := Z.max (exponent2 a - 52) (-1074) in
    let r := (inject_Z (round_half_even (a / 2 ^ p)) * 2 ^ p)%Q in
    if Qle_bool (2 ^ 1024) r then Infinity (negative q)
    else Finite (Qred (if negative q then - r else r)).

Definition mul (x y : double) : double :=
  match x, y with
  | Finite a, Finite b => double_of (a * b)
  | NaN, _ | _, NaN => NaN
  | Infinity s, Finite b =>
      if Qeq_bool b 0 then NaN else Infinity (xorb s (negative b))
  | Finite a, Infinity s =>
      if Qeq_bool a 0 then NaN else Infinity (xorb s (negative a))
  | Infinity s, Infinity t => Infinity (xorb s t)
  end.

Definition add (x y : double) : double :=
  match x, y with
  | Finite a, Finite b => double_of (a + b)
  | NaN, _ | _, NaN => NaN
  | Infinity s, Finite _ => Infinity s
  | Finite _, Infinity s => Infinity s
  | Infinity s, Infinity t => if Bool.eqb s t then Infinity s else NaN
  end.

Definition div (x y : double) : double :=
  match x, y with
  | Finite a, Finite b =>
      if Qeq_bool b 0
      then (if Qeq_bool a 0 then NaN else Infinity (negative a))
      else double_of (a / b)
  | NaN, _ | _, NaN => NaN
  | Infinity s, Finite b => Infinity (xorb s (negative b))
  | Finite _, Infinity _ => Finite 0
  | Infinity _, Infinity _ => NaN
  end.

(** [x < y] on the results of arithmetic. *)
Definition less (x y : double) : bool :=
  match x, y with
  | Finite a, Finite b => negb (Qle_bool b a)
  | Finite _, Infinity s => negb s
  | Infinity s, Finite _ => s
  | Infinity s, Infinity t => s && negb t
  | NaN, _ | _, NaN => false
  end.

(** [Math.round]: the nearest integer, halves rounded up; an infinity
    stays what it is. *)
Definition Math_round (x : double) : double :=
  match x with
  | Finite q => Finite (inject_Z (Qfloor (q + (1 # 2))))
  | _ => x
  end.

(** The number JSON carries for a result: [JSON.stringify] writes [null]
    for what is not finite. *)
Definition json_number (x : double) : option number :=
  match x with
  | Finite q => Some q
  | _ => None
  end.

(** *** Number::toString, as a template literal applies it *)

Definition digits_of (z : Z) : string := NilZero.string_of_int (Z.to_int z).

Fixpoint climb (fuel : nat) (v : Q) (g : Z) : Z :=
  match fuel with
  | O => g
  | S f => if Qle_bool (10 ^ (g + 1)) v then climb f v (g + 1) else g
  end.

(** [n] with [10^(n-1) <= v < 10^n], for a positive [v]; the first guess
    comes from the binary exponent and is at most three short. *)
Definition magnitude10 (v : Q) : Z :=
  climb 4 v (exponent2 v * 30103 / 100000 - 1) + 1.

(** The decimal [s * scale] reads back as [v]. *)
Definition reads_back (v : Q) (s : Z) (scale : Q) : bool :=
  match double_of (inject_Z s * scale) with
  | Finite u => Qeq_bool u v
  | _ => false
  end.

(** The shortest decimal that reads back as [v]: its digits [s], their
    number [k] and the exponent [n], the value being [s * 10^(n-k)].  With
    two candidates of the same length the one closer to [v] is taken, the
    even one when they are equally close.  Seventeen digits always do. *)
Fixpoint shortest (fuel : nat) (v : Q) (n k : Z) : Z * Z * Z :=
  let scale := (10 ^ (n - k))%Q in
  let x := (v / scale)%Q in
  let lo := Qfloor x in
  let hi := lo + 1 in
  let pick (s : Z) := if s =? 10 ^ k then (10 ^ (k - 1), k, n + 1) else (s, k, n) in
  match fuel with
  | O => (lo, k, n)
  | S f =>
      match reads_back v lo scale, reads_back v hi scale with
      | true, true =>
          match (x - inject_Z lo ?= inject_Z hi - x)%Q with
          | Lt => pick lo
          | Gt => pick hi
          | Eq => if Z.even lo then pick lo else pick hi
          end
      | true, false => pick lo
      | false, true => pick hi
      | false, false => shortest f v n (k + 1)
      end
  end.

Fixpoint zeros (n : nat) : string :=
  match n with O => "" | S m => "0" ++ zeros m end.

Definition positive_to_string (v : Q) : string :=
  let '(s, k, n) := shortest 17 v (magnitude10 v) 1 in
  let digits := digits_of s in
  if (k <=? n) && (n <=? 21) then digits ++ zeros (Z.to_nat (n - k))
  else if (0 <? n) && (n <=? 21)
  then substring 0 (Z.to_nat n) digits ++ "."
         ++ substring (Z.to_nat n) (Z.to_nat (k - n)) digits
  else if (-6 <? n) && (n <=? 0) then "0." ++ zeros (Z.to_nat (- n)) ++ digits
  else
    let e := n - 1 in
    let exponent := (if e <? 0 then "-" else "+") ++ digits_of (Z.abs e) in
    if k =? 1 then digits ++ "e" ++ exponent
    else substring 0 1 digits ++ "." ++ substring 1 (Z.to_nat (k - 1)) digits
           ++ "e" ++ exponent.

Definition double_to_string (x : double) : string :=
  match x with
  | NaN => "NaN"
  | Infinity s => if s then "-Infinity" else "Infinity"
  | Finite q =>
      if Qeq_bool q 0 then "0"
      else if negative q then "-" ++ positive_to_string (Qabs q)
      else positive_to_string q
  end.

(** A number inside a template literal. *)
Definition number_to_string (q : number) : string := double_to_string (double_of q).

(** A string that may be [null] inside a template literal. *)
Definition nullable_to_string (s : option string) : string :=
  match s with Some v => v | None => "null" end.

(** [arr.join(sep)] on an array of strings. *)
Definition join (sep : string) (l : list string) : string := String.concat sep l.

(** [s.startsWith(p)]. *)
Definition startsWith (p s : string) : bool := String.prefix p s.

(** *** JSON.stringify

    The values the handlers serialize; a key whose value is undefined is
    left out when the object is built. *)
Local Unset Elimination Schemes.
Inductive Json :=
| JNull
| JNumber (x : number)
| JString (s : string)
| JArray (items : list Json)
| JObject (members : list (string * Json)).
Local Set Elimination Schemes.

Definition quotation_mark : string := String (ascii_of_nat 34) "".
Definition reverse_solidus : string := String (ascii_of_nat 92) "".

Definition hex_digit (n : nat) : string :=
  String (ascii_of_nat (if n <? 10 then 48 + n else 87 + n)%nat) "".

(** QuoteJSONString on one code unit. *)
Definition escape (c : ascii) : string :=
  let n := nat_of_ascii c in
  if (n =? 34)%nat then reverse_solidus ++ quotation_mark
  else if (n =? 92)%nat then reverse_solidus ++ reverse_solidus
  else if (n =? 8)%nat then reverse_solidus ++ "b"
  else if (n =? 9)%nat then reverse_solidus ++ "t"
  else if (n =? 10)%nat then reverse_solidus ++ "n"
  else if (n =? 12)%nat then reverse_solidus ++ "f"
  else if (n =? 13)%nat then reverse_solidus ++ "r"
  else if (n <? 32)%nat
  then reverse_solidus ++ "u00" ++ hex_digit (n / 16)%nat ++ hex_digit (n mod 16)%nat
  else String c "".

Fixpoint escaped (s : string) : string :=
  match s with
  | EmptyString => ""
  | String c rest => escape c ++ escaped rest
  end.

Definition quote (s : string) : string := quotation_mark ++ escaped s ++ quotation_mark.

Fixpoint stringify (v : Json) : string :=
  match v with
  | JNull => "null"
  | JNumber x =>
      match double_of x with
      | Finite _ => number_to_string x
      | _ => "null"
      end
  | JString s => quote s
  | JArray items => "[" ++ join "," (map stringify items) ++ "]"
  | JObject members =>
      "{" ++ join "," (map (fun m => match m with
                                     | (key, value) => quote key ++ ":" ++ stringify value
                                     end) members)
          ++ "}"
  end.

Definition nullable (s : option string) : Json :=
  match s with Some v => JString v | None => JNull end.

End JS.

Import JS.

(* ------------------------------------------------------------------ *)
(** ** The callback payload

    The handler reads the body as [any]; the records below list the keys it
    reads, each optional, with the value types of the [OrchestratorCallback]
    interface ([post_url], [transcription] and [extracted_text], which the
    interface does not list, as strings).  Keys that only feed the display
    text stored in [orchestrator_result] are left out. *)

Module ProofVerification.
Record t := mk {
  overall_confidence : option number;
  requirements_met : option (list string);
  requirements_failed : option (list string)
}.
End ProofVerification.

Module Analysis.
Record t := mk {
  overall_score : option number;
  proof_verification : option ProofVerification.t;
  transcription : option string;
  extracted_text : option string
}.
End Analysis.

Module CallbackData.
Record t := mk {
  deal_id : option string;
  analysis : option Analysis.t;
  (** the [type] tags of the entries of [analyses] *)
  analyses : option (list string);
  error : option string;
  post_url : option string;
  processingTime : option number
}.
End CallbackData.

Module RequestBody.
Record t := mk {
  status : option string;
  data : option CallbackData.t;
  (** legacy format *)
  deal_id : option string;
  verification_status : option string;
  overall_score : option number;
  error : option string;
  (** [error_details?.error_message] *)
  error_message : option string;
  requestId : option string
}.

(** The body [{}]: every key the handler looks for is missing. *)
Definition empty : t := mk None None None None None None None None.
End RequestBody.

(* ------------------------------------------------------------------ *)
(** ** Tables *)

Inductive DealStatus :=
| PendingAcceptance | PendingFunding | PendingVerification
| Verifying | Completed | Failed | Cancelled.

Definition DealStatus_eqb (a b : DealStatus) : bool :=
  match a, b with
  | PendingAcceptance, PendingAcceptance | PendingFunding, PendingFunding
  | PendingVerification, PendingVerification | Verifying, Verifying
  | Completed, Completed | Failed, Failed | Cancelled, Cancelled => true
  | _, _ => false
  end.

(** A status as the store prints it. *)
Definition DealStatus_name (s : DealStatus) : string :=
  match s with
  | PendingAcceptance => "PendingAcceptance"
  | PendingFunding => "PendingFunding"
  | PendingVerification => "PendingVerification"
  | Verifying => "Verifying"
  | Completed => "Completed"
  | Failed => "Failed"
  | Cancelled => "Cancelled"
  end.

(** The statuses after which a deal's lifecycle is over. *)
Definition terminal (s : DealStatus) : bool :=
  match s with Completed | Failed | Cancelled => true | _ => false end.

Module Deal.
Record t := mk {
  id : string;
  advertiser_id : string;
  creator_id : option string;
  platform : string;
  amount_usdc : number;
  deadline_iso : Z;
  status : DealStatus;
  post_url : option string;
  posted_at : option Z;
  failure_reason : option string;
  verification_score : option number;
  last_verification_at : option Z;
  orchestrator_result : option RequestBody.t;
  cancelled_at : option Z;
  updated_at : option Z
}.
End Deal.

Module ProofSpec.
Record t := mk {
  deal_id : string;
  text_proof : string;
  duration_hours : number
}.
End ProofSpec.

Inductive CheckType := initial | periodic | final.

Inductive ScheduleStatus :=
| pending | running | completed | failed | expired | cancelled.

Definition ScheduleStatus_eqb (a b : ScheduleStatus) : bool :=
  match a, b with
  | pending, pending | running, running | completed, completed
  | failed, failed | expired, expired | cancelled, cancelled => true
  | _, _ => false
  end.

Module Schedule.
Record t := mk {
  id : nat;
  deal_id : string;
  scheduled_at : Z;
  check_type : CheckType;
  status : ScheduleStatus;
  completed_at : option Z;
  orchestrator_request_id : option string;
  confidence_score : option number;
  notes : option string
}.
End Schedule.

(** A row of [escrow_events]; [amount_usdc] is [None] where the insert
    carried [null]. *)
Module EscrowEvent.
Record t := mk {
  deal_id : string;
  event_type : string;
  amount_usdc : option number;
  payment_method : option string;
  tx_ref : option string;
  solana_signature : option string
}.
End EscrowEvent.

Module Payout.
Record t := mk {
  deal_id : string;
  method : string;
  status : string;
  amount_usdc : number;
  reference : option string
}.
End Payout.

Module Refund.
Record t := mk {
  deal_id : string;
  amount_usdc : option number;
  reason : string;
  status : string;
  stripe_refund_id : option string
}.
End Refund.

Module Review.
Record t := mk {
  deal_id : string;
  run_id : option string;
  reason_code : option string;
  priority : string;
  status : string;
  notes : string
}.
End Review.

Module Identity.
Record t := mk {
  id : string;
  solana_wallet_address : option string;
  stripe_connect_account_id : option string
}.
End Identity.

(** A SOL transfer sent from the platform wallet. *)
Module Transfer.
Record t := mk { toPubkey : string; lamports : Z }.
End Transfer.

(** The store, the platform wallet on chain, and the payment backends. *)
Record World := mkWorld {
  deals : list Deal.t;
  proof_specs : list ProofSpec.t;
  verification_schedules : list Schedule.t;
  escrow_events : list EscrowEvent.t;
  payouts : list Payout.t;
  refunds : list Refund.t;
  reviews : list Review.t;
  identities : list Identity.t;
  (** TEST_RESULTS_KV: deal id, status, score *)
  test_results : list (string * (string * number));
  (** balance of the platform wallet, in lamports *)
  platform_balance : Z;
  (** transactions accepted by the network, oldest first *)
  transfers : list Transfer.t;
  (** refunds created at Stripe: payment intent, reason *)
  stripe_refunds : list (string * string)
}.

Definition set_deals (w : World) (x : list Deal.t) : World :=
  mkWorld x (proof_specs w) (verification_schedules w) (escrow_events w) (payouts w)
          (refunds w) (reviews w) (identities w) (test_results w)
          (platform_balance w) (transfers w) (stripe_refunds w).

Definition set_verification_schedules (w : World) (x : list Schedule.t) : World :=
  mkWorld (deals w) (proof_specs w) x (escrow_events w) (payouts w)
          (refunds w) (reviews w) (identities w) (test_results w)
          (platform_balance w) (transfers w) (stripe_refunds w).

Definition set_escrow_events (w : World) (x : list EscrowEvent.t) : World :=
  mkWorld (deals w) (proof_specs w) (verification_schedules w) x (payouts w)
          (refunds w) (reviews w) (identities w) (test_results w)
          (platform_balance w) (transfers w) (stripe_refunds w).

Definition set_payouts (w : World) (x : list Payout.t) : World :=
  mkWorld (deals w) (proof_specs w) (verification_schedules w) (escrow_events w) x
          (refunds w) (reviews w) (identities w) (test_results w)
          (platform_balance w) (transfers w) (stripe_refunds w).

Definition set_refunds (w : World) (x : list Refund.t) : World :=
  mkWorld (deals w) (proof_specs w) (verification_schedules w) (escrow_events w)
          (payouts w) x (reviews w) (identities w) (test_results w)
          (platform_balance w) (transfers w) (stripe_refunds w).

Definition set_reviews (w : World) (x : list Review.t) : World :=
  mkWorld (deals w) (proof_specs w) (verification_schedules w) (escrow_events w)
          (payouts w) (refunds w) x (identities w) (test_results w)
          (platform_balance w) (transfers w) (stripe_refunds w).

Definition set_test_results (w : World) (x : list (string * (string * number))) : World :=
  mkWorld (deals w) (proof_specs w) (verification_schedules w) (escrow_events w)
          (payouts w) (refunds w) (reviews w) (identities w) x
          (platform_balance w) (transfers w) (stripe_refunds w).

(** [KV.put(key, value)]: the value under the key is replaced, or the key
    is added. *)
Definition kv_put {V} (key : string) (value : V) (entries : list (string * V))
  : list (string * V) :=
  if existsb (fun e => String.eqb (fst e) key) entries
  then map (fun e => if String.eqb (fst e) key then (key, value) else e) entries
  else entries ++ [(key, value)].

(** [KV.get(key)]. *)
Definition kv_get {V} (key : string) (entries : list (string * V)) : option V :=
  option_map snd (find (fun e => String.eqb (fst e) key) entries).

(** The network accepts a transfer: the wallet pays the lamports and the fee. *)
Definition send_transfer (w : World) (t : Transfer.t) (fee : Z) : World :=
  mkWorld (deals w) (proof_specs w) (verification_schedules w) (escrow_events w)
          (payouts w) (refunds w) (reviews w) (identities w) (test_results w)
          (platform_balance w - Transfer.lamports t - fee)
          (transfers w ++ [t]) (stripe_refunds w).

Definition stripe_refunds_create (w : World) (payment_intent reason : string) : World :=
  mkWorld (deals w) (proof_specs w) (verification_schedules w) (escrow_events w)
          (payouts w) (refunds w) (reviews w) (identities w) (test_results w)
          (platform_balance w) (transfers w)
          (stripe_refunds w ++ [(payment_intent, reason)]).

(** *** Queries *)

(** [.single()]: the row when exactly one row matches. *)
Definition single {A} (rows : list A) : option A :=
  match rows with
  | [r] => Some r
  | _ => None
  end.

(** [.update(f).eq(...)]: the matching rows are replaced. *)
Definition update_where {A} (p : A -> bool) (f : A -> A) (rows : list A) : list A :=
  map (fun r => if p r then f r else r) rows.

Definition deal_by_id (w : World) (dealId : string) : option Deal.t :=
  single (filter (fun d => String.eqb (Deal.id d) dealId) (deals w)).

Definition identity_by_id (w : World) (uid : string) : option Identity.t :=
  single (filter (fun i => String.eqb (Identity.id i) uid) (identities w)).

(** [.from('escrow_events').eq('deal_id', d).eq('event_type', ty).single()]. *)
Definition escrow_event_of (w : World) (dealId ty : string) : option EscrowEvent.t :=
  single (filter (fun e => String.eqb (EscrowEvent.deal_id e) dealId
                           && String.eqb (EscrowEvent.event_type e) ty)
                 (escrow_events w)).

(** A row of [deals] as a select returns it: the columns of the table and,
    when the select names the relation, the embedded row of [proof_specs].
    [proof_specs] is a table of its own, keyed by the deal (the create-deal
    handler fills it with a second insert). *)
Module DealRow.
Record t := mk {
  columns : Deal.t;
  proof_specs : option ProofSpec.t
}.
End DealRow.

(** [.select('*')]: the columns of [deals], no relation.  This is what
    submit-post reads back from its update; it fetches the deal together
    with its platform account and its proof spec only once the ladder is
    built. *)
Definition select_star (d : Deal.t) : DealRow.t := DealRow.mk d None.

(** [.select('..., proof_specs(duration_hours)')]: the deal with its proof
    spec, of which there is at most one, [deal_id] being its key. *)
Definition select_with_proof_specs (w : World) (d : Deal.t) : DealRow.t :=
  DealRow.mk d
    (single (filter (fun ps => String.eqb (ProofSpec.deal_id ps) (Deal.id d))
                    (proof_specs w))).

(** The next key of [verification_schedules]. *)
Definition fresh_schedule_id (rows : list Schedule.t) : nat :=
  S (fold_right (fun s m => Nat.max (Schedule.id s) m) O rows).

(** Results of the functions that throw. *)
Inductive result (A : Type) :=
| Ok (a : A)
| Throw (message : string).
Arguments Ok {A} a.
Arguments Throw {A} message.

(** What a handler answers: [c.json(body, code)]. *)
Inductive Body :=
| error_body (error : string)
| success_body
| callback_body (deal_status : DealStatus) (verification_score : number)
| test_deal_body (deal_id : string) (verification_score : number) (status : string)
| settlement_body (deal_id : string) (tx_signature : string).

Inductive Response := json (body : Body) (code : Z).

Definition code_of (r : Response) : Z := match r with json _ c => c end.

Record Env := mkEnv {
  (** [env.HITL_ENABLED === 'true'] *)
  HITL_ENABLED : bool;
  (** [env.ORCHESTRATOR_ENABLED === 'true'] *)
  ORCHESTRATOR_ENABLED : bool;
  (** the binding [env.TEST_RESULTS_KV] is set *)
  TEST_RESULTS_KV : bool
}.

(* ------------------------------------------------------------------ *)
(** ** Solana payment routes *)

Module Solana.

Definition PLATFORM_FEE_PERCENT : double := double_of (2 # 100).
Definition RENT_EXEMPT_MINIMUM : Z := 890880.
Definition TX_FEE : Z := 5000.
Definition RESERVE : Z := RENT_EXEMPT_MINIMUM + TX_FEE.

(** The signature of the next transaction the network accepts. *)
Definition next_signature (w : World) : string :=
  "sig-" ++ NilZero.string_of_uint (Nat.to_uint (List.length (transfers w))).

(** [deal.identities?.solana_wallet_address], undefined when falsy. *)
Definition wallet_of (w : World) (uid : option string) : option string :=
  match uid with
  | None => None
  | Some u =>
      match identity_by_id w u with
      | Some i =>
          match Identity.solana_wallet_address i with
          | Some a => if truthy_string a then Some a else None
          | None => None
          end
      | None => None
      end
  end.

(** What [connection.getTransaction] answers for a signature: nothing (or a
    transaction without [meta]), a transaction that carries an error, or a
    transaction that went through. *)
Inductive Transaction := not_found | failed_on_chain | confirmed.

(** [app.post('/fund-escrow')]. *)
Definition fund_escrow (now : Z) (user : string) (deal_id tx_signature : string)
           (tx : Transaction) (w : World) : World * Response :=
  if negb (truthy_string deal_id) || negb (truthy_string tx_signature)
  then (w, json (error_body "deal_id and tx_signature are required") 400)
  else
    match deal_by_id w deal_id with
    | None => (w, json (error_body "Deal not found") 404)
    | Some deal =>
        if negb (String.eqb (Deal.advertiser_id deal) user)
        then (w, json (error_body "Only advertiser can fund this deal") 403)
        else if negb (DealStatus_eqb (Deal.status deal) PendingFunding)
                && negb (DealStatus_eqb (Deal.status deal) Failed)
        then (w, json (error_body ("Deal is not in funding state. Current status: "
                                     ++ DealStatus_name (Deal.status deal))) 400)
        else
          match tx with
          | not_found =>
              (w, json (error_body "Transaction not found or not confirmed") 400)
          | failed_on_chain =>
              (w, json (error_body "Transaction failed on-chain") 400)
          | confirmed =>
              let creatorAmount := double_of (Deal.amount_usdc deal) in
              let platformFee := mul creatorAmount PLATFORM_FEE_PERCENT in
              let totalExpected := add creatorAmount platformFee in
              let w1 := set_deals w
                (update_where (fun d => String.eqb (Deal.id d) deal_id)
                   (fun d => Deal.mk (Deal.id d) (Deal.advertiser_id d) (Deal.creator_id d)
                               (Deal.platform d) (Deal.amount_usdc d) (Deal.deadline_iso d)
                               PendingVerification (Deal.post_url d) (Deal.posted_at d)
                               (Deal.failure_reason d) (Deal.verification_score d)
                               (Deal.last_verification_at d) (Deal.orchestrator_result d)
                               (Deal.cancelled_at d) (Some now))
                   (deals w)) in
              let w2 := set_escrow_events w1
                (escrow_events w1 ++
                   [EscrowEvent.mk deal_id "Created" (json_number totalExpected)
                                   (Some "solana") None (Some tx_signature)]) in
              (w2, json (settlement_body deal_id tx_signature) 200)
          end
    end.

(** The amount of a transfer instruction is an unsigned 64-bit integer;
    [SystemProgram.transfer] cannot encode anything else. *)
Definition u64 (x : double) : option Z :=
  match x with
  | Finite q =>
      let z := Qfloor q in
      if Qeq_bool (inject_Z z) q && (0 <=? z) && (z <? 2 ^ 64) then Some z else None
  | _ => None
  end.

(** The text of the library's error when the amount cannot be encoded. *)
Definition encoding_error : string := "Transfer amount is not an unsigned 64-bit integer".

(** [`${what}. Have ${platformBalance / 1e9} SOL, need ${need / 1e9} SOL`]. *)
Definition insufficient (what : string) (platformBalance need : double) : string :=
  what ++ ". Have " ++ double_to_string (div platformBalance (Finite 1000000000))
       ++ " SOL, need " ++ double_to_string (div need (Finite 1000000000)) ++ " SOL".

(** [processPayoutInternal(env, deal_id)]. *)
Definition processPayoutInternal (w : World) (deal_id : string) : World * result string :=
  match deal_by_id w deal_id with
  | None => (w, Throw "Deal not found")
  | Some deal =>
      if negb (DealStatus_eqb (Deal.status deal) Completed)
      then (w, Throw "Deal must be Completed before releasing escrow")
      else
        match wallet_of w (Deal.creator_id deal) with
        | None => (w, Throw "Creator has not connected Solana wallet")
        | Some creatorWallet =>
            let creatorAmount := double_of (Deal.amount_usdc deal) in
            let lamports := Math_round (mul creatorAmount (Finite 1000000000)) in
            let platformBalance := double_of (inject_Z (platform_balance w)) in
            let need := add lamports (Finite (inject_Z RESERVE)) in
            if less platformBalance need
            then (w, Throw (insufficient "Insufficient platform balance" platformBalance need))
            else
              match u64 lamports with
              | None => (w, Throw encoding_error)
              | Some amount =>
                  let signature := next_signature w in
                  let w1 := send_transfer w (Transfer.mk creatorWallet amount) TX_FEE in
                  let w2 := set_payouts w1
                    (payouts w1 ++
                       [Payout.mk deal_id "Solana" "Completed" (Deal.amount_usdc deal)
                                  (Some signature)]) in
                  (w2, Ok signature)
              end
        end
  end.

(** [app.post('/release-escrow')], called with the internal secret or by a
    signed-in user. *)
Definition release_escrow (authorized : bool) (deal_id : string) (w : World)
  : World * Response :=
  if negb authorized then (w, json (error_body "Unauthorized") 401)
  else if negb (truthy_string deal_id) then (w, json (error_body "deal_id is required") 400)
  else
    match processPayoutInternal w deal_id with
    | (w', Ok signature) => (w', json (settlement_body deal_id signature) 200)
    | (w', Throw message) =>
        (w', json (error_body (string_or (Some message) "Failed to release escrow")) 500)
    end.

(** [processRefundInternal(env, deal_id, reason)].  The row of [refunds]
    carries the deal amount and no signature. *)
Definition processRefundInternal (w : World) (deal_id reason : string)
  : World * result string :=
  match deal_by_id w deal_id with
  | None => (w, Throw "Deal not found")
  | Some deal =>
      if negb (DealStatus_eqb (Deal.status deal) Failed)
         && negb (DealStatus_eqb (Deal.status deal) Cancelled)
      then (w, Throw "Deal must be Failed or Cancelled to process refund")
      else
        match wallet_of w (Some (Deal.advertiser_id deal)) with
        | None => (w, Throw "Advertiser has not connected Solana wallet")
        | Some advertiserWallet =>
            let creatorAmount := Deal.amount_usdc deal in
            let totalRefund := creatorAmount in
            let refundLamports :=
              Math_round (mul (double_of totalRefund) (Finite 1000000000)) in
            let platformBalance := double_of (inject_Z (platform_balance w)) in
            let need := add refundLamports (Finite (inject_Z RESERVE)) in
            if less platformBalance need
            then (w, Throw (insufficient "Insufficient platform balance for refund"
                                         platformBalance need))
            else
              match u64 refundLamports with
              | None => (w, Throw encoding_error)
              | Some amount =>
                  let signature := next_signature w in
                  let w1 := send_transfer w (Transfer.mk advertiserWallet amount) TX_FEE in
                  let w2 := set_refunds w1
                    (refunds w1 ++
                       [Refund.mk deal_id (Some totalRefund) reason "completed" None]) in
                  (w2, Ok signature)
              end
        end
  end.

(** [app.post('/refund-escrow')]. *)
Definition refund_escrow (authorized : bool) (deal_id reason : string) (w : World)
  : World * Response :=
  if negb authorized then (w, json (error_body "Unauthorized") 401)
  else if negb (truthy_string deal_id) || negb (truthy_string reason)
  then (w, json (error_body "deal_id and reason are required") 400)
  else
    match processRefundInternal w deal_id reason with
    | (w', Ok signature) => (w', json (settlement_body deal_id signature) 200)
    | (w', Throw message) =>
        (w', json (error_body (string_or (Some message) "Failed to refund escrow")) 500)
    end.

End Solana.

(* ------------------------------------------------------------------ *)
(** ** Orchestrator callback route *)

Module Orchestrator.

Definition expectedAuth : string := "Bearer trustdog-callback-secret-token-2024".

(** [requestBody.data?.analysis] and [...?.proof_verification]. *)
Definition analysis_of (requestBody : RequestBody.t) : option Analysis.t :=
  match RequestBody.data requestBody with
  | Some d => CallbackData.analysis d
  | None => None
  end.

Definition proof_verification_of (requestBody : RequestBody.t)
  : option ProofVerification.t :=
  match analysis_of requestBody with
  | Some a => Analysis.proof_verification a
  | None => None
  end.

Definition analysis_overall_score (requestBody : RequestBody.t) : option number :=
  match analysis_of requestBody with
  | Some a => Analysis.overall_score a
  | None => None
  end.

Definition overall_confidence_of (requestBody : RequestBody.t) : option number :=
  match proof_verification_of requestBody with
  | Some pv => ProofVerification.overall_confidence pv
  | None => None
  end.

Definition requirements_failed_of (requestBody : RequestBody.t) : option (list string) :=
  match proof_verification_of requestBody with
  | Some pv => ProofVerification.requirements_failed pv
  | None => None
  end.

(** [requestBody.data && requestBody.data.deal_id], when truthy. *)
Definition new_format_deal_id (requestBody : RequestBody.t) : option string :=
  match RequestBody.data requestBody with
  | Some d =>
      match CallbackData.deal_id d with
      | Some i => if truthy_string i then Some i else None
      | None => None
      end
  | None => None
  end.

(** [requestBody.deal_id], when truthy. *)
Definition legacy_deal_id (requestBody : RequestBody.t) : option string :=
  match RequestBody.deal_id requestBody with
  | Some i => if truthy_string i then Some i else None
  | None => None
  end.

(** The three variables the handler fills from the body. *)
Record Parsed := mkParsed {
  dealId : option string;
  verificationStatus : string;
  overallScore : number
}.

Definition parse (requestBody : RequestBody.t) : Parsed :=
  match new_format_deal_id requestBody with
  | Some i =>
      mkParsed (Some i)
        (match RequestBody.status requestBody with
         | Some s => if String.eqb s "completed" then "completed" else "failed"
         | None => "failed"
         end)
        (number_or (analysis_overall_score requestBody) 0)
  | None =>
      match legacy_deal_id requestBody with
      | Some i =>
          mkParsed (Some i)
            (string_or (RequestBody.verification_status requestBody) "error")
            (number_or (RequestBody.overall_score requestBody) 0)
      | None => mkParsed None "error" 0
      end
  end.

(** The status decision. *)
Record Verdict := mkVerdict {
  finalStatus : DealStatus;
  failureReason : option string;
  shouldCreateHITLReview : bool
}.

Definition decide (requestBody : RequestBody.t) (verificationStatus : string)
           (overallScore : number) : Verdict :=
  if String.eqb verificationStatus "error" then
    mkVerdict Verifying
      (Some ("Orchestrator error: "
               ++ string_or (RequestBody.error_message requestBody) "Unknown error"))
      true
  else if String.eqb verificationStatus "failed" then
    mkVerdict Failed
      (Some ("Verification failed - Score: " ++ number_to_string overallScore ++ "/100"))
      false
  else
    let score := overallScore in
    let confidence := number_or (overall_confidence_of requestBody) score in
    let requirementsFailed := array_or (requirements_failed_of requestBody) [] in
    if (0 <? List.length requirementsFailed)%nat then
      mkVerdict Failed
        (Some ("Verification requirements not met: " ++ join ", " requirementsFailed))
        false
    else if ge score 80 then
      mkVerdict Verifying None false
    else if ge score 60 || lt confidence 70 then
      mkVerdict Verifying None true
    else
      mkVerdict Failed
        (Some ("Low verification confidence: " ++ number_to_string score ++ "/100"))
        false.

(** The result stored for display: the body itself, or, for an error, a
    failure or a zero score without [analyses], the body with a synthesized
    [data]. *)
Definition needs_enrichment (requestBody : RequestBody.t) (verificationStatus : string)
           (overallScore : number) : bool :=
  (String.eqb verificationStatus "error" || String.eqb verificationStatus "failed"
   || Qeq_bool overallScore 0)
  && match RequestBody.data requestBody with
     | Some d =>
         match CallbackData.analyses d with
         | Some l => (List.length l =? 0)%nat
         | None => true
         end
     | None => true
     end.

Definition enrichedOrchestratorResult (requestBody : RequestBody.t)
           (verificationStatus : string) (overallScore : number) : RequestBody.t :=
  if needs_enrichment requestBody verificationStatus overallScore then
    RequestBody.mk
      (RequestBody.status requestBody)
      (Some (CallbackData.mk
         (match RequestBody.data requestBody with
          | Some d => CallbackData.deal_id d | None => None end)
         (Some (Analysis.mk (Some overallScore)
            (Some (ProofVerification.mk (Some overallScore)
               (Some (if ge overallScore 80 then ["Content verified successfully"] else []))
               (Some (if lt overallScore 80
                      then [if Qeq_bool overallScore 0
                            then "Technical verification error"
                            else "Some requirements not fully met"]
                      else []))))
            None None))
         (Some ["verification_result"])
         (match RequestBody.data requestBody with
          | Some d => CallbackData.error d | None => None end)
         (match RequestBody.data requestBody with
          | Some d => CallbackData.post_url d | None => None end)
         (Some (number_or (match RequestBody.data requestBody with
                           | Some d => CallbackData.processingTime d | None => None end)
                          0))))
      (RequestBody.deal_id requestBody)
      (RequestBody.verification_status requestBody)
      (RequestBody.overall_score requestBody)
      (RequestBody.error requestBody)
      (RequestBody.error_message requestBody)
      (RequestBody.requestId requestBody)
  else requestBody.

(** [updateData] applied to a row of [deals]. *)
Definition updateData (v : Verdict) (orchestrator_result : RequestBody.t) (now : Z)
           (overallScore : number) (d : Deal.t) : Deal.t :=
  Deal.mk (Deal.id d) (Deal.advertiser_id d) (Deal.creator_id d) (Deal.platform d)
          (Deal.amount_usdc d) (Deal.deadline_iso d)
          (finalStatus v)
          (Deal.post_url d) (Deal.posted_at d)
          (if DealStatus_eqb (finalStatus v) Failed then failureReason v
           else Deal.failure_reason d)
          (Some overallScore)
          (Some now)
          (Some orchestrator_result)
          (Deal.cancelled_at d) (Deal.updated_at d).

Definition set_failure_reason (reason : string) (d : Deal.t) : Deal.t :=
  Deal.mk (Deal.id d) (Deal.advertiser_id d) (Deal.creator_id d) (Deal.platform d)
          (Deal.amount_usdc d) (Deal.deadline_iso d) (Deal.status d)
          (Deal.post_url d) (Deal.posted_at d) (Some reason)
          (Deal.verification_score d) (Deal.last_verification_at d)
          (Deal.orchestrator_result d) (Deal.cancelled_at d) (Deal.updated_at d).

(** The schedule the handler closes: among the running and pending rows of
    the deal, the one scheduled first. *)
Definition in_flight (dealId : string) (s : Schedule.t) : bool :=
  String.eqb (Schedule.deal_id s) dealId
  && (ScheduleStatus_eqb (Schedule.status s) running
      || ScheduleStatus_eqb (Schedule.status s) pending).

Fixpoint earliest (rows : list Schedule.t) : option Schedule.t :=
  match rows with
  | [] => None
  | s :: rest =>
      match earliest rest with
      | Some s' => if Schedule.scheduled_at s <=? Schedule.scheduled_at s'
                   then Some s else Some s'
      | None => Some s
      end
  end.

Definition complete_schedule (now : Z) (requestBody : RequestBody.t)
           (overallScore : number) (s : Schedule.t) : Schedule.t :=
  Schedule.mk (Schedule.id s) (Schedule.deal_id s) (Schedule.scheduled_at s)
              (Schedule.check_type s) completed (Some now)
              (match RequestBody.requestId requestBody with
               | Some r => Some r
               | None => Schedule.orchestrator_request_id s
               end)
              (Some overallScore)
              (Schedule.notes s).

Definition update_schedules (now : Z) (dealId : string) (requestBody : RequestBody.t)
           (overallScore : number) (w : World) : World :=
  match earliest (filter (in_flight dealId) (verification_schedules w)) with
  | Some schedule =>
      set_verification_schedules w
        (update_where (fun s => Nat.eqb (Schedule.id s) (Schedule.id schedule))
                      (complete_schedule now requestBody overallScore)
                      (verification_schedules w))
  | None => w
  end.

(** [processAutomaticRefund(supabaseAdmin, env, deal, failureReason)]. *)
Definition processAutomaticRefund (w : World) (deal : Deal.t)
           (failureReason : option string) : World :=
  let paymentMethod :=
    string_or (match escrow_event_of w (Deal.id deal) "Created" with
               | Some e => EscrowEvent.payment_method e
               | None => None
               end) "stripe" in
  if String.eqb paymentMethod "solana" then
    match Solana.processRefundInternal w (Deal.id deal) "verification_failed" with
    | (w', Ok _) => w'
    | (w', Throw message) =>
        set_deals w'
          (update_where (fun d => String.eqb (Deal.id d) (Deal.id deal))
             (set_failure_reason
                (match failureReason with Some r => r | None => "null" end
                 ++ " (refund pending: " ++ message ++ ")"))
             (deals w'))
    end
  else w.

(** The row the handler inserts into [reviews] itself. *)
Definition direct_review (dealId : string) (requestBody : RequestBody.t)
           (overallScore : number) : Review.t :=
  let confidence := number_or (overall_confidence_of requestBody) overallScore in
  Review.mk dealId None None
            (if lt confidence 50 then "high" else "medium")
            "Open"
            ("Orchestrator callback - Score: " ++ number_to_string overallScore
               ++ ", Confidence: " ++ number_to_string confidence ++ "%").

(** [requestBody.data?.post_url || deal.post_url]. *)
Definition review_post_url (requestBody : RequestBody.t) (deal : Deal.t) : option string :=
  first_truthy (match RequestBody.data requestBody with
                | Some d => CallbackData.post_url d | None => None end)
               (Deal.post_url deal).

(** The evidence the handler hands to the HITL service. *)
Definition review_evidence (requestBody : RequestBody.t) (deal : Deal.t)
           (verificationStatus : string) (overallScore : number) : list Json :=
  let ref := review_post_url requestBody deal in
  let transcription :=
    match analysis_of requestBody with
    | Some a => Analysis.transcription a | None => None end in
  let extracted_text :=
    match analysis_of requestBody with
    | Some a => Analysis.extracted_text a | None => None end in
  [JObject [("type", JString "orchestrator_result");
            ("text", JString ("Orchestrator verification: " ++ verificationStatus
                                ++ ", Score: " ++ number_to_string overallScore ++ "/100"));
            ("ref", nullable ref)];
   JObject [("type", JString "post_url");
            ("text", JString ("Post URL: " ++ nullable_to_string ref));
            ("ref", nullable ref)]]
  ++ match transcription with
     | Some t =>
         if truthy_string t
         then [JObject [("type", JString "transcription");
                        ("text", JString ("Audio/Video transcription: " ++ t));
                        ("ref", JString "orchestrator_transcription")]]
         else []
     | None => []
     end
  ++ match extracted_text with
     | Some t =>
         if truthy_string t
         then [JObject [("type", JString "extracted_text");
                        ("text", JString ("Extracted text: " ++ t));
                        ("ref", JString "orchestrator_ocr")]]
         else []
     | None => []
     end.

Definition review_metadata (requestBody : RequestBody.t) (deal : Deal.t)
           (dealId verificationStatus : string) (overallScore : number) : Json :=
  JObject [("deal_id", JString dealId);
           ("orchestrator_score", JNumber overallScore);
           ("verification_status", JString verificationStatus);
           ("post_url", nullable (review_post_url requestBody deal));
           ("processing_time_ms",
            JNumber (number_or (match RequestBody.data requestBody with
                                | Some d => CallbackData.processingTime d
                                | None => None end) 0))].

(** [HITLService.createReview(request)]: the row it inserts into [reviews],
    its notes the JSON text of the evidence, the metadata and the reason. *)
Definition createReview (runId dealId reason severity : string) (evidence : list Json)
           (metadata : Json) : Review.t :=
  Review.mk dealId (Some runId) (Some reason) severity "Open"
            (stringify (JObject [("evidence", JArray evidence);
                                 ("metadata", metadata);
                                 ("created_reason", JString reason)])).

(** The row the HITL service inserts for a callback. *)
Definition hitl_service_review (now : Z) (requestBody : RequestBody.t) (deal : Deal.t)
           (dealId verificationStatus : string) (overallScore : number) : Review.t :=
  createReview ("orchestrator-" ++ number_to_string (inject_Z now)) dealId
               (if String.eqb verificationStatus "error"
                then "ORCHESTRATOR_ERROR" else "MANUAL_REVIEW_NEEDED")
               (if lt overallScore 60 then "high" else "medium")
               (review_evidence requestBody deal verificationStatus overallScore)
               (review_metadata requestBody deal dealId verificationStatus overallScore).

(** [app.post('/callback')] from the parsed body on.  [body] is [None] when
    the request carries no JSON; a body is a JSON value other than [null],
    read through the keys of [RequestBody] (a number, a string or an array
    has none of them). *)
Definition callback (env : Env) (now : Z) (authHeader : option string)
           (body : option RequestBody.t) (w : World) : World * Response :=
  match authHeader with
  | None => (w, json (error_body "Unauthorized") 401)
  | Some h =>
  if negb (truthy_string h) || negb (String.eqb h expectedAuth)
  then (w, json (error_body "Unauthorized") 401)
  else
  match body with
  | None => (w, json (error_body "Invalid JSON body") 400)
  | Some requestBody =>
  let p := parse requestBody in
  match dealId p with
  | None => (w, json (error_body "Missing deal_id in callback") 400)
  | Some dealId =>
  let verificationStatus := verificationStatus p in
  let overallScore := overallScore p in
  if startsWith "test-deal-" dealId then
    ((if TEST_RESULTS_KV env
      then set_test_results w
             (kv_put dealId (verificationStatus, overallScore) (test_results w))
      else w),
     json (test_deal_body dealId overallScore verificationStatus) 200)
  else
  match deal_by_id w dealId with
  | None => (w, json (error_body "Deal not found") 404)
  | Some deal =>
  let v := decide requestBody verificationStatus overallScore in
  let result := enrichedOrchestratorResult requestBody verificationStatus overallScore in
  let updatedDeal := updateData v result now overallScore deal in
  let w1 := set_deals w
    (update_where (fun d => String.eqb (Deal.id d) dealId)
                  (updateData v result now overallScore) (deals w)) in
  let w2 := update_schedules now dealId requestBody overallScore w1 in
  let w3 := if shouldCreateHITLReview v
            then set_reviews w2 (reviews w2 ++ [direct_review dealId requestBody overallScore])
            else w2 in
  let w4 := if DealStatus_eqb (finalStatus v) Failed
            then processAutomaticRefund w3 updatedDeal (failureReason v)
            else w3 in
  let w5 := if DealStatus_eqb (finalStatus v) Verifying && HITL_ENABLED env
            then set_reviews w4
                   (reviews w4 ++ [hitl_service_review now requestBody deal dealId
                                                       verificationStatus overallScore])
            else w4 in
  (w5, json (callback_body (finalStatus v) overallScore) 200)
  end
  end
  end
  end.

(** The body of a request as [c.req.json()] yields it. *)
Inductive Payload :=
| no_json
| json_null
| json_value (requestBody : RequestBody.t).

(** [app.post('/callback')] on any request.  The handler reads
    [requestBody.data] before its [try]: on the body [null] this throws, and
    the application's error handler answers 500 (the answer outside the
    development environment, where it also carries the error's message). *)
Definition callback_request (env : Env) (now : Z) (authHeader : option string)
           (payload : Payload) (w : World) : World * Response :=
  match payload with
  | no_json => callback env now authHeader None w
  | json_value requestBody => callback env now authHeader (Some requestBody) w
  | json_null =>
      match authHeader with
      | Some h =>
          if negb (truthy_string h) || negb (String.eqb h expectedAuth)
          then (w, json (error_body "Unauthorized") 401)
          else (w, json (error_body "Internal Server Error") 500)
      | None => (w, json (error_body "Unauthorized") 401)
      end
  end.

End Orchestrator.

(* ------------------------------------------------------------------ *)
(** ** Deals router *)

Module Deals.

(** *** The schedule ladder of submit-post *)

(** [checkIntervalHours], from the duration the handler read. *)
Definition checkIntervalHours (durationHours : number) : number :=
  if Qle_bool durationHours (1 # 10) then 278 # 10000
  else if Qle_bool durationHours 24 then 4
  else if Qle_bool durationHours 72 then 12
  else 24.

(** [new Date(t.getTime() + checkIntervalHours * 60 * 60 * 1000)]. *)
Definition advance (t : Z) (checkIntervalHours : number) : Z :=
  Date (inject_Z t + checkIntervalHours * 60 * 60 * 1000).

(** The [while (nextCheck < deadline)] loop, as the instants it pushes. *)
Fixpoint periodic_loop (fuel : nat) (nextCheck deadline : Z)
         (checkIntervalHours : number) : list Z :=
  match fuel with
  | O => []
  | S f =>
      if nextCheck <? deadline
      then nextCheck
             :: periodic_loop f (advance nextCheck checkIntervalHours) deadline
                              checkIntervalHours
      else []
  end.

(** Every pass moves [nextCheck] by the interval, so the passes are at most
    the intervals that fit between [now] and the deadline. *)
Definition periodic_checks (now deadline : Z) (checkIntervalHours : number) : list Z :=
  periodic_loop (Z.to_nat ((deadline - now) / (advance now checkIntervalHours - now)))
                (advance now checkIntervalHours) deadline checkIntervalHours.

Definition pending_row (dealId : string) (ty : CheckType) (i : nat) (at_ : Z)
  : Schedule.t :=
  Schedule.mk i dealId at_ ty pending None None None None.

Fixpoint number_rows (dealId : string) (i : nat) (rows : list (CheckType * Z))
  : list Schedule.t :=
  match rows with
  | [] => []
  | (ty, at_) :: rest => pending_row dealId ty i at_ :: number_rows dealId (S i) rest
  end.

(** The rows of the ladder: the initial row, then the bulk insert of the
    periodic rows and the final row. *)
Definition ladder (now deadline : Z) (durationHours : number) : list (CheckType * Z) :=
  (initial, now)
    :: map (fun t => (periodic, t))
           (periodic_checks now deadline (checkIntervalHours durationHours))
    ++ [(final, deadline)].

Section Handlers.

(** [new URL(s)] does not throw. *)
Variable URL_parses : string -> bool.

Definition post_update (now : Z) (post_url : string) (d : Deal.t) : Deal.t :=
  Deal.mk (Deal.id d) (Deal.advertiser_id d) (Deal.creator_id d) (Deal.platform d)
          (Deal.amount_usdc d) (Deal.deadline_iso d) Verifying
          (Some post_url) (Some now)
          (Deal.failure_reason d) (Deal.verification_score d)
          (Deal.last_verification_at d) (Deal.orchestrator_result d)
          (Deal.cancelled_at d) (Deal.updated_at d).

(** The duration the handler reads from the updated row. *)
Definition durationHours_of (updateData : DealRow.t) : number :=
  number_or (match DealRow.proof_specs updateData with
             | Some ps => Some (ProofSpec.duration_hours ps)
             | None => None
             end) 24.

(** The review request of submit-post when the orchestrator is disabled. *)
Definition posted_evidence (dealId post_url : string) (data : Deal.t) : list Json :=
  [JObject [("type", JString "observation");
            ("text", JString "Creator submitted post URL for verification - orchestrator is disabled")];
   JObject [("type", JString "post_url");
            ("text", JString ("Post URL: " ++ post_url));
            ("ref", JString post_url)];
   JObject [("type", JString "deal_info");
            ("text", JString ("Platform: " ++ Deal.platform data ++ ", Amount: $"
                                ++ number_to_string (Deal.amount_usdc data)));
            ("ref", JString ("Deal " ++ dealId))]].

Definition posted_metadata (dealId post_url : string) (data : Deal.t) : Json :=
  JObject [("deal_id", JString dealId);
           ("platform", JString (Deal.platform data));
           ("amount_usdc", JNumber (Deal.amount_usdc data));
           ("post_url", JString post_url);
           ("verification_trigger", JString "creator_posted_url");
           ("orchestrator_status", JString "disabled")].

(** [app.post('/:id/submit-post')].  The dispatch to the orchestrator that
    follows the ladder leaves the store as it is. *)
Definition submit_post (env : Env) (now : Z) (user dealId : string)
           (post_url : option string) (w : World) : World * Response :=
  match post_url with
  | None => (w, json (error_body "post_url is required and must be a string") 400)
  | Some post_url =>
  if negb (truthy_string post_url)
  then (w, json (error_body "post_url is required and must be a string") 400)
  else if negb (URL_parses post_url)
  then (w, json (error_body "Invalid URL format") 400)
  else
  match deal_by_id w dealId with
  | None => (w, json (error_body "Deal not found") 404)
  | Some deal =>
  if negb (match Deal.creator_id deal with
           | Some cid => String.eqb cid user | None => false end)
  then (w, json (error_body "Only the creator can submit post URL") 403)
  else if negb (DealStatus_eqb (Deal.status deal) PendingVerification)
  then (w, json (error_body "Deal must be funded before submitting post URL") 400)
  else
  let matches := fun d : Deal.t =>
    String.eqb (Deal.id d) dealId
    && match Deal.creator_id d with
       | Some cid => String.eqb cid user | None => false end
    && DealStatus_eqb (Deal.status d) PendingVerification in
  let w1 := set_deals w (update_where matches (post_update now post_url) (deals w)) in
  let updateData := select_star (post_update now post_url deal) in
  let durationHours := durationHours_of updateData in
  let deadline := Deal.deadline_iso (DealRow.columns updateData) in
  let rows := number_rows dealId (fresh_schedule_id (verification_schedules w1))
                          (ladder now deadline durationHours) in
  let w2 := set_verification_schedules w1 (verification_schedules w1 ++ rows) in
  let w3 := if HITL_ENABLED env && negb (ORCHESTRATOR_ENABLED env)
            then set_reviews w2
                   (reviews w2 ++
                      [Orchestrator.createReview
                         ("posted-" ++ number_to_string (inject_Z now)) dealId
                         "ORCHESTRATOR_DISABLED" "high"
                         (posted_evidence dealId post_url deal)
                         (posted_metadata dealId post_url deal)])
            else w2 in
  (w3, json success_body 200)
  end
  end.

End Handlers.

(** *** Cancel *)

Definition cancel_update (now : Z) (d : Deal.t) : Deal.t :=
  Deal.mk (Deal.id d) (Deal.advertiser_id d) (Deal.creator_id d) (Deal.platform d)
          (Deal.amount_usdc d) (Deal.deadline_iso d) Cancelled
          (Deal.post_url d) (Deal.posted_at d)
          (Deal.failure_reason d) (Deal.verification_score d)
          (Deal.last_verification_at d) (Deal.orchestrator_result d)
          (Some now) (Deal.updated_at d).

(** [.eq('id', dealId).or(`advertiser_id.eq.${user.id},creator_id.eq.${user.id}`)]. *)
Definition cancel_filter (user dealId : string) (d : Deal.t) : bool :=
  String.eqb (Deal.id d) dealId
  && (String.eqb (Deal.advertiser_id d) user
      || match Deal.creator_id d with
         | Some cid => String.eqb cid user | None => false end).

(** [app.post('/:id/cancel')]. *)
Definition cancel (now : Z) (user dealId : string) (w : World) : World * Response :=
  match single (filter (cancel_filter user dealId) (deals w)) with
  | Some _ =>
      (set_deals w (update_where (cancel_filter user dealId) (cancel_update now) (deals w)),
       json success_body 200)
  | None => (w, json (error_body "Failed to cancel deal") 500)
  end.

End Deals.

(* ------------------------------------------------------------------ *)
(** ** The worker's settlement helpers and the duration-completion sweep *)

Module Worker.

(** [deal.identities] of [processCreatorPayout]: the creator's identity. *)
Definition creator_of (w : World) (deal : Deal.t) : option Identity.t :=
  match Deal.creator_id deal with
  | Some cid => identity_by_id w cid
  | None => None
  end.

Definition truthy_opt (x : option string) : option string :=
  match x with
  | Some v => if truthy_string v then Some v else None
  | None => None
  end.

(** [processCreatorPayout(supabaseAdmin, env, dealId)]. *)
Definition processCreatorPayout (w : World) (dealId : string) : World * result unit :=
  match deal_by_id w dealId with
  | None => (w, Throw "Deal not found")
  | Some deal =>
      let creator := creator_of w deal in
      let paymentMethod :=
        string_or (match escrow_event_of w dealId "Created" with
                   | Some e => EscrowEvent.payment_method e
                   | None => None
                   end) "stripe" in
      if String.eqb paymentMethod "solana" then
        match truthy_opt (match creator with
                          | Some i => Identity.solana_wallet_address i
                          | None => None end) with
        | None => (w, Throw "Creator Solana wallet not connected")
        | Some _ =>
            match Solana.processPayoutInternal w dealId with
            | (w', Ok _) => (w', Ok tt)
            | (w', Throw message) => (w', Throw message)
            end
        end
      else
        match truthy_opt (match creator with
                          | Some i => Identity.stripe_connect_account_id i
                          | None => None end) with
        | None => (w, Throw "Creator Stripe account not found")
        | Some account =>
            (set_payouts w
               (payouts w ++
                  [Payout.mk dealId "stripe" "pending_settlement"
                             (Deal.amount_usdc deal) (Some account)]),
             Ok tt)
        end
  end.

(** [processRefund(supabaseAdmin, env, dealId, reason)]. *)
Definition processRefund (w : World) (dealId reason : string) : World * result unit :=
  match escrow_event_of w dealId "FundEscrow" with
  | None => (w, Ok tt)
  | Some escrow =>
      let existingRefund :=
        single (filter (fun r => String.eqb (Refund.deal_id r) dealId) (refunds w)) in
      if match existingRefund with
         | Some r => String.eqb (Refund.status r) "completed"
                     || String.eqb (Refund.status r) "processing"
         | None => false
         end
      then (w, Ok tt)
      else
        let paymentMethod := string_or (EscrowEvent.payment_method escrow) "stripe" in
        if String.eqb paymentMethod "solana" then
          match Solana.refund_escrow true dealId reason w with
          | (w', json _ 200) => (w', Ok tt)
          | (w', json body _) =>
              (w', Throw ("Solana refund failed: "
                            ++ string_or (match body with
                                          | error_body e => Some e
                                          | _ => None
                                          end) "Unknown error"))
          end
        else
          let stripeRefund :=
            "re_" ++ NilZero.string_of_uint (Nat.to_uint (List.length (stripe_refunds w))) in
          let w1 := stripe_refunds_create w
                      (match EscrowEvent.tx_ref escrow with Some r => r | None => "" end)
                      (if String.eqb reason "dispute"
                       then "fraudulent" else "requested_by_customer") in
          let w2 := set_refunds w1
                      (refunds w1 ++
                         [Refund.mk dealId (EscrowEvent.amount_usdc escrow) reason
                                    "processing" (Some stripeRefund)]) in
          let w3 := set_escrow_events w2
                      (escrow_events w2 ++
                         [EscrowEvent.mk dealId "Refunded" (EscrowEvent.amount_usdc escrow)
                                         None (Some stripeRefund) None]) in
          (w3, Ok tt)
  end.

(** *** processVerificationCompletion *)

Record DealDiagnostic := mkDealDiagnostic {
  diag_deal_id : string;
  duration_hours : number;
  completion_time : Z;
  duration_met : bool;
  has_success : bool;
  action : string;
  payout_error : option string;
  refund_error : option string
}.

Record Diagnostics := mkDiagnostics {
  candidates : nat;
  diag_completed : list DealDiagnostic;
  diag_failed : list DealDiagnostic;
  diag_skipped : list DealDiagnostic
}.

(** The rows the sweep selects. *)
Definition is_candidate (d : Deal.t) : bool :=
  DealStatus_eqb (Deal.status d) Verifying
  && match Deal.last_verification_at d with Some _ => true | None => false end
  && match Deal.posted_at d with Some _ => true | None => false end.

Definition completionCandidates (w : World) : list DealRow.t :=
  map (select_with_proof_specs w) (filter is_candidate (deals w)).

Definition durationHours (row : DealRow.t) : number :=
  number_or (match DealRow.proof_specs row with
             | Some ps => Some (ProofSpec.duration_hours ps)
             | None => None
             end) 24.

(** [new Date(postedAt.getTime() + durationMs)]. *)
Definition completionTime (row : DealRow.t) : Z :=
  let postedAt := match Deal.posted_at (DealRow.columns row) with
                  | Some t => t | None => 0 end in
  let durationMs := (durationHours row * 60 * 60 * 1000)%Q in
  Date (inject_Z postedAt + durationMs).

Definition hasVerificationSuccess (deal : Deal.t) : bool :=
  match Deal.verification_score deal with
  | Some s => ge s 80
  | None => false
  end
  || match Deal.orchestrator_result deal with
     | Some r =>
         match Orchestrator.analysis_overall_score r with
         | Some s => ge s 80
         | None => false
         end
     | None => false
     end.

Definition complete_update (now : Z) (d : Deal.t) : Deal.t :=
  Deal.mk (Deal.id d) (Deal.advertiser_id d) (Deal.creator_id d) (Deal.platform d)
          (Deal.amount_usdc d) (Deal.deadline_iso d) Completed
          (Deal.post_url d) (Deal.posted_at d)
          (Deal.failure_reason d) (Deal.verification_score d)
          (Deal.last_verification_at d) (Deal.orchestrator_result d)
          (Deal.cancelled_at d) (Some now).

Definition fail_update (now : Z) (reason : string) (d : Deal.t) : Deal.t :=
  Deal.mk (Deal.id d) (Deal.advertiser_id d) (Deal.creator_id d) (Deal.platform d)
          (Deal.amount_usdc d) (Deal.deadline_iso d) Failed
          (Deal.post_url d) (Deal.posted_at d)
          (Some reason) (Deal.verification_score d)
          (Deal.last_verification_at d) (Deal.orchestrator_result d)
          (Deal.cancelled_at d) (Some now).

(** [.update({status, notes}).eq('deal_id', id).eq('status', 'pending')]. *)
Definition close_pending (dealId : string) (st : ScheduleStatus) (note : string)
           (rows : list Schedule.t) : list Schedule.t :=
  update_where
    (fun s => String.eqb (Schedule.deal_id s) dealId
              && ScheduleStatus_eqb (Schedule.status s) pending)
    (fun s => Schedule.mk (Schedule.id s) (Schedule.deal_id s) (Schedule.scheduled_at s)
                          (Schedule.check_type s) st (Schedule.completed_at s)
                          (Schedule.orchestrator_request_id s)
                          (Schedule.confidence_score s) (Some note))
    rows.

Definition error_of {A} (r : result A) : option string :=
  match r with Ok _ => None | Throw m => Some m end.

(** One pass of the [for (const deal of completionCandidates)] loop. *)
Definition completion_step (now : Z) (acc : World * Diagnostics) (row : DealRow.t)
  : World * Diagnostics :=
  let (w, diagnostics) := acc in
  let deal := DealRow.columns row in
  let dealId := Deal.id deal in
  let completion := completionTime row in
  if completion <=? now then
    let success := hasVerificationSuccess deal in
    if success then
      let w1 := set_deals w
        (update_where (fun d => String.eqb (Deal.id d) dealId) (complete_update now)
                      (deals w)) in
      let w2 := set_verification_schedules w1
        (close_pending dealId completed "Deal completed - duration requirement met"
                       (verification_schedules w1)) in
      let (w3, r) := processCreatorPayout w2 dealId in
      (w3, mkDiagnostics (candidates diagnostics)
             (diag_completed diagnostics ++
                [mkDealDiagnostic dealId (durationHours row) completion true true
                                  "complete" (error_of r) None])
             (diag_failed diagnostics) (diag_skipped diagnostics))
    else
      let w1 := set_deals w
        (update_where (fun d => String.eqb (Deal.id d) dealId)
           (fail_update now
              ("Duration completed (" ++ number_to_string (durationHours row)
                 ++ "h) without successful verification"))
           (deals w)) in
      let w2 := set_verification_schedules w1
        (close_pending dealId cancelled
           "Deal failed - duration completed without successful verification"
           (verification_schedules w1)) in
      let (w3, r) := processRefund w2 dealId "verification_failed" in
      (w3, mkDiagnostics (candidates diagnostics) (diag_completed diagnostics)
             (diag_failed diagnostics ++
                [mkDealDiagnostic dealId (durationHours row) completion true false
                                  "fail" None (error_of r)])
             (diag_skipped diagnostics))
  else
    (w, mkDiagnostics (candidates diagnostics) (diag_completed diagnostics)
          (diag_failed diagnostics)
          (diag_skipped diagnostics ++
             [mkDealDiagnostic dealId (durationHours row) completion false false
                               "skip_not_due" None None])).

(** [processVerificationCompletion(supabaseAdmin, now, env)]. *)
Definition processVerificationCompletion (now : Z) (w : World) : World * Diagnostics :=
  let rows := completionCandidates w in
  fold_left (completion_step now) rows
            (w, mkDiagnostics (List.length rows) [] [] []).

End Worker.

(* ------------------------------------------------------------------ *)
(** ** Observations on the store *)

Definition deal_rows (w : World) (dealId : string) : list Deal.t :=
  filter (fun d => String.eqb (Deal.id d) dealId) (deals w).

Definition schedules_of (w : World) (dealId : string) : list Schedule.t :=
  filter (fun s => String.eqb (Schedule.deal_id s) dealId) (verification_schedules w).

Definition reviews_of (w : World) (dealId : string) : list Review.t :=
  filter (fun r => String.eqb (Review.deal_id r) dealId) (reviews w).

(** The payouts and refunds of a deal whose status is not [failed]. *)
Definition non_failed_payouts (w : World) (dealId : string) : list Payout.t :=
  filter (fun p => String.eqb (Payout.deal_id p) dealId
                   && negb (String.eqb (Payout.status p) "failed"))
         (payouts w).

Definition non_failed_refunds (w : World) (dealId : string) : list Refund.t :=
  filter (fun r => String.eqb (Refund.deal_id r) dealId
                   && negb (String.eqb (Refund.status r) "failed"))
         (refunds w).

(** The primary key of [deals]. *)
Definition unique_deal_ids (w : World) : Prop := NoDup (map Deal.id (deals w)).

(** The world an accepted callback for a stored deal leaves behind. *)
Definition callback_world (env : Env) (now : Z) (requestBody : RequestBody.t)
           (dealId verificationStatus : string) (overallScore : number)
           (deal : Deal.t) (w : World) : World :=
  let v := Orchestrator.decide requestBody verificationStatus overallScore in
  let result :=
    Orchestrator.enrichedOrchestratorResult requestBody verificationStatus overallScore in
  let updatedDeal := Orchestrator.updateData v result now overallScore deal in
  let w1 := set_deals w
    (update_where (fun d => String.eqb (Deal.id d) dealId)
                  (Orchestrator.updateData v result now overallScore) (deals w)) in
  let w2 := Orchestrator.update_schedules now dealId requestBody overallScore w1 in
  let w3 := if Orchestrator.shouldCreateHITLReview v
            then set_reviews w2
                   (reviews w2 ++ [Orchestrator.direct_review dealId requestBody overallScore])
            else w2 in
  let w4 := if DealStatus_eqb (Orchestrator.finalStatus v) Failed
            then Orchestrator.processAutomaticRefund w3 updatedDeal
                                                     (Orchestrator.failureReason v)
            else w3 in
  if DealStatus_eqb (Orchestrator.finalStatus v) Verifying && HITL_ENABLED env
  then set_reviews w4
         (reviews w4 ++
            [Orchestrator.hitl_service_review now requestBody deal dealId verificationStatus
                                              overallScore])
  else w4.

(** Consecutive instants are [i] apart. *)
Fixpoint spaced (i : Z) (l : list Z) : Prop :=
  match l with
  | a :: (b :: _) as rest => b = a + i /\ spaced i rest
  | _ => True
  end.

Definition payouts_of (w : World) (dealId : string) : list Payout.t :=
  filter (fun p => String.eqb (Payout.deal_id p) dealId) (payouts w).


(** What a settlement executor sends for a deal amount: the lamports of
    [Math.round(amount * 1_000_000_000)]. *)
Definition lamports_of (amount : number) : double :=
  Math_round (mul (double_of amount) (Finite 1000000000)).



(* ------------------------------------------------------------------ *)
(** ** A deal followed through the handlers *)

Module Scenario.

Definition advertiser : string := "advertiser-1".
Definition creator : string := "creator-1".
Definition dealId : string := "deal-1".
Definition hour : Z := 3600000.
Definition T0 : Z := 1700000000000.
Definition env : Env := mkEnv true true true.

(** An accepted deal of 50 SOL waiting for its funding, the deadline three
    days after the post. *)
Definition accepted (duration_hours : number) : World :=
  mkWorld
    [Deal.mk dealId advertiser (Some creator) "tiktok" 50 (T0 + 72 * hour)
             PendingFunding None None None None None None None None]
    [ProofSpec.mk dealId "mention the sponsor" duration_hours]
    [] [] [] [] []
    [Identity.mk advertiser (Some "AdvertiserWallet") None;
     Identity.mk creator (Some "CreatorWallet") None]
    [] 200000000000 [] [].

Definition funded (duration_hours : number) : World :=
  fst (Solana.fund_escrow (T0 - hour) advertiser dealId "tx-fund" Solana.confirmed
                          (accepted duration_hours)).

Definition posted (duration_hours : number) : World :=
  fst (Deals.submit_post (fun _ => true) env T0 creator dealId
                         (Some "https://www.tiktok.com/@creator/video/1")
                         (funded duration_hours)).

(** A callback in the current format. *)
Definition completed_body (score : number) (confidence : option number)
           (requirements_failed : list string) : RequestBody.t :=
  RequestBody.mk (Some "completed")
    (Some (CallbackData.mk (Some dealId)
       (Some (Analysis.mk (Some score)
          (Some (ProofVerification.mk confidence (Some []) (Some requirements_failed)))
          None None))
       (Some ["ai_analysis"]) None None None))
    None None None None None (Some "request-1").

(** A callback in the legacy format reporting an error. *)
Definition legacy_error_body (score : option number) : RequestBody.t :=
  RequestBody.mk None None (Some dealId) (Some "error") score None None None.

Definition verified (duration_hours score : number) : World :=
  fst (Orchestrator.callback env (T0 + hour) (Some Orchestrator.expectedAuth)
         (Some (completed_body score (Some 90%Q) [])) (posted duration_hours)).

(** The deal's row once the creator has submitted the post. *)
Definition posted_deal : Deal.t :=
  Eval vm_compute in
    hd (Deal.mk "" "" None "" 0 0 PendingAcceptance None None None None None None None None)
       (deals (posted 24)).

(** The event the funding has recorded. *)
Definition funding_event : EscrowEvent.t :=
  Eval vm_compute in
    hd (EscrowEvent.mk "" "" None None None None) (escrow_events (posted 24)).

(** A callback in the current format reporting an error. *)
Definition error_body : RequestBody.t :=
  RequestBody.mk (Some "error")
    (Some (CallbackData.mk (Some dealId) None None (Some "download failed") None None))
    None None None None None None.

(** The deal's row once a callback with score 85 has been recorded. *)
Definition verified_deal : Deal.t :=
  Eval vm_compute in
    hd (Deal.mk "" "" None "" 0 0 PendingAcceptance None None None None None None None None)
       (deals (verified 24 85)).

(** The sweep an hour after a one-day duration has elapsed. *)
Definition swept (score : number) : World :=
  fst (Worker.processVerificationCompletion (T0 + 25 * hour) (verified 24 score)).

(** A completed deal that has not been paid out yet. *)
Definition completed_unpaid : World :=
  mkWorld
    [Deal.mk dealId advertiser (Some creator) "tiktok" 50 (T0 + 72 * hour)
             Completed (Some "https://www.tiktok.com/@creator/video/1") (Some T0)
             None (Some 85%Q) (Some (T0 + hour)) None None (Some (T0 + 25 * hour))]
    [ProofSpec.mk dealId "mention the sponsor" 24]
    []
    [EscrowEvent.mk dealId "Created" (Some 51%Q) (Some "solana") None (Some "tx-fund")]
    [] [] []
    [Identity.mk advertiser (Some "AdvertiserWallet") None;
     Identity.mk creator (Some "CreatorWallet") None]
    [] 200000000000 [] [].

(** A failed deal that has not been refunded yet. *)
Definition failed_unrefunded : World :=
  mkWorld
    [Deal.mk dealId advertiser (Some creator) "tiktok" 50 (T0 + 72 * hour)
             Failed (Some "https://www.tiktok.com/@creator/video/1") (Some T0)
             (Some "Verification failed - Score: 10/100") (Some 10%Q)
             (Some (T0 + hour)) None None None]
    [ProofSpec.mk dealId "mention the sponsor" 24]
    []
    [EscrowEvent.mk dealId "Created" (Some 51%Q) (Some "solana") None (Some "tx-fund")]
    [] [] []
    [Identity.mk advertiser (Some "AdvertiserWallet") None;
     Identity.mk creator (Some "CreatorWallet") None]
    [] 200000000000 [] [].

End Scenario.

(* ------------------------------------------------------------------ *)
(** ** Further routes of the deals router *)

Definition set_proof_specs (w : World) (x : list ProofSpec.t) : World :=
  mkWorld (deals w) x (verification_schedules w) (escrow_events w) (payouts w)
          (refunds w) (reviews w) (identities w) (test_results w)
          (platform_balance w) (transfers w) (stripe_refunds w).

Definition set_identities (w : World) (x : list Identity.t) : World :=
  mkWorld (deals w) (proof_specs w) (verification_schedules w) (escrow_events w)
          (payouts w) (refunds w) (reviews w) x (test_results w)
          (platform_balance w) (transfers w) (stripe_refunds w).

Module DealRoutes.

(** *** Accept *)

Definition accept_update (user : string) (d : Deal.t) : Deal.t :=
  Deal.mk (Deal.id d) (Deal.advertiser_id d) (Some user) (Deal.platform d)
          (Deal.amount_usdc d) (Deal.deadline_iso d) PendingFunding
          (Deal.post_url d) (Deal.posted_at d)
          (Deal.failure_reason d) (Deal.verification_score d)
          (Deal.last_verification_at d) (Deal.orchestrator_result d)
          (Deal.cancelled_at d) (Deal.updated_at d).

(** [.eq('id', dealId).eq('status', 'PendingAcceptance')]. *)
Definition accept_filter (dealId : string) (d : Deal.t) : bool :=
  String.eqb (Deal.id d) dealId && DealStatus_eqb (Deal.status d) PendingAcceptance.

(** [app.post('/:id/accept')]: the signed-in user becomes the creator. *)
Definition accept (user dealId : string) (w : World) : World * Response :=
  match deal_by_id w dealId with
  | None => (w, json (error_body "Deal not found") 404)
  | Some existingDeal =>
      if String.eqb (Deal.advertiser_id existingDeal) user
      then (w, json (error_body "You cannot accept your own deal") 400)
      else if negb (DealStatus_eqb (Deal.status existingDeal) PendingAcceptance)
      then (w, json (error_body "Deal is not available for acceptance") 400)
      else
        match single (filter (accept_filter dealId) (deals w)) with
        | Some _ =>
            (set_deals w (update_where (accept_filter dealId) (accept_update user) (deals w)),
             json success_body 200)
        | None => (w, json (error_body "Failed to accept deal") 500)
        end
  end.

(** *** Fund *)

Definition fund_update (d : Deal.t) : Deal.t :=
  Deal.mk (Deal.id d) (Deal.advertiser_id d) (Deal.creator_id d) (Deal.platform d)
          (Deal.amount_usdc d) (Deal.deadline_iso d) PendingVerification
          (Deal.post_url d) (Deal.posted_at d)
          None (Deal.verification_score d)
          (Deal.last_verification_at d) (Deal.orchestrator_result d)
          (Deal.cancelled_at d) (Deal.updated_at d).

(** [.eq('id', dealId).in('status', ['PendingFunding', 'Failed'])]. *)
Definition fund_filter (dealId : string) (d : Deal.t) : bool :=
  String.eqb (Deal.id d) dealId
  && (DealStatus_eqb (Deal.status d) PendingFunding
      || DealStatus_eqb (Deal.status d) Failed).

(** [app.post('/:id/fund')]: the escrow event is recorded with the deal's
    amount and the signature as it came, then the deal is moved on. *)
Definition fund (user dealId : string) (solana_signature : option string) (w : World)
  : World * Response :=
  match solana_signature with
  | None => (w, json (error_body "solana_signature required") 400)
  | Some signature =>
  if negb (truthy_string signature)
  then (w, json (error_body "solana_signature required") 400)
  else
  match deal_by_id w dealId with
  | None => (w, json (error_body "Deal not found") 404)
  | Some deal =>
  if negb (String.eqb (Deal.advertiser_id deal) user)
  then (w, json (error_body "Only the advertiser who created the deal can fund it") 403)
  else if negb (DealStatus_eqb (Deal.status deal) PendingFunding)
          && negb (DealStatus_eqb (Deal.status deal) Failed)
  then (w, json (error_body ("Deal is not in funding state. Current status: "
                               ++ DealStatus_name (Deal.status deal))) 400)
  else
  let w1 := set_escrow_events w
    (escrow_events w ++
       [EscrowEvent.mk dealId "Created" (Some (Deal.amount_usdc deal)) (Some "solana")
                       (Some signature) None]) in
  match filter (fund_filter dealId) (deals w1) with
  | [] => (w1, json (error_body "Deal not in correct status for funding") 400)
  | _ :: _ =>
      (set_deals w1 (update_where (fund_filter dealId) fund_update (deals w1)),
       json success_body 200)
  end
  end
  end.

(** *** Mark completed *)

Definition completed_update (now : Z) (d : Deal.t) : Deal.t :=
  Deal.mk (Deal.id d) (Deal.advertiser_id d) (Deal.creator_id d) (Deal.platform d)
          (Deal.amount_usdc d) (Deal.deadline_iso d) Completed
          (Deal.post_url d) (Some now)
          (Deal.failure_reason d) (Deal.verification_score d)
          (Deal.last_verification_at d) (Deal.orchestrator_result d)
          (Deal.cancelled_at d) (Deal.updated_at d).

(** [app.post('/:id/mark-completed')], with the filter of the cancel route. *)
Definition mark_completed (now : Z) (user dealId : string) (w : World)
  : World * Response :=
  match single (filter (Deals.cancel_filter user dealId) (deals w)) with
  | Some _ =>
      (set_deals w (update_where (Deals.cancel_filter user dealId) (completed_update now)
                                 (deals w)),
       json success_body 200)
  | None => (w, json (error_body "Failed to mark as completed") 500)
  end.

(** *** Update of the proof spec *)

(** The keys of the body the handler reads; a marker list counts as given
    whatever it holds. *)
Module ProofSpecUpdate.
Record t := mk {
  text_proof : option string;
  duration_hours : option number;
  visual_markers : option (list string);
  video_markers : option (list string);
  link_markers : option (list string)
}.
End ProofSpecUpdate.

Definition validDurations : list number := [833 # 10000; 24; 72; 168; 720]%Q.

(** [arr.includes(x)] on numbers. *)
Definition includes (l : list number) (x : number) : bool := existsb (Qeq_bool x) l.

Definition given {A} (x : option (list A)) : bool :=
  match x with Some _ => true | None => false end.

Definition modifiable (user dealId : string) (d : Deal.t) : bool :=
  String.eqb (Deal.id d) dealId
  && match Deal.creator_id d with Some cid => String.eqb cid user | None => false end
  && (DealStatus_eqb (Deal.status d) PendingFunding
      || DealStatus_eqb (Deal.status d) PendingAcceptance
      || DealStatus_eqb (Deal.status d) PendingVerification
      || DealStatus_eqb (Deal.status d) Verifying).

Definition newValues (body : ProofSpecUpdate.t) (old : ProofSpec.t) (ps : ProofSpec.t)
  : ProofSpec.t :=
  ProofSpec.mk (ProofSpec.deal_id ps)
               (string_or (ProofSpecUpdate.text_proof body) (ProofSpec.text_proof old))
               (number_or (ProofSpecUpdate.duration_hours body)
                          (ProofSpec.duration_hours old)).

(** [app.put('/:id/update-proof-spec')].  The marker columns are not among
    the columns followed here. *)
Definition update_proof_spec (user dealId : string) (body : ProofSpecUpdate.t) (w : World)
  : World * Response :=
  if negb (match ProofSpecUpdate.text_proof body with
           | Some t => truthy_string t | None => false end)
     && negb (match ProofSpecUpdate.duration_hours body with
              | Some h => truthy_number h | None => false end)
     && negb (given (ProofSpecUpdate.visual_markers body))
     && negb (given (ProofSpecUpdate.video_markers body))
     && negb (given (ProofSpecUpdate.link_markers body))
  then (w, json (error_body "At least one proof specification field must be updated") 400)
  else if match ProofSpecUpdate.duration_hours body with
          | Some h => negb (includes validDurations h)
          | None => false
          end
  then (w, json (error_body "Duration must be 0.0833 (5min test), 24, 72, 168, or 720 hours")
                400)
  else if match ProofSpecUpdate.text_proof body with
          | Some t => (2000 <? String.length t)%nat
          | None => false
          end
  then (w, json (error_body "Text proof requirements cannot exceed 2000 characters") 400)
  else
    match single (filter (modifiable user dealId) (deals w)) with
    | None =>
        (w, json (error_body "Deal not found or cannot be modified (only deals by creator before completion can be modified)") 404)
    | Some deal =>
        match DealRow.proof_specs (select_with_proof_specs w deal) with
        | Some old =>
            (set_proof_specs w
               (update_where (fun ps => String.eqb (ProofSpec.deal_id ps) dealId)
                             (newValues body old) (proof_specs w)),
             json success_body 200)
        | None => (w, json success_body 200)
        end
    end.

End DealRoutes.

(* ------------------------------------------------------------------ *)
(** ** Verification schedule routes *)

Module ScheduleRoutes.

Record NextVerification := mkNextVerification {
  scheduled_at : Z;
  check_type : CheckType;
  interval_hours : Z
}.

(** [Math.max(...existingSchedules.map(s => new Date(s.scheduled_at).getTime()))]
    on a list that is not empty. *)
Definition latest (s : Schedule.t) (rest : list Schedule.t) : Z :=
  fold_left (fun m x => Z.max m (Schedule.scheduled_at x)) rest (Schedule.scheduled_at s).

(** [calculateNextVerification(deal, existingSchedules)], the clock read
    at [now]; the display text of the result is left out. *)
Definition calculateNextVerification (now : Z) (deal : DealRow.t)
           (existingSchedules : list Schedule.t) : option NextVerification :=
  let d := DealRow.columns deal in
  let deadline := Deal.deadline_iso d in
  let durationHours :=
    number_or (match DealRow.proof_specs deal with
               | Some ps => Some (ProofSpec.duration_hours ps)
               | None => None
               end) 24 in
  if negb (DealStatus_eqb (Deal.status d) PendingVerification
           || DealStatus_eqb (Deal.status d) Verifying
           || DealStatus_eqb (Deal.status d) Completed)
  then None
  else if DealStatus_eqb (Deal.status d) Completed
          || DealStatus_eqb (Deal.status d) Failed
          || DealStatus_eqb (Deal.status d) Cancelled
  then None
  else
    let checkInterval :=
      if Qle_bool durationHours 24 then 4
      else if Qle_bool durationHours 72 then 12
      else 24 in
    let futureSchedules :=
      filter (fun s => (now <? Schedule.scheduled_at s)
                       && ScheduleStatus_eqb (Schedule.status s) pending)
             existingSchedules in
    match futureSchedules with
    | s :: _ =>
        Some (mkNextVerification (Schedule.scheduled_at s) (Schedule.check_type s)
                                 checkInterval)
    | [] =>
        let postedAt := match Deal.posted_at d with Some t => t | None => now end in
        let lastCheckTime :=
          match existingSchedules with
          | s :: rest => latest s rest
          | [] => postedAt
          end in
        let nextCheckTime := lastCheckTime + checkInterval * 60 * 60 * 1000 in
        if deadline <? nextCheckTime
        then Some (mkNextVerification deadline final checkInterval)
        else Some (mkNextVerification nextCheckTime periodic checkInterval)
    end.

End ScheduleRoutes.

(* ------------------------------------------------------------------ *)
(** ** The scheduled handler: dispatch of the due checks *)

Module Scheduler.

(** [s.trim() === ''], a string being a sequence of code units below 256. *)
Definition is_white_space (c : ascii) : bool :=
  let n := nat_of_ascii c in
  ((9 <=? n) && (n <=? 13) || (n =? 32) || (n =? 160))%nat.

Fixpoint blank (s : string) : bool :=
  match s with
  | EmptyString => true
  | String c rest => is_white_space c && blank rest
  end.

Definition expire (s : Schedule.t) : Schedule.t :=
  Schedule.mk (Schedule.id s) (Schedule.deal_id s) (Schedule.scheduled_at s)
              (Schedule.check_type s) expired (Schedule.completed_at s)
              (Schedule.orchestrator_request_id s) (Schedule.confidence_score s)
              (Some "Deal past deadline").

Definition invalid_url (url : string) (s : Schedule.t) : Schedule.t :=
  Schedule.mk (Schedule.id s) (Schedule.deal_id s) (Schedule.scheduled_at s)
              (Schedule.check_type s) failed (Schedule.completed_at s)
              (Schedule.orchestrator_request_id s) (Schedule.confidence_score s)
              (Some ("Invalid post URL: " ++ url)).

Definition run (s : Schedule.t) : Schedule.t :=
  Schedule.mk (Schedule.id s) (Schedule.deal_id s) (Schedule.scheduled_at s)
              (Schedule.check_type s) running (Schedule.completed_at s)
              (Schedule.orchestrator_request_id s) (Schedule.confidence_score s)
              (Schedule.notes s).

(** [result.requestId || `cron-${schedule.id}`]: the trigger returns no
    request id. *)
Definition triggered (s : Schedule.t) : Schedule.t :=
  Schedule.mk (Schedule.id s) (Schedule.deal_id s) (Schedule.scheduled_at s)
              (Schedule.check_type s) running (Schedule.completed_at s)
              (Some ("cron-" ++ NilZero.string_of_uint (Nat.to_uint (Schedule.id s))))
              (Schedule.confidence_score s) (Schedule.notes s).

Definition trigger_failed (now : Z) (s : Schedule.t) : Schedule.t :=
  Schedule.mk (Schedule.id s) (Schedule.deal_id s) (Schedule.scheduled_at s)
              (Schedule.check_type s) failed (Some now)
              (Schedule.orchestrator_request_id s) (Schedule.confidence_score s)
              (Schedule.notes s).

(** [.update(f).eq('id', schedule.id)]. *)
Definition mark (sid : nat) (f : Schedule.t -> Schedule.t) (w : World) : World :=
  set_verification_schedules w
    (update_where (fun s => Nat.eqb (Schedule.id s) sid) f (verification_schedules w)).

(** A row of the due-schedules select: the schedule with its deal, when the
    schedule is pending and due within five minutes and the deal is in
    verification with a post URL. *)
Definition due (now : Z) (w : World) (s : Schedule.t) : option (Schedule.t * Deal.t) :=
  if ScheduleStatus_eqb (Schedule.status s) pending
     && (Schedule.scheduled_at s <=? now + 5 * 60 * 1000)
  then
    match deal_by_id w (Schedule.deal_id s) with
    | Some d =>
        if DealStatus_eqb (Deal.status d) Verifying
           && match Deal.post_url d with Some _ => true | None => false end
        then Some (s, d) else None
    | None => None
    end
  else None.

Fixpoint select_due (now : Z) (w : World) (rows : list Schedule.t)
  : list (Schedule.t * Deal.t) :=
  match rows with
  | [] => []
  | s :: rest =>
      match due now w s with
      | Some r => r :: select_due now w rest
      | None => select_due now w rest
      end
  end.

(** [.limit(20)], the rows in the order of the table. *)
Definition dueSchedules (now : Z) (w : World) : list (Schedule.t * Deal.t) :=
  firstn 20 (select_due now w (verification_schedules w)).

Section Dispatch.

(** [new URL(s)] does not throw. *)
Variable URL_parses : string -> bool.

(** The orchestrator answers the request for this deal and URL with a
    success status. *)
Variable orchestrator_accepts : string -> string -> bool.

(** [triggerOrchestratorVerification(c, deal, postUrl).success]. *)
Definition triggerOrchestratorVerification (env : Env) (deal : Deal.t) (postUrl : string)
  : bool :=
  if negb (ORCHESTRATOR_ENABLED env) then false
  else orchestrator_accepts (Deal.id deal) postUrl.

(** One pass of the [for (const schedule of dueSchedules)] loop; the second
    component lists the calls of the trigger, schedule and deal. *)
Definition dispatch_step (env : Env) (now : Z) (acc : World * list (nat * string))
           (row : Schedule.t * Deal.t) : World * list (nat * string) :=
  let (w, calls) := acc in
  let (schedule, deal) := row in
  let sid := Schedule.id schedule in
  if Deal.deadline_iso deal <? now then (mark sid expire w, calls)
  else
    let isValidPostUrl :=
      match Deal.post_url deal with
      | Some u => truthy_string u && negb (blank u) && URL_parses u
      | None => false
      end in
    let url := match Deal.post_url deal with Some u => u | None => "null" end in
    if negb isValidPostUrl then (mark sid (invalid_url url) w, calls)
    else
      let w1 := mark sid run w in
      if triggerOrchestratorVerification env deal url
      then (mark sid triggered w1, (calls ++ [(sid, Deal.id deal)])%list)
      else (mark sid (trigger_failed now) w1, (calls ++ [(sid, Deal.id deal)])%list).

Definition dispatch (env : Env) (now : Z) (w : World) : World * list (nat * string) :=
  fold_left (dispatch_step env now) (dueSchedules now w) (w, []).

(** The checks a due schedule passes before the trigger is called: the
    deal is within its deadline and its post URL is valid. *)
Definition attempted (now : Z) (row : Schedule.t * Deal.t) : bool :=
  negb (Deal.deadline_iso (snd row) <? now)
  && match Deal.post_url (snd row) with
     | Some u => truthy_string u && negb (blank u) && URL_parses u
     | None => false
     end.

(** The row a pass leaves in place of its schedule. *)
Definition outcome (env : Env) (now : Z) (row : Schedule.t * Deal.t) (s : Schedule.t)
  : Schedule.t :=
  let url := match Deal.post_url (snd row) with Some u => u | None => "null" end in
  if Deal.deadline_iso (snd row) <? now then expire s
  else if negb (attempted now row) then invalid_url url s
  else if triggerOrchestratorVerification env (snd row) url then triggered (run s)
  else trigger_failed now (run s).

(** [scheduled(event, env, ctx)]: the dispatch, then the completion sweep,
    both only when the orchestrator is enabled. *)
Definition scheduled (env : Env) (now : Z) (w : World) : World :=
  if ORCHESTRATOR_ENABLED env
  then fst (Worker.processVerificationCompletion now (fst (dispatch env now w)))
  else w.

End Dispatch.

(** [app.post('/trigger-payout/:dealId')]. *)
Definition trigger_payout (dealId : string) (w : World) : World * Response :=
  match deal_by_id w dealId with
  | None => (w, json (error_body "Deal not found") 404)
  | Some deal =>
      if negb (DealStatus_eqb (Deal.status deal) Completed)
      then (w, json (error_body ("Deal status is " ++ DealStatus_name (Deal.status deal)
                                   ++ ", must be Completed")) 400)
      else
        let existingPayouts :=
          filter (fun p => String.eqb (Payout.deal_id p) dealId) (payouts w) in
        let w1 :=
          match existingPayouts with
          | [] => w
          | _ :: _ =>
              set_payouts w
                (filter (fun p => negb (String.eqb (Payout.deal_id p) dealId)) (payouts w))
          end in
        match Worker.processCreatorPayout w1 dealId with
        | (w2, Ok _) => (w2, json success_body 200)
        | (w2, Throw message) => (w2, json (error_body message) 500)
        end
  end.

End Scheduler.

(* ------------------------------------------------------------------ *)
(** ** Refunds routes *)

Module Refunds.

Definition validReasons : list string :=
  ["verification_failed"; "deadline_missed"; "dispute"; "manual"].

Definition refund_update (now : Z) (reason : string) (d : Deal.t) : Deal.t :=
  Deal.mk (Deal.id d) (Deal.advertiser_id d) (Deal.creator_id d) (Deal.platform d)
          (Deal.amount_usdc d) (Deal.deadline_iso d) Cancelled
          (Deal.post_url d) (Deal.posted_at d)
          (Some ("Refund processed: " ++ reason)) (Deal.verification_score d)
          (Deal.last_verification_at d) (Deal.orchestrator_result d)
          (Some now) (Deal.updated_at d).

(** The refund itself: the Stripe refund, its row, the deal, the escrow
    event, in this order. *)
Definition refund_now (now : Z) (dealId reason : string) (escrow : EscrowEvent.t)
           (w : World) : World :=
  let stripeRefund :=
    "re_" ++ NilZero.string_of_uint (Nat.to_uint (List.length (stripe_refunds w))) in
  let w1 := stripe_refunds_create w
              (match EscrowEvent.tx_ref escrow with Some r => r | None => "" end)
              (if String.eqb reason "dispute"
               then "fraudulent" else "requested_by_customer") in
  let w2 := set_refunds w1
              (refunds w1 ++
                 [Refund.mk dealId (EscrowEvent.amount_usdc escrow) reason
                            "processing" (Some stripeRefund)]) in
  let w3 := set_deals w2
              (update_where (fun d => String.eqb (Deal.id d) dealId)
                            (refund_update now reason) (deals w2)) in
  set_escrow_events w3
    (escrow_events w3 ++
       [EscrowEvent.mk dealId "Refunded" (EscrowEvent.amount_usdc escrow)
                       None (Some stripeRefund) None]).

(** [app.post('/process')]. *)
Definition process (now : Z) (dealId reason : option string) (w : World)
  : World * Response :=
  match dealId, reason with
  | Some dealId, Some reason =>
  if negb (truthy_string dealId) || negb (truthy_string reason)
  then (w, json (error_body "dealId and reason are required") 400)
  else if negb (existsb (String.eqb reason) validReasons)
  then (w, json (error_body ("Invalid reason. Must be one of: " ++ join ", " validReasons))
                400)
  else
  match escrow_event_of w dealId "Created" with
  | None => (w, json (error_body "No payment found for this deal") 404)
  | Some escrow =>
  let existingRefund :=
    single (filter (fun r => String.eqb (Refund.deal_id r) dealId) (refunds w)) in
  if match existingRefund with
     | Some r => String.eqb (Refund.status r) "completed"
     | None => false
     end
  then (w, json (error_body "Refund already completed for this deal") 400)
  else if match existingRefund with
          | Some r => String.eqb (Refund.status r) "processing"
          | None => false
          end
  then (w, json (error_body "Refund already in progress for this deal") 400)
  else (refund_now now dealId reason escrow w, json success_body 200)
  end
  | _, _ => (w, json (error_body "dealId and reason are required") 400)
  end.

End Refunds.

(* ------------------------------------------------------------------ *)
(** ** Further observations and cases *)

(** What a callback may do to a row of [deals]: it keeps the parties, the
    amount, the deadline and the post, and a status it writes is Verifying
    or Failed. *)
Definition verdict_written (d d' : Deal.t) : Prop :=
  Deal.id d' = Deal.id d
  /\ Deal.advertiser_id d' = Deal.advertiser_id d
  /\ Deal.creator_id d' = Deal.creator_id d
  /\ Deal.amount_usdc d' = Deal.amount_usdc d
  /\ Deal.deadline_iso d' = Deal.deadline_iso d
  /\ Deal.post_url d' = Deal.post_url d
  /\ Deal.posted_at d' = Deal.posted_at d
  /\ (Deal.status d' = Deal.status d
      \/ Deal.status d' = Verifying \/ Deal.status d' = Failed).

(** The primary key of [verification_schedules]. *)
Definition unique_schedule_ids (w : World) : Prop :=
  NoDup (map Schedule.id (verification_schedules w)).

Module Walkthrough.


End Walkthrough.

Module Dispatching.

(** The check that is due when the post has just been submitted. *)
Definition first_due : Schedule.t * Deal.t :=
  Eval vm_compute in
    hd (Schedule.mk 0 "" 0 initial pending None None None None, Scenario.verified_deal)
       (Scheduler.dueSchedules Scenario.T0 (Scenario.posted 24)).

End Dispatching.

Module Offer.

(** The deal of [Scenario] as the advertiser created it: no creator yet. *)
Definition offered : World :=
  mkWorld
    [Deal.mk Scenario.dealId Scenario.advertiser None "tiktok" 50
             (Scenario.T0 + 72 * Scenario.hour)
             PendingAcceptance None None None None None None None None]
    [ProofSpec.mk Scenario.dealId "mention the sponsor" 24]
    [] [] [] [] []
    [Identity.mk Scenario.advertiser (Some "AdvertiserWallet") None;
     Identity.mk Scenario.creator (Some "CreatorWallet") None]
    [] 200000000000 [] [].

Definition offered_deal : Deal.t :=
  Deal.mk Scenario.dealId Scenario.advertiser None "tiktok" 50
          (Scenario.T0 + 72 * Scenario.hour)
          PendingAcceptance None None None None None None None None.

End Offer.

Module StripeDeal.

(** A deal paid through Stripe that failed its verification. *)
Definition failed : World :=
  mkWorld
    [Deal.mk Scenario.dealId Scenario.advertiser (Some Scenario.creator) "tiktok" 50
             (Scenario.T0 + 72 * Scenario.hour)
             Failed (Some "https://www.tiktok.com/@creator/video/1") (Some Scenario.T0)
             (Some "Verification failed - Score: 10/100") (Some 10%Q)
             (Some (Scenario.T0 + Scenario.hour)) None None None]
    [ProofSpec.mk Scenario.dealId "mention the sponsor" 24]
    []
    [EscrowEvent.mk Scenario.dealId "Created" (Some 50%Q) (Some "stripe") (Some "pi_1") None]
    [] [] []
    [Identity.mk Scenario.advertiser None None;
     Identity.mk Scenario.creator None (Some "acct_1")]
    [] 0 [] [].

(** The same deal completed. *)
Definition completed : World :=
  set_deals failed (map (Worker.complete_update (Scenario.T0 + 25 * Scenario.hour))
                        (deals failed)).



(** The failed deal with its payment recorded under the event type the
    worker's refund helper looks for. *)
Definition failed_FundEscrow : World :=
  set_escrow_events failed
    [EscrowEvent.mk Scenario.dealId "FundEscrow" (Some 50%Q) (Some "stripe") (Some "pi_1")
                    None].

End StripeDeal.

(* ------------------------------------------------------------------ *)
(** * Properties *)

(** ** Numbers *)

Lemma round_half_even_Z (x : Q) (k : Z) : (x == inject_Z k)%Q -> round_half_even x = k.
Proof.
  intro E. unfold round_half_even.
  assert (Hf : Qfloor x = k) by (rewrite E; apply Qfloor_Z).
  rewrite Hf.
  assert (Hc : (x - inject_Z k ?= 1 # 2)%Q = Lt).
  { apply Qlt_alt. rewrite E. unfold Qminus. rewrite Qplus_opp_r. reflexivity. }
  now rewrite Hc.
Qed.

Lemma round_half_even_floor (x : Q) : Qfloor x <= round_half_even x.
Proof.
  unfold round_half_even.
  destruct (x - inject_Z (Qfloor x) ?= 1 # 2)%Q; [destruct (Z.even _)| |]; lia.
Qed.

Lemma exponent2_Z (z : Z) : 0 < z -> exponent2 (inject_Z z) = Z.log2 z.
Proof.
  intro Hz. unfold exponent2. simpl. rewrite Z.sub_0_r.
  assert (H : Qle_bool (2 ^ Z.log2 z) (inject_Z z) = true).
  { apply Qle_bool_iff.
    rewrite <- (Zpower_Qpower 2 (Z.log2 z)) by apply Z.log2_nonneg.
    rewrite <- Zle_Qle. apply Z.log2_spec. exact Hz. }
  now rewrite H.
Qed.

Lemma Qred_inject_Z (z : Z) : Qred (inject_Z z) = inject_Z z.
Proof.
  unfold Qred, inject_Z.
  pose proof (Z.ggcd_gcd z 1) as Hg. pose proof (Z.ggcd_correct_divisors z 1) as Hd.
  destruct (Z.ggcd z 1) as [g [aa bb]]. simpl in *.
  rewrite Z.gcd_1_r in Hg. subst g. destruct Hd as [Ha Hb].
  rewrite Z.mul_1_l in Ha, Hb. subst aa bb. reflexivity.
Qed.

Lemma pow2_pos (p : Z) : (0 < 2 ^ p)%Q.
Proof. apply Qpower_0_lt. reflexivity. Qed.

(** An integer of at most 53 bits is a double. *)
Lemma double_of_Z (z : Z) : Z.abs z <= 2 ^ 53 -> double_of (inject_Z z) = Finite (inject_Z z).
Proof.
  intro Hz. unfold double_of.
  destruct (Qeq_bool (inject_Z z) 0) eqn:E0.
  { apply Qeq_bool_iff in E0. unfold Qeq in E0. simpl in E0.
    assert (z = 0) by lia. subst z. reflexivity. }
  assert (Hnz : z <> 0).
  { intro H. subst z. discriminate E0. }
  assert (Ha : Qabs (inject_Z z) = inject_Z (Z.abs z)) by reflexivity.
  rewrite Ha. set (a := Z.abs z) in *.
  assert (Hpos : 0 < a) by lia.
  rewrite (exponent2_Z a Hpos).
  pose proof (Z.log2_spec a Hpos) as [Hlo Hhi].
  assert (He : Z.log2 a <= 53).
  { destruct (Z_le_gt_dec (Z.log2 a) 53) as [H|H]; [exact H|].
    assert (2 ^ 54 <= 2 ^ Z.log2 a) by (apply Z.pow_le_mono_r; lia). lia. }
  pose proof (Z.log2_nonneg a) as Hn.
  rewrite Z.max_l by lia.
  set (p := Z.log2 a - 52).
  assert (Hk : exists k, (inject_Z a / 2 ^ p == inject_Z k)%Q).
  { destruct (Z_le_gt_dec p 0) as [Hp|Hp].
    - exists (a * 2 ^ (- p)).
      rewrite inject_Z_mult, Zpower_Qpower by lia.
      change (inject_Z 2) with 2%Q.
      rewrite Qpower_opp. unfold Qdiv. reflexivity.
    - assert (p = 1) by lia. assert (a = 2 ^ 53).
      { assert (Z.log2 a = 53) by lia. rewrite H0 in Hlo. lia. }
      exists (2 ^ 52). rewrite H, H0. reflexivity. }
  destruct Hk as [k Hk].
  rewrite (round_half_even_Z _ _ Hk).
  assert (Hr : (inject_Z k * 2 ^ p == inject_Z a)%Q).
  { rewrite <- Hk. field. apply Qnot_eq_sym, Qlt_not_eq, pow2_pos. }
  assert (Hbig : Qle_bool (2 ^ 1024) (inject_Z k * 2 ^ p) = false).
  { destruct (Qle_bool (2 ^ 1024) (inject_Z k * 2 ^ p)) eqn:Eb; [|reflexivity].
    apply Qle_bool_iff in Eb. rewrite Hr in Eb.
    assert (H1 : (inject_Z a <= inject_Z (2 ^ 53))%Q) by (rewrite <- Zle_Qle; lia).
    assert (H2 : (inject_Z (2 ^ 53) < 2 ^ 1024)%Q) by reflexivity.
    exfalso. apply (Qlt_irrefl (2 ^ 1024)).
    eapply Qle_lt_trans; [exact Eb|]. eapply Qle_lt_trans; [exact H1 | exact H2]. }
  rewrite Hbig. f_equal.
  unfold negative. simpl.
  destruct (z <? 0) eqn:Es.
  - apply Z.ltb_lt in Es.
    transitivity (Qred (inject_Z z)); [apply Qred_complete | apply Qred_inject_Z].
    rewrite Hr. subst a. unfold Qeq. simpl. lia.
  - apply Z.ltb_ge in Es.
    transitivity (Qred (inject_Z z)); [apply Qred_complete | apply Qred_inject_Z].
    rewrite Hr. subst a. unfold Qeq. simpl. lia.
Qed.

(** An integer from [2^53] on rounds to a number from [2^53] on. *)
Lemma double_of_large (z : Z) :
  2 ^ 53 <= z ->
  match double_of (inject_Z z) with
  | Finite r => (inject_Z (2 ^ 53) <= r)%Q
  | Infinity s => s = false
  | NaN => False
  end.
Proof.
  intro Hz. unfold double_of.
  assert (Hpos : 0 < z) by lia.
  destruct (Qeq_bool (inject_Z z) 0) eqn:E0.
  { apply Qeq_bool_iff in E0. unfold Qeq in E0. simpl in E0. lia. }
  assert (Ha : Qabs (inject_Z z) = inject_Z z).
  { unfold Qabs, inject_Z. f_equal. lia. }
  rewrite Ha, (exponent2_Z z Hpos).
  pose proof (Z.log2_spec z Hpos) as [Hlo Hhi].
  assert (He : 53 <= Z.log2 z).
  { destruct (Z_le_gt_dec 53 (Z.log2 z)) as [H|H]; [exact H|].
    assert (2 ^ (Z.succ (Z.log2 z)) <= 2 ^ 53) by (apply Z.pow_le_mono_r; lia). lia. }
  rewrite Z.max_l by lia.
  set (p := Z.log2 z - 52).
  assert (Hneg : negative (inject_Z z) = false).
  { unfold negative. simpl. apply Z.ltb_ge. lia. }
  rewrite Hneg.
  set (m := round_half_even (inject_Z z / 2 ^ p)).
  assert (Hp2 : (2 ^ p == inject_Z (2 ^ p))%Q).
  { rewrite Zpower_Qpower by lia. reflexivity. }
  assert (Hm : 2 ^ 52 <= m).
  { subst m. eapply Z.le_trans; [|apply round_half_even_floor].
    rewrite <- (Qfloor_Z (2 ^ 52)). apply Qfloor_resp_le.
    apply Qle_shift_div_l; [apply pow2_pos|].
    rewrite Hp2, <- inject_Z_mult, <- Zle_Qle.
    rewrite <- Z.pow_add_r by lia.
    replace (52 + p) with (Z.log2 z) by lia. exact Hlo. }
  assert (Hr : (inject_Z (2 ^ 53) <= inject_Z m * 2 ^ p)%Q).
  { rewrite Hp2, <- inject_Z_mult, <- Zle_Qle.
    assert (2 ^ 1 <= 2 ^ p) by (apply Z.pow_le_mono_r; lia).
    change (2 ^ 53) with (2 ^ 52 * 2 ^ 1). apply Z.mul_le_mono_nonneg; lia. }
  destruct (Qle_bool (2 ^ 1024) (inject_Z m * 2 ^ p)); [reflexivity|].
  rewrite Qred_correct. exact Hr.
Qed.

(** Rounding is symmetric about zero. *)
Lemma double_of_opp (z : Z) :
  z < 0 ->
  double_of (inject_Z z)
  = match double_of (inject_Z (- z)) with
    | Finite r => Finite (Qred (- r))
    | Infinity sg => Infinity (negb sg)
    | NaN => NaN
    end.
Proof.
  intro Hz. unfold double_of.
  assert (E1 : Qeq_bool (inject_Z z) 0 = false).
  { destruct (Qeq_bool (inject_Z z) 0) eqn:E; [|reflexivity].
    apply Qeq_bool_iff in E. unfold Qeq in E. simpl in E. lia. }
  assert (E2 : Qeq_bool (inject_Z (- z)) 0 = false).
  { destruct (Qeq_bool (inject_Z (- z)) 0) eqn:E; [|reflexivity].
    apply Qeq_bool_iff in E. unfold Qeq in E. simpl in E. lia. }
  rewrite E1, E2.
  assert (Ha : Qabs (inject_Z z) = Qabs (inject_Z (- z))).
  { unfold Qabs, inject_Z. f_equal. lia. }
  rewrite Ha.
  assert (N1 : negative (inject_Z z) = true) by (apply Z.ltb_lt; exact Hz).
  assert (N2 : negative (inject_Z (- z)) = false) by (apply Z.ltb_ge; simpl; lia).
  rewrite N1, N2.
  destruct (Qle_bool _ _); [reflexivity|].
  f_equal. apply Qred_complete. now rewrite Qred_correct.
Qed.

Lemma inject_Z_plus_eq (a b : Z) : (inject_Z a + inject_Z b)%Q = inject_Z (a + b).
Proof.
  unfold Qplus, inject_Z. simpl. now rewrite !Z.mul_1_r.
Qed.

(** The balance check of the settlement executors, on a balance below
    [2^53] lamports: it passes exactly when the balance covers the amount
    and the reserve. *)
Lemma balance_check (balance amount : Z) :
  0 <= balance < 2 ^ 53 ->
  less (double_of (inject_Z balance))
       (add (Finite (inject_Z amount)) (Finite (inject_Z Solana.RESERVE)))
  = (balance <? amount + Solana.RESERVE).
Proof.
  intros [H0 H1]. unfold add. rewrite inject_Z_plus_eq.
  rewrite (double_of_Z balance) by lia.
  set (need := amount + Solana.RESERVE).
  destruct (Z_le_gt_dec (Z.abs need) (2 ^ 53)) as [Hs|Hb].
  - rewrite (double_of_Z need Hs). unfold less.
    destruct (Qle_bool (inject_Z need) (inject_Z balance)) eqn:E; simpl; symmetry.
    + apply Qle_bool_iff in E. rewrite <- Zle_Qle in E. apply Z.ltb_ge. exact E.
    + apply Z.ltb_lt. apply Z.lt_nge. intro L. rewrite Zle_Qle in L.
      apply Qle_bool_iff in L. congruence.
  - destruct (Z_le_gt_dec 0 need) as [Hp|Hn].
    + pose proof (double_of_large need ltac:(lia)) as HL.
      assert (Hlt : (balance <? need) = true) by (apply Z.ltb_lt; lia).
      rewrite Hlt.
      destruct (double_of (inject_Z need)) as [r|sg|]; simpl.
      * destruct (Qle_bool r (inject_Z balance)) eqn:E; [|reflexivity].
        apply Qle_bool_iff in E.
        assert (inject_Z (2 ^ 53) <= inject_Z balance)%Q
          by (eapply Qle_trans; eassumption).
        rewrite <- Zle_Qle in H. lia.
      * now rewrite HL.
      * destruct HL.
    + assert (Hlt : (balance <? need) = false) by (apply Z.ltb_ge; lia).
      rewrite Hlt.
      pose proof (double_of_large (- need) ltac:(lia)) as HL.
      assert (Hopp : double_of (inject_Z need)
                     = match double_of (inject_Z (- need)) with
                       | Finite r => Finite (Qred (- r))
                       | Infinity sg => Infinity (negb sg)
                       | NaN => NaN
                       end).
      { apply double_of_opp. lia. }
      rewrite Hopp.
      destruct (double_of (inject_Z (- need))) as [r|sg|]; unfold less.
      * destruct (Qle_bool (Qred (- r)) (inject_Z balance)) eqn:E; [reflexivity|].
        exfalso. assert (Qred (- r) <= inject_Z balance)%Q.
        { rewrite Qred_correct.
          assert (inject_Z 0 <= inject_Z balance)%Q by (rewrite <- Zle_Qle; lia).
          assert (inject_Z 0 <= inject_Z (2 ^ 53))%Q by (rewrite <- Zle_Qle; lia).
          change (inject_Z 0) with 0%Q in *. lra. }
        apply Qle_bool_iff in H. congruence.
      * now rewrite HL.
      * destruct HL.
Qed.

(** ** The store *)

Section StoreLemmas.

Context {A : Type}.

Lemma single_map (f : A -> A) (rows : list A) :
  single (map f rows) = option_map f (single rows).
Proof.
  destruct rows as [|r [|r' rest]]; reflexivity.
Qed.

Lemma single_some (rows : list A) (r : A) :
  single rows = Some r -> rows = [r].
Proof.
  destruct rows as [|r0 [|r1 rest]]; simpl; intro H; inversion H; reflexivity.
Qed.

(** The rows an update selects, after the update, when the update keeps
    them selected. *)
Lemma filter_update_where_same (p : A -> bool) (f : A -> A) (rows : list A) :
  (forall r, p r = true -> p (f r) = true) ->
  filter p (update_where p f rows) = map f (filter p rows).
Proof.
  intro Hp. unfold update_where.
  induction rows as [|r rest IH]; simpl; [reflexivity|].
  destruct (p r) eqn:E; simpl.
  - rewrite (Hp r E). simpl. now rewrite IH.
  - rewrite E. exact IH.
Qed.

(** The rows an update neither selects nor produces. *)
Lemma filter_update_where_other (p q : A -> bool) (f : A -> A) (rows : list A) :
  (forall r, q r = true -> p r = false /\ p (f r) = false) ->
  filter p (update_where q f rows) = filter p rows.
Proof.
  intro Hq. unfold update_where.
  induction rows as [|r rest IH]; simpl; [reflexivity|].
  destruct (q r) eqn:E.
  - destruct (Hq r E) as [H1 H2]. rewrite H1, H2. exact IH.
  - destruct (p r); now rewrite IH.
Qed.

End StoreLemmas.


(** A deal is the only row of [deals] with its id. *)
Lemma unique_row (ds : list Deal.t) (d : Deal.t) :
  NoDup (map Deal.id ds) -> In d ds ->
  filter (fun x => String.eqb (Deal.id x) (Deal.id d)) ds = [d].
Proof.
  induction ds as [|x ds IH]; intros Hnd Hin; [destruct Hin|].
  simpl in Hnd. inversion Hnd as [|? ? Hx Hnd']; subst.
  assert (Hnone : forall y, ~ In (Deal.id y) (map Deal.id ds) ->
                            filter (fun x => String.eqb (Deal.id x) (Deal.id y)) ds = []).
  { intros y Hy. clear -Hy. induction ds as [|z ds IH]; [reflexivity|].
    simpl in *. destruct (String.eqb_spec (Deal.id z) (Deal.id y)) as [E|N].
    - exfalso. apply Hy. now left.
    - apply IH. intro H. apply Hy. now right. }
  destruct Hin as [->|Hin]; simpl.
  - rewrite String.eqb_refl. now rewrite (Hnone d Hx).
  - destruct (String.eqb_spec (Deal.id x) (Deal.id d)) as [E|N].
    + exfalso. apply Hx. rewrite E. now apply in_map.
    + now apply IH.
Qed.

(** ** Settlement executors *)

(** A successful [processPayoutInternal] appends a [Completed] payout
    whatever the payouts already recorded for the deal: it reads [deals] and
    [identities], never [payouts]. *)
Lemma processPayoutInternal_appends (w w' : World) (deal_id signature : string) :
  Solana.processPayoutInternal w deal_id = (w', Ok signature) ->
  exists amount,
    payouts w' =
    (payouts w ++ [Payout.mk deal_id "Solana" "Completed" amount (Some signature)])%list.
Proof.
  unfold Solana.processPayoutInternal.
  destruct (deal_by_id w deal_id) as [deal|]; [|discriminate].
  destruct (negb (DealStatus_eqb (Deal.status deal) Completed)); [discriminate|].
  destruct (Solana.wallet_of w (Deal.creator_id deal)) as [wallet|]; [|discriminate].
  destruct (less _ _); [discriminate|].
  destruct (Solana.u64 _); [|discriminate].
  intro H. inversion H; subst. simpl. eexists. reflexivity.
Qed.

(** [processRefund] returns at once when the deal's refund row is
    [completed] or [processing]. *)
Lemma processRefund_short_circuits (w : World) (dealId reason : string) (r : Refund.t) :
  single (filter (fun r => String.eqb (Refund.deal_id r) dealId) (refunds w)) = Some r ->
  Refund.status r = "completed" \/ Refund.status r = "processing" ->
  Worker.processRefund w dealId reason = (w, Ok tt).
Proof.
  intros Hr Hs. unfold Worker.processRefund.
  destruct (escrow_event_of w dealId "FundEscrow"); [|reflexivity].
  rewrite Hr. destruct Hs as [-> | ->]; reflexivity.
Qed.

(** [processRefund] does nothing for a deal without a [FundEscrow] event. *)
Lemma processRefund_without_FundEscrow (w : World) (dealId reason : string) :
  escrow_event_of w dealId "FundEscrow" = None ->
  Worker.processRefund w dealId reason = (w, Ok tt).
Proof.
  intro H. unfold Worker.processRefund. now rewrite H.
Qed.

(** On the Stripe path [processRefund] is idempotent: for a deal with a
    [FundEscrow] event and no refund row yet, the first call records one
    [processing] refund and a second call changes nothing. *)
Lemma processRefund_stripe_idempotent (w : World) (dealId reason : string)
      (escrow : EscrowEvent.t) :
  escrow_event_of w dealId "FundEscrow" = Some escrow ->
  String.eqb (string_or (EscrowEvent.payment_method escrow) "stripe") "solana" = false ->
  filter (fun r => String.eqb (Refund.deal_id r) dealId) (refunds w) = [] ->
  let w1 := fst (Worker.processRefund w dealId reason) in
  List.length (non_failed_refunds w1 dealId) = 1%nat
  /\ Worker.processRefund w1 dealId reason = (w1, Ok tt).
Proof.
  intros He Hm Hr w1. subst w1.
  destruct (Worker.processRefund w dealId reason) as [w1 r] eqn:E.
  unfold Worker.processRefund in E. rewrite He, Hr, Hm in E. simpl in E.
  inversion E as [[E1 E2]]. clear E E2. simpl.
  set (row := Refund.mk dealId (EscrowEvent.amount_usdc escrow) reason "processing" _) in *.
  assert (Hrows : filter (fun r => String.eqb (Refund.deal_id r) dealId) (refunds w1)
                  = [row]).
  { subst w1. simpl. rewrite filter_app, Hr. simpl.
    now rewrite String.eqb_refl. }
  split.
  - unfold non_failed_refunds. subst w1. simpl. rewrite filter_app. simpl.
    rewrite String.eqb_refl. simpl.
    assert (filter (fun r => String.eqb (Refund.deal_id r) dealId
                             && negb (String.eqb (Refund.status r) "failed"))
                   (refunds w) = []) as ->.
    { clear -Hr. induction (refunds w) as [|r rs IH]; [reflexivity|].
      simpl in *. destruct (String.eqb (Refund.deal_id r) dealId); [discriminate|].
      simpl. now apply IH. }
    reflexivity.
  - rewrite E1. apply (processRefund_short_circuits w1 dealId reason row).
    + now rewrite Hrows.
    + right. reflexivity.
Qed.

(** The event the Solana funding route records is a [Created] event. *)
Lemma fund_escrow_records_Created (now : Z) (user deal_id tx : string)
      (status : Solana.Transaction) (w w' : World) (b : Body) :
  Solana.fund_escrow now user deal_id tx status w = (w', json b 200) ->
  exists amount,
    escrow_events w' =
    (escrow_events w
       ++ [EscrowEvent.mk deal_id "Created" amount (Some "solana") None (Some tx)])%list.
Proof.
  unfold Solana.fund_escrow.
  destruct (negb (truthy_string deal_id) || negb (truthy_string tx)); [discriminate|].
  destruct (deal_by_id w deal_id) as [deal|]; [|discriminate].
  destruct (negb (String.eqb (Deal.advertiser_id deal) user)); [discriminate|].
  destruct (negb (DealStatus_eqb (Deal.status deal) PendingFunding)
            && negb (DealStatus_eqb (Deal.status deal) Failed)); [discriminate|].
  destruct status; try discriminate.
  intro H. inversion H; subst. simpl. eexists. reflexivity.
Qed.

(** C1. Settlement idempotence fails for the payout executor and for the
    Solana refund executor: neither looks for an existing record.  On a
    completed, not yet paid deal two calls of [processPayoutInternal] both
    succeed and leave two [Completed] payouts and two transfers to the
    creator; the release-escrow route pays the deal the sweep has already
    paid a second time; on a failed deal two calls of the refund route
    leave two [completed] refunds. *)
Theorem payout_executor_settles_twice :
  let w1 := fst (Solana.processPayoutInternal Scenario.completed_unpaid Scenario.dealId) in
  let w2 := fst (Solana.processPayoutInternal w1 Scenario.dealId) in
  let s1 := Scenario.swept 85 in
  let s2 := Solana.release_escrow true Scenario.dealId s1 in
  let r1 := fst (Solana.refund_escrow true Scenario.dealId "verification_failed"
                                      Scenario.failed_unrefunded) in
  let r2 := fst (Solana.refund_escrow true Scenario.dealId "verification_failed" r1) in
  non_failed_payouts Scenario.completed_unpaid Scenario.dealId = []
  /\ non_failed_payouts w2 Scenario.dealId =
       [Payout.mk Scenario.dealId "Solana" "Completed" 50 (Some "sig-0");
        Payout.mk Scenario.dealId "Solana" "Completed" 50 (Some "sig-1")]
  /\ transfers w2 = [Transfer.mk "CreatorWallet" 50000000000;
                     Transfer.mk "CreatorWallet" 50000000000]
  /\ List.length (non_failed_payouts s1 Scenario.dealId) = 1%nat
  /\ snd s2 = json (settlement_body Scenario.dealId "sig-1") 200
  /\ List.length (non_failed_payouts (fst s2) Scenario.dealId) = 2%nat
  /\ non_failed_refunds r2 Scenario.dealId =
       [Refund.mk Scenario.dealId (Some 50%Q) "verification_failed" "completed" None;
        Refund.mk Scenario.dealId (Some 50%Q) "verification_failed" "completed" None]
  /\ transfers r2 = [Transfer.mk "AdvertiserWallet" 50000000000;
                     Transfer.mk "AdvertiserWallet" 50000000000].
Proof.
  vm_compute. repeat split; reflexivity.
Qed.

(** ** The callback handler *)

Lemma append_empty_r (s : string) : (s ++ "")%string = s.
Proof.
  induction s as [|c s IH]; simpl; [reflexivity | now rewrite IH].
Qed.

Lemma callback_accepted (env : Env) (now : Z) (requestBody : RequestBody.t) (w : World)
      (dealId verificationStatus : string) (overallScore : number) (deal : Deal.t) :
  Orchestrator.parse requestBody
    = Orchestrator.mkParsed (Some dealId) verificationStatus overallScore ->
  startsWith "test-deal-" dealId = false ->
  deal_by_id w dealId = Some deal ->
  Orchestrator.callback env now (Some Orchestrator.expectedAuth) (Some requestBody) w
  = (callback_world env now requestBody dealId verificationStatus overallScore deal w,
     json (callback_body
             (Orchestrator.finalStatus
                (Orchestrator.decide requestBody verificationStatus overallScore))
             overallScore) 200).
Proof.
  intros Hp Ht Hd. unfold Orchestrator.callback.
  change (negb (truthy_string Orchestrator.expectedAuth)
          || negb (String.eqb Orchestrator.expectedAuth Orchestrator.expectedAuth))
    with false.
  cbv iota. rewrite Hp. cbn [Orchestrator.dealId Orchestrator.verificationStatus
                             Orchestrator.overallScore].
  rewrite Ht, Hd. reflexivity.
Qed.

Lemma update_schedules_deals now dealId requestBody score w :
  deals (Orchestrator.update_schedules now dealId requestBody score w) = deals w.
Proof.
  unfold Orchestrator.update_schedules.
  now destruct (Orchestrator.earliest _).
Qed.

Lemma update_schedules_frame now dealId requestBody score w :
  let w' := Orchestrator.update_schedules now dealId requestBody score w in
  payouts w' = payouts w /\ refunds w' = refunds w /\ transfers w' = transfers w
  /\ reviews w' = reviews w /\ escrow_events w' = escrow_events w
  /\ identities w' = identities w /\ platform_balance w' = platform_balance w.
Proof.
  unfold Orchestrator.update_schedules.
  destruct (Orchestrator.earliest _); simpl; repeat split; reflexivity.
Qed.

Lemma processRefundInternal_deals w deal_id reason :
  deals (fst (Solana.processRefundInternal w deal_id reason)) = deals w.
Proof.
  unfold Solana.processRefundInternal.
  destruct (deal_by_id w deal_id) as [deal|]; [|reflexivity].
  destruct (negb _ && negb _); [reflexivity|].
  destruct (Solana.wallet_of w _); [|reflexivity].
  destruct (less _ _); [reflexivity|].
  destruct (Solana.u64 _); reflexivity.
Qed.

Lemma deal_by_id_update (dealId : string) (f : Deal.t -> Deal.t) (deal : Deal.t)
      (ds : list Deal.t) :
  (forall d, Deal.id (f d) = Deal.id d) ->
  single (filter (fun d => String.eqb (Deal.id d) dealId) ds) = Some deal ->
  single (filter (fun d => String.eqb (Deal.id d) dealId)
                 (update_where (fun d => String.eqb (Deal.id d) dealId) f ds))
  = Some (f deal).
Proof.
  intros Hf Hd.
  rewrite filter_update_where_same.
  - rewrite single_map, Hd. reflexivity.
  - intros r Hr. pose proof (Hf r) as E. congruence.
Qed.

(** Whatever the stored status, an accepted callback writes the status it
    decided, the score and the result: the handler never reads
    [deal.status]. *)
Lemma callback_writes_verdict (env : Env) (now : Z) (requestBody : RequestBody.t)
      (w : World) (dealId verificationStatus : string) (overallScore : number)
      (deal : Deal.t) :
  deal_by_id w dealId = Some deal ->
  let v := Orchestrator.decide requestBody verificationStatus overallScore in
  let w' := callback_world env now requestBody dealId verificationStatus overallScore deal w in
  exists d',
    deal_by_id w' dealId = Some d'
    /\ Deal.status d' = Orchestrator.finalStatus v
    /\ Deal.verification_score d' = Some overallScore
    /\ Deal.last_verification_at d' = Some now
    /\ Deal.orchestrator_result d'
       = Some (Orchestrator.enrichedOrchestratorResult requestBody verificationStatus
                                                       overallScore)
    /\ (Orchestrator.finalStatus v = Failed ->
        exists tail,
          Deal.failure_reason d'
          = option_map (fun r => (r ++ tail)%string) (Orchestrator.failureReason v)).
Proof.
  intros Hd v w'. subst w'. unfold callback_world. fold v.
  set (result := Orchestrator.enrichedOrchestratorResult _ _ _).
  set (upd := Orchestrator.updateData v result now overallScore).
  set (w1 := set_deals w _).
  set (w2 := Orchestrator.update_schedules now dealId requestBody overallScore w1).
  set (w3 := if Orchestrator.shouldCreateHITLReview v then _ else w2).
  assert (H3 : deals w3 = deals w1).
  { subst w3. destruct (Orchestrator.shouldCreateHITLReview v); simpl;
      subst w2; apply update_schedules_deals. }
  assert (H1 : deal_by_id w3 dealId = Some (upd deal)).
  { unfold deal_by_id. rewrite H3. subst w1. simpl.
    apply deal_by_id_update; [intro; reflexivity | exact Hd]. }
  assert (Hid : Deal.id (upd deal) = dealId).
  { unfold deal_by_id in Hd. apply single_some in Hd.
    assert (In deal (filter (fun d => String.eqb (Deal.id d) dealId) (deals w)))
      as Hin by (rewrite Hd; now left).
    apply filter_In in Hin. destruct Hin as [_ E].
    apply String.eqb_eq in E. exact E. }
  destruct (DealStatus_eqb (Orchestrator.finalStatus v) Failed) eqn:EF.
  - (* the refund path *)
    assert (Hv : DealStatus_eqb (Orchestrator.finalStatus v) Verifying = false)
      by (destruct (Orchestrator.finalStatus v); simpl in *; congruence).
    rewrite Hv. cbn [andb].
    unfold Orchestrator.processAutomaticRefund. rewrite Hid.
    destruct (String.eqb _ "solana").
    + pose proof (processRefundInternal_deals w3 dealId "verification_failed") as HR.
      destruct (Solana.processRefundInternal w3 dealId "verification_failed")
        as [wr [sig|message]]; simpl in HR.
      * exists (upd deal). unfold deal_by_id. rewrite HR. fold (deal_by_id w3 dealId).
        rewrite H1. repeat split; try reflexivity.
        intros _. exists ""%string. simpl. rewrite EF.
        destruct (Orchestrator.failureReason v); simpl; [|reflexivity].
        now rewrite append_empty_r.
      * set (reason := (_ ++ _)%string).
        exists (Orchestrator.set_failure_reason reason (upd deal)).
        unfold deal_by_id. simpl. rewrite HR.
        split.
        { apply deal_by_id_update; [intro; reflexivity | exact H1]. }
        repeat split; try reflexivity.
        intros _. subst reason.
        exists (" (refund pending: " ++ message ++ ")")%string. simpl.
        destruct (Orchestrator.failureReason v) eqn:Efr; simpl.
        -- reflexivity.
        -- exfalso. subst v. unfold Orchestrator.decide in *.
           repeat match type of Efr with
                  | context [if ?c then _ else _] => destruct c; simpl in *
                  end; try discriminate.
    + exists (upd deal). rewrite H1. repeat split; try reflexivity.
      intros _. exists ""%string. simpl. rewrite EF.
      destruct (Orchestrator.failureReason v); simpl; [|reflexivity].
      now rewrite append_empty_r.
  - exists (upd deal).
    assert (Hne : Orchestrator.finalStatus v = Failed -> False)
      by (intro E; rewrite E in EF; discriminate).
    destruct (DealStatus_eqb (Orchestrator.finalStatus v) Verifying && HITL_ENABLED env);
      (split; [unfold deal_by_id; simpl; apply H1
              | repeat split; try reflexivity; intro E; destruct (Hne E)]).
Qed.

Lemma processRefundInternal_frame w deal_id reason :
  let w' := fst (Solana.processRefundInternal w deal_id reason) in
  reviews w' = reviews w /\ payouts w' = payouts w
  /\ verification_schedules w' = verification_schedules w.
Proof.
  unfold Solana.processRefundInternal.
  destruct (deal_by_id w deal_id) as [deal|]; [|now simpl].
  destruct (negb _ && negb _); [now simpl|].
  destruct (Solana.wallet_of w _); [|now simpl].
  destruct (less _ _); [now simpl|].
  destruct (Solana.u64 _); now simpl.
Qed.

Lemma processRefundInternal_keeps w deal_id reason :
  let w' := fst (Solana.processRefundInternal w deal_id reason) in
  deals w' = deals w /\ payouts w' = payouts w /\ escrow_events w' = escrow_events w
  /\ proof_specs w' = proof_specs w /\ identities w' = identities w
  /\ verification_schedules w' = verification_schedules w /\ reviews w' = reviews w
  /\ test_results w' = test_results w.
Proof.
  unfold Solana.processRefundInternal.
  destruct (deal_by_id w deal_id); [|cbn; auto 10].
  destruct (_ && _); [cbn; auto 10|].
  destruct (Solana.wallet_of _ _); [|cbn; auto 10].
  destruct (less _ _); [cbn; auto 10|].
  destruct (Solana.u64 _); cbn; auto 10.
Qed.

Lemma processAutomaticRefund_reviews w deal reason :
  reviews (Orchestrator.processAutomaticRefund w deal reason) = reviews w.
Proof.
  unfold Orchestrator.processAutomaticRefund.
  destruct (String.eqb _ "solana"); [|reflexivity].
  pose proof (processRefundInternal_frame w (Deal.id deal) "verification_failed") as [H _].
  destruct (Solana.processRefundInternal w (Deal.id deal) "verification_failed")
    as [w' [s|m]]; simpl in *; exact H.
Qed.

(** A callback whose verdict keeps the deal in [Verifying] settles nothing
    and inserts the review rows the verdict and the environment ask for. *)
Lemma callback_world_verifying (env : Env) (now : Z) (requestBody : RequestBody.t)
      (w : World) (dealId verificationStatus : string) (overallScore : number)
      (deal : Deal.t) :
  let v := Orchestrator.decide requestBody verificationStatus overallScore in
  let w' := callback_world env now requestBody dealId verificationStatus overallScore deal w in
  Orchestrator.finalStatus v = Verifying ->
  payouts w' = payouts w /\ refunds w' = refunds w /\ transfers w' = transfers w
  /\ reviews w'
     = (reviews w
          ++ (if Orchestrator.shouldCreateHITLReview v
              then [Orchestrator.direct_review dealId requestBody overallScore] else [])
          ++ (if HITL_ENABLED env
              then [Orchestrator.hitl_service_review now requestBody deal dealId
                                                     verificationStatus overallScore]
              else []))%list.
Proof.
  intros v w' Hv. subst w'. unfold callback_world. fold v. rewrite Hv. simpl.
  set (w1 := set_deals w _).
  destruct (update_schedules_frame now dealId requestBody overallScore w1)
    as (Hp & Hr & Ht & Hrv & _).
  destruct (Orchestrator.shouldCreateHITLReview v), (HITL_ENABLED env); simpl;
    rewrite ?Hp, ?Hr, ?Ht, ?Hrv; subst w1; simpl;
    rewrite <- ?app_assoc, ?app_nil_r; repeat split; reflexivity.
Qed.

(** A callback whose verdict fails the deal inserts no review row. *)
Lemma callback_world_failed_reviews (env : Env) (now : Z) (requestBody : RequestBody.t)
      (w : World) (dealId verificationStatus : string) (overallScore : number)
      (deal : Deal.t) :
  let v := Orchestrator.decide requestBody verificationStatus overallScore in
  Orchestrator.finalStatus v = Failed ->
  Orchestrator.shouldCreateHITLReview v = false ->
  reviews (callback_world env now requestBody dealId verificationStatus overallScore deal w)
  = reviews w.
Proof.
  intros v Hv Hh. unfold callback_world. fold v. rewrite Hv, Hh. simpl.
  rewrite processAutomaticRefund_reviews.
  set (w1 := set_deals w _).
  destruct (update_schedules_frame now dealId requestBody overallScore w1)
    as (_ & _ & _ & Hrv & _).
  rewrite Hrv. reflexivity.
Qed.

(** C2. A stale callback is not a no-op.  After the sweep has completed and
    paid the deal, a callback reporting score 85 is answered with success
    and puts the deal back to [Verifying] with a new verification time, and
    a callback naming a failed requirement turns the paid deal to [Failed]
    and sends a refund to the advertiser on top of the payout. *)
Theorem stale_callback_rewrites_completed_deal :
  let w := Scenario.swept 85 in
  let late := Scenario.T0 + 26 * Scenario.hour in
  let pass := Orchestrator.callback Scenario.env late (Some Orchestrator.expectedAuth)
                (Some (Scenario.completed_body 85 (Some 90%Q) [])) w in
  let fail := Orchestrator.callback Scenario.env late (Some Orchestrator.expectedAuth)
                (Some (Scenario.completed_body 95 (Some 90%Q) ["text_proof"])) w in
  option_map Deal.status (deal_by_id w Scenario.dealId) = Some Completed
  /\ List.length (non_failed_payouts w Scenario.dealId) = 1%nat
  /\ snd pass = json (callback_body Verifying 85) 200
  /\ option_map Deal.status (deal_by_id (fst pass) Scenario.dealId) = Some Verifying
  /\ option_map Deal.last_verification_at (deal_by_id (fst pass) Scenario.dealId)
     = Some (Some late)
  /\ snd fail = json (callback_body Failed 95) 200
  /\ option_map Deal.status (deal_by_id (fst fail) Scenario.dealId) = Some Failed
  /\ transfers (fst fail) = [Transfer.mk "CreatorWallet" 50000000000;
                             Transfer.mk "AdvertiserWallet" 50000000000]
  /\ List.length (non_failed_refunds (fst fail) Scenario.dealId) = 1%nat.
Proof.
  vm_compute. repeat split; reflexivity.
Qed.

(** C5. Requirement failure dominates the score.  For a completed callback
    that names at least one failed requirement, whatever the score, the
    verdict is [Failed] with the reason carrying the comma-joined
    requirements and no review; the handler answers with status [Failed],
    stores [Failed] and that reason (followed, when the automatic Solana
    refund could not be sent, by the refund note) and opens no review. *)
Theorem requirement_failure_dominates_score
        (env : Env) (now : Z) (requestBody : RequestBody.t) (w : World)
        (dealId : string) (score : number) (deal : Deal.t) (missing : list string) :
  Orchestrator.parse requestBody = Orchestrator.mkParsed (Some dealId) "completed" score ->
  startsWith "test-deal-" dealId = false ->
  deal_by_id w dealId = Some deal ->
  Orchestrator.requirements_failed_of requestBody = Some missing ->
  missing <> [] ->
  let reason := ("Verification requirements not met: " ++ join ", " missing)%string in
  Orchestrator.decide requestBody "completed" score
  = Orchestrator.mkVerdict Failed (Some reason) false
  /\ exists w' d' tail,
      Orchestrator.callback env now (Some Orchestrator.expectedAuth) (Some requestBody) w
      = (w', json (callback_body Failed score) 200)
      /\ deal_by_id w' dealId = Some d'
      /\ Deal.status d' = Failed
      /\ Deal.failure_reason d' = Some (reason ++ tail)%string
      /\ Deal.verification_score d' = Some score
      /\ reviews w' = reviews w.
Proof.
  intros Hp Ht Hd Hm Hne reason.
  assert (Hv : Orchestrator.decide requestBody "completed" score
               = Orchestrator.mkVerdict Failed (Some reason) false).
  { unfold Orchestrator.decide. simpl. rewrite Hm. simpl.
    destruct missing as [|m rest]; [congruence|]. reflexivity. }
  split; [exact Hv|].
  rewrite (callback_accepted env now requestBody w dealId "completed" score deal Hp Ht Hd).
  rewrite Hv. simpl.
  destruct (callback_writes_verdict env now requestBody w dealId "completed" score deal Hd)
    as (d' & H1 & H2 & H3 & _ & _ & H6).
  rewrite Hv in H2, H6. simpl in H2, H6.
  destruct (H6 eq_refl) as [tail Htail].
  exists (callback_world env now requestBody dealId "completed" score deal w), d', tail.
  repeat split; try assumption.
  apply callback_world_failed_reviews; rewrite Hv; reflexivity.
Qed.

Lemma requirement_failure_dominates_score_witness :
  exists w' d' tail,
    Orchestrator.callback Scenario.env (Scenario.T0 + Scenario.hour)
      (Some Orchestrator.expectedAuth)
      (Some (Scenario.completed_body 95 (Some 90%Q) ["text_proof"; "platform"]))
      (Scenario.posted 24)
    = (w', json (callback_body Failed 95) 200)
    /\ deal_by_id w' Scenario.dealId = Some d'
    /\ Deal.status d' = Failed
    /\ Deal.failure_reason d'
       = Some ("Verification requirements not met: text_proof, platform" ++ tail)%string
    /\ Deal.verification_score d' = Some 95%Q
    /\ reviews w' = reviews (Scenario.posted 24).
Proof.
  refine (proj2 (requirement_failure_dominates_score
                   Scenario.env (Scenario.T0 + Scenario.hour)
                   (Scenario.completed_body 95 (Some 90%Q) ["text_proof"; "platform"])
                   (Scenario.posted 24) Scenario.dealId 95 _ ["text_proof"; "platform"]
                   _ _ _ _ _)).
  - reflexivity.
  - reflexivity.
  - reflexivity.
  - reflexivity.
  - discriminate.
Defined.

(** ** Thresholds *)

Lemma ge_false (x y : number) : (x < y)%Q -> ge x y = false.
Proof.
  intro H. unfold ge. destruct (Qle_bool y x) eqn:E; [|reflexivity].
  apply Qle_bool_iff in E. lra.
Qed.

Lemma ge_false_inv (x y : number) : ge x y = false -> (x < y)%Q.
Proof.
  unfold ge. intro H. apply Qnot_le_lt. intro L.
  apply Qle_bool_iff in L. congruence.
Qed.

Lemma lt_true (x y : number) : (x < y)%Q -> lt x y = true.
Proof.
  intro H. unfold lt. fold (ge x y). now rewrite ge_false.
Qed.

Lemma lt_false_inv (x y : number) : lt x y = false -> (y <= x)%Q.
Proof.
  unfold lt. intro H. apply Qle_bool_iff.
  destruct (Qle_bool y x); [reflexivity | discriminate].
Qed.

Lemma decide_status (requestBody : RequestBody.t) (verificationStatus : string)
      (overallScore : number) :
  let v := Orchestrator.decide requestBody verificationStatus overallScore in
  (Orchestrator.finalStatus v = Verifying /\ Orchestrator.failureReason v = None
   \/ Orchestrator.finalStatus v = Verifying
      /\ Orchestrator.shouldCreateHITLReview v = true
   \/ Orchestrator.finalStatus v = Failed
      /\ Orchestrator.shouldCreateHITLReview v = false
      /\ exists reason, Orchestrator.failureReason v = Some reason).
Proof.
  unfold Orchestrator.decide.
  destruct (String.eqb verificationStatus "error"); [cbn; auto|].
  destruct (String.eqb verificationStatus "failed"); [cbn; eauto 6|].
  cbv zeta.
  destruct (0 <? List.length _)%nat; [cbn; eauto 6|].
  destruct (ge overallScore 80); [cbn; auto|].
  destruct (ge overallScore 60 || lt _ 70); cbn; eauto 6.
Qed.

Lemma u64_Z (l : Z) : 0 <= l < 2 ^ 64 -> Solana.u64 (Finite (inject_Z l)) = Some l.
Proof.
  intros [H0 H1]. unfold Solana.u64. rewrite Qfloor_Z.
  assert (E : Qeq_bool (inject_Z l) (inject_Z l) = true) by (apply Qeq_bool_iff; reflexivity).
  rewrite E. apply Z.leb_le in H0. apply Z.ltb_lt in H1. now rewrite H0, H1.
Qed.

(** The refund executor on a deal it can refund. *)
Lemma processRefundInternal_sends (w : World) (deal : Deal.t) (dealId reason wallet : string)
      (l : Z) :
  deal_by_id w dealId = Some deal ->
  Deal.status deal = Failed \/ Deal.status deal = Cancelled ->
  Solana.wallet_of w (Some (Deal.advertiser_id deal)) = Some wallet ->
  lamports_of (Deal.amount_usdc deal) = Finite (inject_Z l) ->
  0 <= l -> l + Solana.RESERVE <= platform_balance w < 2 ^ 53 ->
  Solana.processRefundInternal w dealId reason
  = (set_refunds (send_transfer w (Transfer.mk wallet l) Solana.TX_FEE)
       (refunds w ++ [Refund.mk dealId (Some (Deal.amount_usdc deal)) reason "completed"
                                None]),
     Ok (Solana.next_signature w)).
Proof.
  intros Hd Hs Hw Hl H0 [Hb1 Hb2]. unfold Solana.processRefundInternal.
  rewrite Hd.
  assert (Hst : negb (DealStatus_eqb (Deal.status deal) Failed)
                && negb (DealStatus_eqb (Deal.status deal) Cancelled) = false)
    by (destruct Hs as [-> | ->]; reflexivity).
  rewrite Hst, Hw. fold (lamports_of (Deal.amount_usdc deal)). rewrite Hl.
  assert (HR : Solana.RESERVE = 895880) by reflexivity.
  assert (Hbal : 0 <= platform_balance w < 2 ^ 53) by lia.
  rewrite (balance_check _ l Hbal).
  assert (Hc : (platform_balance w <? l + Solana.RESERVE) = false) by (apply Z.ltb_ge; lia).
  rewrite Hc, u64_Z by lia. reflexivity.
Qed.

(** The payout executor on a deal it can pay. *)
Lemma processPayoutInternal_sends (w : World) (deal : Deal.t) (dealId wallet : string)
      (l : Z) :
  deal_by_id w dealId = Some deal ->
  Deal.status deal = Completed ->
  Solana.wallet_of w (Deal.creator_id deal) = Some wallet ->
  lamports_of (Deal.amount_usdc deal) = Finite (inject_Z l) ->
  0 <= l -> l + Solana.RESERVE <= platform_balance w < 2 ^ 53 ->
  Solana.processPayoutInternal w dealId
  = (set_payouts (send_transfer w (Transfer.mk wallet l) Solana.TX_FEE)
       (payouts w ++ [Payout.mk dealId "Solana" "Completed" (Deal.amount_usdc deal)
                                (Some (Solana.next_signature w))]),
     Ok (Solana.next_signature w)).
Proof.
  intros Hd Hs Hw Hl H0 [Hb1 Hb2]. unfold Solana.processPayoutInternal.
  rewrite Hd, Hs, Hw. cbn [DealStatus_eqb negb].
  fold (lamports_of (Deal.amount_usdc deal)). rewrite Hl.
  assert (HR : Solana.RESERVE = 895880) by reflexivity.
  assert (Hbal : 0 <= platform_balance w < 2 ^ 53) by lia.
  rewrite (balance_check _ l Hbal).
  assert (Hc : (platform_balance w <? l + Solana.RESERVE) = false) by (apply Z.ltb_ge; lia).
  rewrite Hc, u64_Z by lia. reflexivity.
Qed.

(** A callback whose verdict fails a deal paid through Solana refunds the
    advertiser at once, when the advertiser's wallet is connected and the
    platform wallet covers the amount and the reserve. *)
Lemma callback_world_failed_refund (env : Env) (now : Z) (requestBody : RequestBody.t)
      (w : World) (dealId verificationStatus : string) (overallScore : number)
      (deal : Deal.t) (e : EscrowEvent.t) (wallet : string) (l : Z) :
  let v := Orchestrator.decide requestBody verificationStatus overallScore in
  let w' := callback_world env now requestBody dealId verificationStatus overallScore deal w in
  deal_by_id w dealId = Some deal ->
  Orchestrator.finalStatus v = Failed ->
  escrow_event_of w dealId "Created" = Some e ->
  EscrowEvent.payment_method e = Some "solana" ->
  Solana.wallet_of w (Some (Deal.advertiser_id deal)) = Some wallet ->
  lamports_of (Deal.amount_usdc deal) = Finite (inject_Z l) ->
  0 <= l -> l + Solana.RESERVE <= platform_balance w < 2 ^ 53 ->
  refunds w'
  = (refunds w ++ [Refund.mk dealId (Some (Deal.amount_usdc deal)) "verification_failed"
                             "completed" None])%list
  /\ transfers w' = (transfers w ++ [Transfer.mk wallet l])%list
  /\ platform_balance w' = platform_balance w - l - Solana.TX_FEE
  /\ option_map Deal.failure_reason (deal_by_id w' dealId)
     = Some (Orchestrator.failureReason v).
Proof.
  intros v w' Hd Hf He Hm Hw Hl H0 Hb. subst w'. unfold callback_world. fold v.
  set (result := Orchestrator.enrichedOrchestratorResult _ _ _).
  set (upd := Orchestrator.updateData v result now overallScore).
  set (w1 := set_deals w _).
  set (w2 := Orchestrator.update_schedules now dealId requestBody overallScore w1).
  assert (Hsh : Orchestrator.shouldCreateHITLReview v = false).
  { pose proof (decide_status requestBody verificationStatus overallScore) as D.
    cbv zeta in D. fold v in D.
    destruct D as [[V _]|[[V _]|(_ & R & _)]]; congruence. }
  rewrite Hsh, Hf. cbn [DealStatus_eqb andb].
  destruct (update_schedules_frame now dealId requestBody overallScore w1)
    as (Hp2 & Hr2 & Ht2 & Hrv2 & He2 & Hi2 & Hb2).
  fold w2 in Hp2, Hr2, Ht2, Hrv2, He2, Hi2, Hb2.
  assert (Hd2 : deals w2 = deals w1) by (apply update_schedules_deals).
  assert (Hid : Deal.id deal = dealId).
  { unfold deal_by_id in Hd. apply single_some in Hd.
    assert (In deal (filter (fun d => String.eqb (Deal.id d) dealId) (deals w)))
      as Hin by (rewrite Hd; now left).
    apply filter_In in Hin. destruct Hin as [_ E]. now apply String.eqb_eq in E. }
  assert (H1 : deal_by_id w2 dealId = Some (upd deal)).
  { unfold deal_by_id. rewrite Hd2. subst w1. simpl.
    apply deal_by_id_update; [intro; reflexivity | exact Hd]. }
  unfold Orchestrator.processAutomaticRefund.
  change (Deal.id (upd deal)) with (Deal.id deal). rewrite Hid.
  assert (Hev : escrow_event_of w2 dealId "Created" = Some e).
  { unfold escrow_event_of. rewrite He2. exact He. }
  rewrite Hev, Hm. cbn [string_or truthy_string String.eqb Ascii.eqb Bool.eqb negb].
  assert (Hw2 : Solana.wallet_of w2 (Some (Deal.advertiser_id (upd deal))) = Some wallet).
  { unfold Solana.wallet_of, identity_by_id in *. rewrite Hi2. exact Hw. }
  rewrite (processRefundInternal_sends w2 (upd deal) dealId "verification_failed" wallet l);
    try assumption.
  - cbn [fst]. cbn. rewrite Hr2, Ht2, Hb2. repeat split.
    unfold deal_by_id. cbn. rewrite Hd2. fold (deal_by_id w1 dealId).
    assert (deal_by_id w1 dealId = Some (upd deal)) as ->.
    { unfold deal_by_id. subst w1. simpl.
      apply deal_by_id_update; [intro; reflexivity | exact Hd]. }
    cbn. subst upd. unfold Orchestrator.updateData. cbn. now rewrite Hf.
  - left. subst upd. unfold Orchestrator.updateData. cbn. exact Hf.
  - rewrite Hb2. exact Hb.
Qed.

(** C10. Without [overall_confidence] in the payload the score stands in for
    the confidence.  For a completed callback with no failed requirement and
    a score below 60: with no confidence given the verdict is [Verifying]
    with a HITL review, the handler answers [Verifying], keeps the deal in
    [Verifying], refunds nothing and inserts its review row, whose priority
    and text carry the score as the confidence (and the HITL service's row
    when HITL is enabled); with a confidence given and below 70 the verdict
    is the same; with a confidence of at least 70 the verdict is [Failed]
    with the low-confidence reason, the handler stores [Failed] and opens no
    review, and the advertiser of a deal paid through Solana is refunded at
    once.  And whenever a completed callback with no failed requirement is
    failed, its payload carries an [overall_confidence] of at least 70 next
    to a score below 60. *)
Theorem missing_confidence_defaults_to_score
        (env : Env) (now : Z) (requestBody : RequestBody.t) (w : World)
        (dealId : string) (score : number) (deal : Deal.t) :
  Orchestrator.parse requestBody = Orchestrator.mkParsed (Some dealId) "completed" score ->
  startsWith "test-deal-" dealId = false ->
  deal_by_id w dealId = Some deal ->
  array_or (Orchestrator.requirements_failed_of requestBody) [] = [] ->
  (score < 60)%Q ->
  let r := Orchestrator.callback env now (Some Orchestrator.expectedAuth)
                                 (Some requestBody) w in
  let low := ("Low verification confidence: " ++ number_to_string score ++ "/100")%string in
  (Orchestrator.overall_confidence_of requestBody = None ->
   Orchestrator.decide requestBody "completed" score
   = Orchestrator.mkVerdict Verifying None true
   /\ Orchestrator.direct_review dealId requestBody score
      = Review.mk dealId None None (if lt score 50 then "high" else "medium") "Open"
          ("Orchestrator callback - Score: " ++ number_to_string score
             ++ ", Confidence: " ++ number_to_string score ++ "%")
   /\ snd r = json (callback_body Verifying score) 200
   /\ option_map Deal.status (deal_by_id (fst r) dealId) = Some Verifying
   /\ refunds (fst r) = refunds w
   /\ transfers (fst r) = transfers w
   /\ reviews (fst r)
      = (reviews w
           ++ [Orchestrator.direct_review dealId requestBody score]
           ++ (if HITL_ENABLED env
               then [Orchestrator.hitl_service_review now requestBody deal dealId
                                                      "completed" score]
               else []))%list)
  /\ (forall c, Orchestrator.overall_confidence_of requestBody = Some c ->
        ((c < 70)%Q ->
         Orchestrator.decide requestBody "completed" score
         = Orchestrator.mkVerdict Verifying None true)
        /\ ((70 <= c)%Q ->
            Orchestrator.decide requestBody "completed" score
            = Orchestrator.mkVerdict Failed (Some low) false
            /\ snd r = json (callback_body Failed score) 200
            /\ option_map Deal.status (deal_by_id (fst r) dealId) = Some Failed
            /\ reviews (fst r) = reviews w
            /\ (forall e wallet l,
                  escrow_event_of w dealId "Created" = Some e ->
                  EscrowEvent.payment_method e = Some "solana" ->
                  Solana.wallet_of w (Some (Deal.advertiser_id deal)) = Some wallet ->
                  lamports_of (Deal.amount_usdc deal) = Finite (inject_Z l) ->
                  0 <= l -> l + Solana.RESERVE <= platform_balance w < 2 ^ 53 ->
                  refunds (fst r)
                  = (refunds w ++ [Refund.mk dealId (Some (Deal.amount_usdc deal))
                                             "verification_failed" "completed" None])%list
                  /\ transfers (fst r) = (transfers w ++ [Transfer.mk wallet l])%list
                  /\ option_map Deal.failure_reason (deal_by_id (fst r) dealId)
                     = Some (Some low))))
  /\ (forall (body : RequestBody.t) (s : number),
         array_or (Orchestrator.requirements_failed_of body) [] = [] ->
         Orchestrator.finalStatus (Orchestrator.decide body "completed" s) = Failed ->
         exists c,
           Orchestrator.overall_confidence_of body = Some c
           /\ (70 <= c)%Q /\ (s < 60)%Q).
Proof.
  intros Hp Ht Hd Hreq Hlow r low. subst r.
  rewrite (callback_accepted env now requestBody w dealId "completed" score deal Hp Ht Hd).
  cbn [fst snd].
  split; [|split].
  - intro Hconf.
    assert (Hv : Orchestrator.decide requestBody "completed" score
                 = Orchestrator.mkVerdict Verifying None true).
    { unfold Orchestrator.decide. simpl. rewrite Hreq, Hconf. simpl.
      rewrite (ge_false score 80) by lra.
      rewrite (ge_false score 60) by lra.
      rewrite (lt_true score 70) by lra. reflexivity. }
    split; [exact Hv|]. rewrite Hv. cbn [Orchestrator.finalStatus].
    split; [unfold Orchestrator.direct_review; now rewrite Hconf|].
    split; [reflexivity|].
    destruct (callback_writes_verdict env now requestBody w dealId "completed" score deal Hd)
      as (d' & H1 & H2 & _).
    rewrite Hv in H2. simpl in H2.
    destruct (callback_world_verifying env now requestBody w dealId "completed" score deal)
      as (_ & Hr & Htr & Hrev); [now rewrite Hv|].
    rewrite Hv in Hrev. simpl in Hrev.
    split; [rewrite H1; cbn; now rewrite H2|].
    repeat split; assumption.
  - intros c Hc. split.
    + intro Hlt. unfold Orchestrator.decide. simpl. rewrite Hreq, Hc. simpl.
      rewrite (ge_false score 80) by lra.
      rewrite (ge_false score 60) by lra.
      destruct (truthy_number c);
        [rewrite (lt_true c 70) by lra | rewrite (lt_true score 70) by lra]; reflexivity.
    + intro Hge.
      assert (Htr : truthy_number c = true).
      { unfold truthy_number. destruct (Qeq_bool c 0) eqn:E; [|reflexivity].
        apply Qeq_bool_iff in E. lra. }
      assert (Hv : Orchestrator.decide requestBody "completed" score
                   = Orchestrator.mkVerdict Failed (Some low) false).
      { unfold Orchestrator.decide. simpl. rewrite Hreq, Hc. simpl.
        rewrite (ge_false score 80) by lra.
        rewrite (ge_false score 60) by lra.
        rewrite Htr.
        assert (Hn : lt c 70 = false).
        { unfold lt. apply negb_false_iff. apply Qle_bool_iff. exact Hge. }
        rewrite Hn. reflexivity. }
      split; [exact Hv|]. rewrite Hv. cbn [Orchestrator.finalStatus].
      split; [reflexivity|].
      destruct (callback_writes_verdict env now requestBody w dealId "completed" score deal Hd)
        as (d' & H1 & H2 & _).
      rewrite Hv in H2. simpl in H2.
      split; [rewrite H1; cbn; now rewrite H2|].
      split; [apply callback_world_failed_reviews; rewrite Hv; reflexivity|].
      intros e wallet l He Hm Hw Hl H0 Hb.
      destruct (callback_world_failed_refund env now requestBody w dealId "completed" score
                  deal e wallet l Hd ltac:(now rewrite Hv) He Hm Hw Hl H0 Hb)
        as (R1 & R2 & _ & R4).
      rewrite Hv in R4. repeat split; assumption.
  - intros body s Hb Hf. unfold Orchestrator.decide in Hf. simpl in Hf.
    rewrite Hb in Hf. simpl in Hf.
    destruct (ge s 80) eqn:E80; [discriminate|].
    destruct (ge s 60) eqn:E60; [discriminate|]. simpl in Hf.
    destruct (lt (number_or (Orchestrator.overall_confidence_of body) s) 70) eqn:E70;
      [discriminate|].
    apply ge_false_inv in E60. apply lt_false_inv in E70.
    destruct (Orchestrator.overall_confidence_of body) as [c|]; simpl in E70.
    + destruct (truthy_number c).
      * exists c. repeat split; assumption.
      * lra.
    + lra.
Qed.

Lemma missing_confidence_defaults_to_score_witness :
  let at_ := Scenario.T0 + Scenario.hour in
  let silent := Orchestrator.callback Scenario.env at_ (Some Orchestrator.expectedAuth)
                  (Some (Scenario.completed_body 40 None [])) (Scenario.posted 24) in
  let confident := Orchestrator.callback Scenario.env at_ (Some Orchestrator.expectedAuth)
                     (Some (Scenario.completed_body 40 (Some 90%Q) [])) (Scenario.posted 24) in
  snd silent = json (callback_body Verifying 40) 200
  /\ option_map Deal.status (deal_by_id (fst silent) Scenario.dealId) = Some Verifying
  /\ refunds (fst silent) = []
  /\ map Review.priority (reviews (fst silent)) = ["high"; "high"]
  /\ snd confident = json (callback_body Failed 40) 200
  /\ option_map Deal.status (deal_by_id (fst confident) Scenario.dealId) = Some Failed
  /\ reviews (fst confident) = []
  /\ refunds (fst confident)
     = [Refund.mk Scenario.dealId (Some 50%Q) "verification_failed" "completed" None]
  /\ transfers (fst confident) = [Transfer.mk "AdvertiserWallet" 50000000000].
Proof.
  cbv zeta.
  assert (Ht : startsWith "test-deal-" Scenario.dealId = false) by reflexivity.
  assert (Hd : deal_by_id (Scenario.posted 24) Scenario.dealId = Some Scenario.posted_deal)
    by (vm_compute; reflexivity).
  assert (Hlow : (40 < 60)%Q) by reflexivity.
  destruct (missing_confidence_defaults_to_score
              Scenario.env (Scenario.T0 + Scenario.hour)
              (Scenario.completed_body 40 None []) (Scenario.posted 24)
              Scenario.dealId 40 Scenario.posted_deal eq_refl Ht Hd eq_refl Hlow)
    as (S & _ & _).
  destruct (S eq_refl) as (_ & _ & S3 & S4 & S5 & _ & S7).
  destruct (missing_confidence_defaults_to_score
              Scenario.env (Scenario.T0 + Scenario.hour)
              (Scenario.completed_body 40 (Some 90%Q) []) (Scenario.posted 24)
              Scenario.dealId 40 Scenario.posted_deal eq_refl Ht Hd eq_refl Hlow)
    as (_ & C & _).
  destruct (C 90%Q eq_refl) as (_ & C2).
  assert (Hge : (70 <= 90)%Q) by (vm_compute; discriminate).
  destruct (C2 Hge) as (_ & C3 & C4 & C5 & C6).
  assert (He : escrow_event_of (Scenario.posted 24) Scenario.dealId "Created"
               = Some Scenario.funding_event) by (vm_compute; reflexivity).
  assert (Hw : Solana.wallet_of (Scenario.posted 24)
                 (Some (Deal.advertiser_id Scenario.posted_deal)) = Some "AdvertiserWallet")
    by (vm_compute; reflexivity).
  assert (Hl : lamports_of (Deal.amount_usdc Scenario.posted_deal)
               = Finite (inject_Z 50000000000)) by (vm_compute; reflexivity).
  assert (Hb : 50000000000 + Solana.RESERVE <= platform_balance (Scenario.posted 24) < 2 ^ 53)
    by (vm_compute; split; [discriminate | reflexivity]).
  destruct (C6 Scenario.funding_event "AdvertiserWallet" 50000000000 He eq_refl Hw Hl
               ltac:(discriminate) Hb) as (R1 & R2 & _).
  split; [exact S3|]. split; [exact S4|].
  split; [rewrite S5; reflexivity|].
  split; [rewrite S7; reflexivity|].
  split; [exact C3|]. split; [exact C4|].
  split; [rewrite C5; reflexivity|].
  split; [rewrite R1; reflexivity|].
  rewrite R2. reflexivity.
Defined.

(** ** The error outcome *)

(** Only a legacy body can parse to the status [error], and then the score
    recorded is the body's [overall_score], 0 when it carries none. *)
Lemma parse_error_is_legacy (requestBody : RequestBody.t) (dealId : string)
      (score : number) :
  Orchestrator.parse requestBody = Orchestrator.mkParsed (Some dealId) "error" score ->
  Orchestrator.new_format_deal_id requestBody = None
  /\ score = number_or (RequestBody.overall_score requestBody) 0.
Proof.
  unfold Orchestrator.parse.
  destruct (Orchestrator.new_format_deal_id requestBody) as [i|].
  - destruct (RequestBody.status requestBody) as [s|];
      [destruct (String.eqb s "completed")|]; intro H; inversion H.
  - destruct (Orchestrator.legacy_deal_id requestBody) as [i|]; intro H; inversion H.
    split; reflexivity.
Qed.

(** C6. An error outcome is not kept for review.  In the current callback
    format ([data.deal_id] given) the handler reads every status other than
    [completed] as [failed]: the error callback for the deal in [Verifying]
    is answered with [Failed], the deal is set to [Failed] with the reason
    of a failed verification, the advertiser is refunded at once and no
    review row is written, where the handler's branch for errors keeps the
    deal for review.  In the legacy format the deal stays in [Verifying],
    but the review row the handler inserts carries no reason code: with
    HITL disabled no row names [ORCHESTRATOR_ERROR], with HITL enabled the
    deal has two review rows. *)
Theorem error_outcome_fails_the_deal :
  let at_ := Scenario.T0 + Scenario.hour in
  let r := Orchestrator.callback Scenario.env at_ (Some Orchestrator.expectedAuth)
             (Some Scenario.error_body) (Scenario.posted 24) in
  let legacy := Scenario.legacy_error_body None in
  let off := fst (Orchestrator.callback (mkEnv false true true) at_
                    (Some Orchestrator.expectedAuth) (Some legacy) (Scenario.posted 24)) in
  let on := fst (Orchestrator.callback (mkEnv true true true) at_
                   (Some Orchestrator.expectedAuth) (Some legacy) (Scenario.posted 24)) in
  option_map Deal.status (deal_by_id (Scenario.posted 24) Scenario.dealId) = Some Verifying
  /\ reviews (Scenario.posted 24) = []
  /\ Orchestrator.parse Scenario.error_body
     = Orchestrator.mkParsed (Some Scenario.dealId) "failed" 0
  /\ snd r = json (callback_body Failed 0) 200
  /\ option_map Deal.status (deal_by_id (fst r) Scenario.dealId) = Some Failed
  /\ option_map Deal.failure_reason (deal_by_id (fst r) Scenario.dealId)
     = Some (Some "Verification failed - Score: 0/100")
  /\ reviews (fst r) = []
  /\ refunds (fst r)
     = [Refund.mk Scenario.dealId (Some 50%Q) "verification_failed" "completed" None]
  /\ transfers (fst r) = [Transfer.mk "AdvertiserWallet" 50000000000]
  /\ option_map Deal.status (deal_by_id off Scenario.dealId) = Some Verifying
  /\ map Review.reason_code (reviews_of off Scenario.dealId) = [None]
  /\ map Review.reason_code (reviews_of on Scenario.dealId)
     = [None; Some "ORCHESTRATOR_ERROR"].
Proof.
  vm_compute. repeat split; reflexivity.
Qed.

(** X28 (callback, legacy format).  A callback that parses to the status
    [error], which only a legacy body does, is answered with [Verifying];
    the deal keeps [Verifying] and records the score parsed from the body (0
    when the body carries none) and the orchestrator result; no payout,
    refund or transfer is made; the handler inserts one review row of its
    own without a reason code, of high priority when the confidence (the
    score, when the body carries none) is below 50, and, when HITL is
    enabled, the HITL service inserts a second with reason
    [ORCHESTRATOR_ERROR], of high priority when the score is below 60. *)
Theorem legacy_error_is_kept_for_review
        (env : Env) (now : Z) (requestBody : RequestBody.t) (w : World)
        (dealId : string) (score : number) (deal : Deal.t) :
  Orchestrator.parse requestBody = Orchestrator.mkParsed (Some dealId) "error" score ->
  startsWith "test-deal-" dealId = false ->
  deal_by_id w dealId = Some deal ->
  Deal.status deal = Verifying ->
  let own := Orchestrator.direct_review dealId requestBody score in
  let service := Orchestrator.hitl_service_review now requestBody deal dealId "error" score in
  exists w' d',
    Orchestrator.callback env now (Some Orchestrator.expectedAuth) (Some requestBody) w
    = (w', json (callback_body Verifying score) 200)
    /\ deal_by_id w' dealId = Some d'
    /\ Deal.status d' = Verifying
    /\ Deal.verification_score d' = Some score
    /\ score = number_or (RequestBody.overall_score requestBody) 0
    /\ Deal.orchestrator_result d'
       = Some (Orchestrator.enrichedOrchestratorResult requestBody "error" score)
    /\ payouts w' = payouts w /\ refunds w' = refunds w /\ transfers w' = transfers w
    /\ reviews w'
       = (reviews w ++ [own] ++ (if HITL_ENABLED env then [service] else []))%list
    /\ Review.reason_code own = None
    /\ Review.priority own
       = (if lt (number_or (Orchestrator.overall_confidence_of requestBody) score) 50
          then "high" else "medium")
    /\ Review.reason_code service = Some "ORCHESTRATOR_ERROR"
    /\ Review.priority service = (if lt score 60 then "high" else "medium").
Proof.
  intros Hp Ht Hd Hs own service.
  assert (Hv : Orchestrator.decide requestBody "error" score
               = Orchestrator.mkVerdict Verifying
                   (Some ("Orchestrator error: "
                            ++ string_or (RequestBody.error_message requestBody)
                                         "Unknown error")%string)
                   true) by reflexivity.
  rewrite (callback_accepted env now requestBody w dealId "error" score deal Hp Ht Hd).
  rewrite Hv. simpl.
  destruct (callback_writes_verdict env now requestBody w dealId "error" score deal Hd)
    as (d' & H1 & H2 & H3 & _ & H5 & _).
  rewrite Hv in H2. simpl in H2.
  destruct (callback_world_verifying env now requestBody w dealId "error" score deal)
    as (Hpay & Hr & Htr & Hrev); [now rewrite Hv|].
  rewrite Hv in Hrev. simpl in Hrev.
  destruct (parse_error_is_legacy requestBody dealId score Hp) as [_ Hscore].
  exists (callback_world env now requestBody dealId "error" score deal w), d'.
  repeat split; try assumption; reflexivity.
Qed.

Lemma legacy_error_is_kept_for_review_witness :
  exists w' d',
    Orchestrator.callback Scenario.env (Scenario.T0 + Scenario.hour)
      (Some Orchestrator.expectedAuth) (Some (Scenario.legacy_error_body (Some 50%Q)))
      (Scenario.posted 24)
    = (w', json (callback_body Verifying 50) 200)
    /\ deal_by_id w' Scenario.dealId = Some d'
    /\ Deal.status d' = Verifying
    /\ Deal.verification_score d' = Some 50%Q
    /\ List.length (reviews_of w' Scenario.dealId) = 2%nat.
Proof.
  destruct (legacy_error_is_kept_for_review
              Scenario.env (Scenario.T0 + Scenario.hour)
              (Scenario.legacy_error_body (Some 50%Q)) (Scenario.posted 24)
              Scenario.dealId 50
              Scenario.posted_deal eq_refl eq_refl eq_refl eq_refl)
    as (w' & d' & H1 & H2 & H3 & H4 & _ & _ & _ & _ & _ & H10 & _).
  exists w', d'. repeat split; try assumption.
  unfold reviews_of. rewrite H10. reflexivity.
Defined.

(** ** Malformed callbacks *)

(** C8, as the claim states it, fails: the body [{}] is not acknowledged,
    the handler answers 400. *)
Lemma empty_callback_is_not_acknowledged :
  code_of (snd (Orchestrator.callback Scenario.env (Scenario.T0 + Scenario.hour)
                  (Some Orchestrator.expectedAuth) (Some RequestBody.empty)
                  (Scenario.posted 24)))
  <> 200.
Proof.
  vm_compute. discriminate.
Qed.

(** C8, amended.  An authenticated body in which neither format yields a
    deal id (the body [{}] for one) parses to status [error] and score 0
    with no deal id; the handler answers 400 [Missing deal_id in callback]
    and leaves the store as it is.  A request without a JSON body is
    answered 400 [Invalid JSON body], the store again untouched. *)
Theorem callback_without_deal_id_is_rejected
        (env : Env) (now : Z) (requestBody : RequestBody.t) (w : World) :
  Orchestrator.new_format_deal_id requestBody = None ->
  Orchestrator.legacy_deal_id requestBody = None ->
  Orchestrator.parse requestBody = Orchestrator.mkParsed None "error" 0
  /\ Orchestrator.callback env now (Some Orchestrator.expectedAuth) (Some requestBody) w
     = (w, json (error_body "Missing deal_id in callback") 400)
  /\ Orchestrator.callback env now (Some Orchestrator.expectedAuth) None w
     = (w, json (error_body "Invalid JSON body") 400).
Proof.
  intros Hn Hl.
  assert (Hp : Orchestrator.parse requestBody = Orchestrator.mkParsed None "error" 0).
  { unfold Orchestrator.parse. now rewrite Hn, Hl. }
  split; [exact Hp|]. split.
  - unfold Orchestrator.callback.
    change (negb (truthy_string Orchestrator.expectedAuth)
            || negb (String.eqb Orchestrator.expectedAuth Orchestrator.expectedAuth))
      with false.
    cbv iota. rewrite Hp. reflexivity.
  - reflexivity.
Qed.

Lemma callback_without_deal_id_is_rejected_witness :
  Orchestrator.parse RequestBody.empty = Orchestrator.mkParsed None "error" 0
  /\ Orchestrator.callback Scenario.env (Scenario.T0 + Scenario.hour)
       (Some Orchestrator.expectedAuth) (Some RequestBody.empty) (Scenario.posted 24)
     = (Scenario.posted 24, json (error_body "Missing deal_id in callback") 400)
  /\ Orchestrator.callback Scenario.env (Scenario.T0 + Scenario.hour)
       (Some Orchestrator.expectedAuth) None (Scenario.posted 24)
     = (Scenario.posted 24, json (error_body "Invalid JSON body") 400).
Proof.
  apply (callback_without_deal_id_is_rejected
           Scenario.env (Scenario.T0 + Scenario.hour) RequestBody.empty
           (Scenario.posted 24)).
  - reflexivity.
  - reflexivity.
Defined.

(** ** The duration-completion sweep: the failure branch *)

(** C3. The failure branch of the sweep fails the deal and cancels its
    pending schedules, but the refund it calls for never happens:
    [processRefund] looks for a [FundEscrow] event and the funding routes
    record [Created].  For the deal funded through fund-escrow, posted, and
    verified once with score 65, the sweep after the duration leaves the
    deal [Failed], no pending schedule, no refund row, no Stripe refund and
    no transfer, and reports no refund error. *)
Theorem duration_failure_never_refunds :
  let w := Scenario.verified 24 65 in
  let r := Worker.processVerificationCompletion (Scenario.T0 + 25 * Scenario.hour) w in
  map EscrowEvent.event_type (escrow_events w) = ["Created"]
  /\ option_map Deal.status (deal_by_id w Scenario.dealId) = Some Verifying
  /\ option_map Deal.status (deal_by_id (fst r) Scenario.dealId) = Some Failed
  /\ option_map Deal.failure_reason (deal_by_id (fst r) Scenario.dealId)
     = Some (Some "Duration completed (24h) without successful verification")
  /\ filter (fun s => ScheduleStatus_eqb (Schedule.status s) pending)
            (schedules_of (fst r) Scenario.dealId) = []
  /\ List.length (filter (fun s => ScheduleStatus_eqb (Schedule.status s) cancelled)
                         (schedules_of (fst r) Scenario.dealId)) = 18%nat
  /\ map Worker.refund_error (Worker.diag_failed (snd r)) = [None]
  /\ refunds (fst r) = []
  /\ stripe_refunds (fst r) = []
  /\ transfers (fst r) = []
  /\ platform_balance (fst r) = platform_balance w.
Proof.
  vm_compute. repeat split; reflexivity.
Qed.

(** ** Cancel *)

Lemma filter_update_where_sub {A} (p q : A -> bool) (f : A -> A) (rows : list A) :
  (forall r, In r rows -> p r = true -> q r = true) ->
  (forall r, q r = true -> p r = true) ->
  (forall r, p (f r) = p r) ->
  filter p (update_where q f rows) = map f (filter p rows).
Proof.
  intros Hpq Hqp Hf. unfold update_where.
  induction rows as [|r rows IH]; [reflexivity|]. simpl.
  assert (IH' : filter p (map (fun r => if q r then f r else r) rows)
                = map f (filter p rows))
    by (apply IH; intros x Hx; apply Hpq; now right).
  destruct (q r) eqn:Eq.
  - rewrite Hf, (Hqp r Eq). simpl. now rewrite IH'.
  - destruct (p r) eqn:Ep.
    + rewrite (Hpq r (or_introl eq_refl) Ep) in Eq. discriminate.
    + exact IH'.
Qed.

(** A cancel request by someone who is neither the advertiser nor the
    creator of a deal with that id changes nothing. *)
Lemma cancel_foreign_user (now : Z) (user dealId : string) (w : World) :
  filter (Deals.cancel_filter user dealId) (deals w) = [] ->
  Deals.cancel now user dealId w = (w, json (error_body "Failed to cancel deal") 500).
Proof.
  intro H. unfold Deals.cancel. now rewrite H.
Qed.

(** C9.  Cancel has no status guard: a terminal deal is not left
    unchanged.  The deal the sweep has completed and paid out to its
    creator is set to [Cancelled] by its advertiser's cancel request, which
    is answered with success.  The refund route, which refuses the
    completed deal, then refunds the cancelled one: the advertiser gets the
    deal amount back on top of the payout the creator has received. *)
Theorem cancel_overwrites_completed_deal :
  let w := Scenario.swept 85 in
  let late := Scenario.T0 + 30 * Scenario.hour in
  let r := Deals.cancel late Scenario.advertiser Scenario.dealId w in
  let refund := Solana.refund_escrow true Scenario.dealId "advertiser_cancelled" in
  option_map Deal.status (deal_by_id w Scenario.dealId) = Some Completed
  /\ terminal Completed = true
  /\ List.length (non_failed_payouts w Scenario.dealId) = 1%nat
  /\ transfers w = [Transfer.mk "CreatorWallet" 50000000000]
  /\ refund w
     = (w, json (error_body "Deal must be Failed or Cancelled to process refund") 500)
  /\ snd r = json success_body 200
  /\ deal_by_id (fst r) Scenario.dealId <> deal_by_id w Scenario.dealId
  /\ option_map Deal.status (deal_by_id (fst r) Scenario.dealId) = Some Cancelled
  /\ option_map Deal.cancelled_at (deal_by_id (fst r) Scenario.dealId) = Some (Some late)
  /\ snd (refund (fst r)) = json (settlement_body Scenario.dealId "sig-1") 200
  /\ transfers (fst (refund (fst r)))
     = [Transfer.mk "CreatorWallet" 50000000000;
        Transfer.mk "AdvertiserWallet" 50000000000]
  /\ refunds (fst (refund (fst r)))
     = [Refund.mk Scenario.dealId (Some 50%Q) "advertiser_cancelled" "completed" None]
  /\ List.length (non_failed_payouts (fst (refund (fst r))) Scenario.dealId) = 1%nat.
Proof.
  cbv zeta. repeat apply conj; try (vm_compute; reflexivity).
  vm_compute. discriminate.
Qed.

(** X29 (cancel).  Cancel, asked for by the advertiser or the creator of a
    deal, applies whatever the deal's status, terminal or not: the request
    is answered with success, the deal's status becomes [Cancelled] and
    [cancelled_at] the time of the request, every other column and every
    other deal stay as they were, and no refund, payout or transfer is
    made. *)
Theorem cancel_applies_in_any_status
        (now : Z) (user : string) (w : World) (d : Deal.t) :
  unique_deal_ids w ->
  In d (deals w) ->
  Deal.advertiser_id d = user \/ Deal.creator_id d = Some user ->
  exists w',
    Deals.cancel now user (Deal.id d) w = (w', json success_body 200)
    /\ deal_by_id w' (Deal.id d) = Some (Deals.cancel_update now d)
    /\ Deal.status (Deals.cancel_update now d) = Cancelled
    /\ Deal.cancelled_at (Deals.cancel_update now d) = Some now
    /\ (forall other, other <> Deal.id d -> deal_rows w' other = deal_rows w other)
    /\ refunds w' = refunds w /\ payouts w' = payouts w
    /\ transfers w' = transfers w /\ escrow_events w' = escrow_events w.
Proof.
  intros Hu Hin Huser.
  assert (Hrow : filter (fun x => String.eqb (Deal.id x) (Deal.id d)) (deals w) = [d])
    by (apply unique_row; assumption).
  assert (Hd : Deals.cancel_filter user (Deal.id d) d = true).
  { unfold Deals.cancel_filter. rewrite String.eqb_refl. simpl.
    destruct Huser as [<- | ->]; rewrite String.eqb_refl; [reflexivity|].
    apply orb_true_r. }
  assert (Hsub : forall r, In r (deals w) ->
                           String.eqb (Deal.id r) (Deal.id d) = true ->
                           Deals.cancel_filter user (Deal.id d) r = true).
  { intros r Hr Hid.
    assert (In r (filter (fun x => String.eqb (Deal.id x) (Deal.id d)) (deals w)))
      as Hr' by (apply filter_In; split; assumption).
    rewrite Hrow in Hr'. destruct Hr' as [<- | []]. exact Hd. }
  assert (Hcf : filter (Deals.cancel_filter user (Deal.id d)) (deals w) = [d]).
  { rewrite <- Hrow. apply filter_ext_in. intros r Hr.
    destruct (String.eqb (Deal.id r) (Deal.id d)) eqn:E.
    - now apply Hsub.
    - unfold Deals.cancel_filter. now rewrite E. }
  unfold Deals.cancel. rewrite Hcf. simpl.
  eexists. split; [reflexivity|]. simpl.
  split.
  { unfold deal_by_id. simpl.
    rewrite filter_update_where_sub.
    - now rewrite Hrow.
    - exact Hsub.
    - intros r Hr. unfold Deals.cancel_filter in Hr.
      apply andb_true_iff in Hr. tauto.
    - intro r. reflexivity. }
  repeat split; try reflexivity.
  intros other Hne. unfold deal_rows. simpl.
  apply filter_update_where_other.
  intros r Hr. unfold Deals.cancel_filter in Hr. apply andb_true_iff in Hr.
  destruct Hr as [Hr _]. apply String.eqb_eq in Hr. simpl. rewrite Hr.
  split; apply String.eqb_neq; congruence.
Qed.

Lemma cancel_applies_in_any_status_witness :
  exists w',
    Deals.cancel (Scenario.T0 + 2 * Scenario.hour) Scenario.creator Scenario.dealId
                 (Scenario.verified 24 85)
    = (w', json success_body 200)
    /\ deal_by_id w' Scenario.dealId
       = Some (Deals.cancel_update (Scenario.T0 + 2 * Scenario.hour) Scenario.verified_deal)
    /\ refunds w' = refunds (Scenario.verified 24 85).
Proof.
  assert (Hu : unique_deal_ids (Scenario.verified 24 85)).
  { unfold unique_deal_ids. vm_compute. constructor; [intros [] | constructor]. }
  assert (Hin : In Scenario.verified_deal (deals (Scenario.verified 24 85))).
  { vm_compute. left. reflexivity. }
  destruct (cancel_applies_in_any_status (Scenario.T0 + 2 * Scenario.hour)
              Scenario.creator (Scenario.verified 24 85) Scenario.verified_deal
              Hu Hin (or_intror eq_refl))
    as (w' & H1 & H2 & _ & _ & _ & H6 & _).
  exists w'. repeat split; assumption.
Defined.

(** ** The schedule ladder *)

Lemma Date_integer (x : Q) (z : Z) : (x == inject_Z z)%Q -> Date x = z.
Proof.
  intro H. unfold Date.
  destruct (Qle_bool 0 x); rewrite H; [apply Qfloor_Z | apply Qceiling_Z].
Qed.

Lemma advance_integer (t : Z) (h : number) (i : Z) :
  (h * 60 * 60 * 1000 == inject_Z i)%Q -> Deals.advance t h = t + i.
Proof.
  intro H. unfold Deals.advance. apply Date_integer.
  rewrite inject_Z_plus.
  rewrite <- H. ring.
Qed.

(** The interval table, in milliseconds. *)
Lemma checkInterval_table (durationHours : number) :
  exists i,
    (forall t, Deals.advance t (Deals.checkIntervalHours durationHours) = t + i)
    /\ (((durationHours <= 1 # 10)%Q /\ i = 100080)
        \/ ((1 # 10 < durationHours)%Q /\ (durationHours <= 24)%Q /\ i = 4 * 3600000)
        \/ ((24 < durationHours)%Q /\ (durationHours <= 72)%Q /\ i = 12 * 3600000)
        \/ ((72 < durationHours)%Q /\ i = 24 * 3600000)).
Proof.
  unfold Deals.checkIntervalHours.
  destruct (Qle_bool durationHours (1 # 10)) eqn:E1.
  { exists 100080. split; [intro t; now apply advance_integer|].
    left. split; [now apply Qle_bool_iff | reflexivity]. }
  assert (1 # 10 < durationHours)%Q as L1 by (apply ge_false_inv; exact E1).
  destruct (Qle_bool durationHours 24) eqn:E2.
  { exists (4 * 3600000). split; [intro t; now apply advance_integer|].
    right; left. repeat split; [exact L1 | now apply Qle_bool_iff]. }
  assert (24 < durationHours)%Q as L2 by (apply ge_false_inv; exact E2).
  destruct (Qle_bool durationHours 72) eqn:E3.
  { exists (12 * 3600000). split; [intro t; now apply advance_integer|].
    right; right; left. repeat split; [exact L2 | now apply Qle_bool_iff]. }
  assert (72 < durationHours)%Q as L3 by (apply ge_false_inv; exact E3).
  exists (24 * 3600000). split; [intro t; now apply advance_integer|].
  right; right; right. split; [exact L3 | reflexivity].
Qed.

Lemma last_cons (l : list Z) (a d : Z) : last (a :: l) d = last l a.
Proof.
  revert a d. induction l as [|b l IH]; intros a d; [reflexivity|].
  change (last (a :: b :: l) d) with (last (b :: l) d).
  rewrite (IH b d), (IH b a). reflexivity.
Qed.

Lemma periodic_loop_spec (h : number) (i deadline : Z) :
  0 < i -> (forall t, Deals.advance t h = t + i) ->
  forall (fuel : nat) (prev : Z),
    deadline - (prev + i) <= Z.of_nat fuel * i ->
    let l := Deals.periodic_loop fuel (prev + i) deadline h in
    Forall (fun t => t < deadline) l
    /\ spaced i (prev :: l)
    /\ deadline <= last l prev + i.
Proof.
  intros Hi Hadv. induction fuel as [|fuel IH]; intros prev Hfuel;
    cbn [Deals.periodic_loop].
  - change (Z.of_nat 0) with 0 in Hfuel.
    split; [constructor|]. split; [exact I | cbn [last]; lia].
  - destruct (prev + i <? deadline) eqn:E.
    + apply Z.ltb_lt in E. rewrite Hadv.
      destruct (IH (prev + i)) as (F & S & L);
        [rewrite Nat2Z.inj_succ in Hfuel; nia|].
      split; [constructor; assumption|]. split.
      * cbn [spaced]. split; [reflexivity | exact S].
      * rewrite last_cons. exact L.
    + apply Z.ltb_ge in E.
      split; [constructor|]. split; [exact I | cbn [last]; lia].
Qed.

(** The ladder for the duration the handler read: the initial row at [now],
    periodic rows one interval apart from [now] on, all before the deadline
    and none missing, and the final row at the deadline. *)
Lemma ladder_shape (now deadline : Z) (durationHours : number) :
  exists (i : Z) (checks : list Z),
    Deals.ladder now deadline durationHours
    = ((initial, now) :: map (fun t => (periodic, t)) checks ++ [(final, deadline)])%list
    /\ (forall t, Deals.advance t (Deals.checkIntervalHours durationHours) = t + i)
    /\ Forall (fun t => t < deadline) checks
    /\ spaced i (now :: checks)
    /\ deadline <= last checks now + i.
Proof.
  destruct (checkInterval_table durationHours) as (i & Hadv & Hi).
  assert (0 < i) as Hpos by (destruct Hi as [[_ ->]|[(_ & _ & ->)|[(_ & _ & ->)|[_ ->]]]]; lia).
  exists i, (Deals.periodic_checks now deadline (Deals.checkIntervalHours durationHours)).
  split; [reflexivity|]. split; [exact Hadv|].
  unfold Deals.periodic_checks. rewrite Hadv.
  replace (now + i - now) with i by lia.
  apply (periodic_loop_spec _ i deadline Hpos Hadv).
  pose proof (Z.div_mod (deadline - now) i ltac:(lia)) as Hdm.
  pose proof (Z.mod_pos_bound (deadline - now) i Hpos) as Hmb.
  set (q := (deadline - now) / i) in *.
  assert (Z.of_nat (Z.to_nat q) = Z.max 0 q) as -> by lia.
  nia.
Qed.

(** The row submit-post reads back after its update carries the columns of
    [deals] alone, so the duration it reads is the default, whatever the
    deal's proof spec says. *)
Lemma submit_post_reads_default_duration (d : Deal.t) :
  Deals.durationHours_of (select_star d) = 24%Q.
Proof. reflexivity. Qed.

(** C7. The ladder is not keyed on the deal's duration: for the deal whose
    proof spec asks for 72 hours, posted three days before its deadline,
    submit-post creates the initial row, periodic rows 4 hours apart (17 of
    them, not 12 hours apart) and the final row at the deadline. *)
Theorem ladder_ignores_deal_duration :
  map ProofSpec.duration_hours (proof_specs (Scenario.funded 72)) = [72%Q]
  /\ map (fun s => (Schedule.check_type s,
                    (Schedule.scheduled_at s - Scenario.T0) / Scenario.hour))
         (schedules_of (Scenario.posted 72) Scenario.dealId)
     = [(initial, 0); (periodic, 4); (periodic, 8); (periodic, 12); (periodic, 16);
        (periodic, 20); (periodic, 24); (periodic, 28); (periodic, 32); (periodic, 36);
        (periodic, 40); (periodic, 44); (periodic, 48); (periodic, 52); (periodic, 56);
        (periodic, 60); (periodic, 64); (periodic, 68); (final, 72)].
Proof.
  vm_compute. split; reflexivity.
Qed.

(** ** The duration-completion sweep: gating *)


Lemma processPayoutInternal_effect (w : World) (dealId : string) :
  let w' := fst (Solana.processPayoutInternal w dealId) in
  deals w' = deals w /\ verification_schedules w' = verification_schedules w
  /\ match snd (Solana.processPayoutInternal w dealId) with
     | Ok _ => exists p, payouts w' = (payouts w ++ [p])%list /\ Payout.deal_id p = dealId
     | Throw _ => payouts w' = payouts w
     end.
Proof.
  unfold Solana.processPayoutInternal.
  destruct (deal_by_id w dealId) as [deal|]; [|now simpl].
  destruct (negb _); [now simpl|].
  destruct (Solana.wallet_of w _); [|now simpl].
  destruct (less _ _); [now simpl|].
  destruct (Solana.u64 _); [|now simpl].
  simpl. repeat split. eexists. split; reflexivity.
Qed.

Lemma processCreatorPayout_effect (w : World) (dealId : string) :
  let w' := fst (Worker.processCreatorPayout w dealId) in
  deals w' = deals w /\ verification_schedules w' = verification_schedules w
  /\ match snd (Worker.processCreatorPayout w dealId) with
     | Ok _ => exists p, payouts w' = (payouts w ++ [p])%list /\ Payout.deal_id p = dealId
     | Throw _ => payouts w' = payouts w
     end.
Proof.
  unfold Worker.processCreatorPayout.
  destruct (deal_by_id w dealId) as [deal|]; [|now simpl].
  destruct (String.eqb _ "solana").
  - destruct (Worker.truthy_opt _); [|now simpl].
    pose proof (processPayoutInternal_effect w dealId) as H.
    destruct (Solana.processPayoutInternal w dealId) as [w' [sig|m]]; exact H.
  - destruct (Worker.truthy_opt _); [|now simpl].
    simpl. repeat split. eexists. split; reflexivity.
Qed.

Lemma processRefund_effect (w : World) (dealId reason : string) :
  let w' := fst (Worker.processRefund w dealId reason) in
  deals w' = deals w /\ verification_schedules w' = verification_schedules w
  /\ payouts w' = payouts w.
Proof.
  unfold Worker.processRefund.
  destruct (escrow_event_of w dealId "FundEscrow") as [escrow|]; [|now simpl].
  destruct (match single _ with Some _ => _ | None => _ end); [now simpl|].
  destruct (String.eqb _ "solana"); [|now simpl].
  unfold Solana.refund_escrow. cbn [negb].
  destruct (negb (truthy_string dealId) || negb (truthy_string reason)); [now simpl|].
  pose proof (processRefundInternal_deals w dealId reason) as Hd.
  pose proof (processRefundInternal_frame w dealId reason) as (_ & Hp & Hs).
  destruct (Solana.processRefundInternal w dealId reason) as [w' [sig|m]];
    simpl in *; repeat split; assumption.
Qed.


Lemma update_deal_other (dealId other : string) (f : Deal.t -> Deal.t) (ds : list Deal.t) :
  other <> dealId -> (forall d, Deal.id (f d) = Deal.id d) ->
  filter (fun d => String.eqb (Deal.id d) dealId)
         (update_where (fun d => String.eqb (Deal.id d) other) f ds)
  = filter (fun d => String.eqb (Deal.id d) dealId) ds.
Proof.
  intros Hne Hf. apply filter_update_where_other.
  intros r Hr. apply String.eqb_eq in Hr. rewrite Hf, Hr.
  split; apply String.eqb_neq; exact Hne.
Qed.






















(* ------------------------------------------------------------------ *)
(** ** Solana routes: funding, payout and refund *)

(** The double arithmetic of the model on the amounts of the routes: the
    total of funding 0.1 and 5.02, the lamports of 4.0281675355, the
    rendering of small and large numbers, and the milliseconds of the
    shortest duration and interval. *)
Lemma double_arithmetic_examples :
  let total (a : number) :=
    add (double_of a) (mul (double_of a) Solana.PLATFORM_FEE_PERCENT) in
  let milliseconds (h : number) :=
    mul (mul (mul (double_of h) (Finite 60)) (Finite 60)) (Finite 1000) in
  double_to_string (total (1 # 10)) = "0.10200000000000001"
  /\ double_to_string (total (502 # 100)) = "5.120399999999999"
  /\ total 50%Q = Finite 51
  /\ lamports_of (40281675355 # 10000000000) = Finite 4028167535
  /\ lamports_of 50 = Finite 50000000000
  /\ number_to_string (1 # 10000000) = "1e-7"
  /\ number_to_string (1 # 1000000) = "0.000001"
  /\ number_to_string (inject_Z (10 ^ 21)) = "1e+21"
  /\ number_to_string (inject_Z (10 ^ 20)) = "100000000000000000000"
  /\ number_to_string (833 # 10000) = "0.0833"
  /\ number_to_string (1 # 3) = "0.3333333333333333"
  /\ mul (double_of (inject_Z (10 ^ 300))) (Finite 1000000000) = Infinity false
  /\ milliseconds (833 # 10000) = Finite 299880
  /\ milliseconds (278 # 10000) = Finite 100080
  /\ milliseconds 24%Q = Finite 86400000.
Proof.
  vm_compute. repeat split; reflexivity.
Qed.

Lemma fund_escrow_effect
        (now : Z) (user deal_id tx : string) (status : Solana.Transaction) (w w' : World)
        (r : Response) :
  Solana.fund_escrow now user deal_id tx status w = (w', r) ->
  (code_of r <> 200 -> w' = w)
  /\ (code_of r = 200 ->
      exists deal deal',
        deal_by_id w deal_id = Some deal
        /\ Deal.advertiser_id deal = user
        /\ (Deal.status deal = PendingFunding \/ Deal.status deal = Failed)
        /\ status = Solana.confirmed
        /\ deal_by_id w' deal_id = Some deal'
        /\ Deal.status deal' = PendingVerification
        /\ Deal.updated_at deal' = Some now
        /\ Deal.amount_usdc deal' = Deal.amount_usdc deal
        /\ Deal.creator_id deal' = Deal.creator_id deal
        /\ escrow_events w'
           = (escrow_events w
                ++ [EscrowEvent.mk deal_id "Created"
                      (json_number
                         (add (double_of (Deal.amount_usdc deal))
                              (mul (double_of (Deal.amount_usdc deal))
                                   (double_of (2 # 100)))))
                      (Some "solana") None (Some tx)])%list
        /\ (forall other, other <> deal_id -> deal_rows w' other = deal_rows w other)
        /\ payouts w' = payouts w /\ refunds w' = refunds w
        /\ transfers w' = transfers w
        /\ verification_schedules w' = verification_schedules w).
Proof.
  unfold Solana.fund_escrow. intros H.
  destruct (negb (truthy_string deal_id) || negb (truthy_string tx)).
  { inversion H; subst. split; [reflexivity | intros C; discriminate C]. }
  destruct (deal_by_id w deal_id) as [deal|] eqn:Ed.
  2:{ inversion H; subst. split; [reflexivity | intros C; discriminate C]. }
  destruct (String.eqb (Deal.advertiser_id deal) user) eqn:Eu; cbn [negb] in H.
  2:{ inversion H; subst. split; [reflexivity | intros C; discriminate C]. }
  destruct (negb (DealStatus_eqb (Deal.status deal) PendingFunding)
            && negb (DealStatus_eqb (Deal.status deal) Failed)) eqn:Es.
  { inversion H; subst. split; [reflexivity | intros C; discriminate C]. }
  destruct status;
    try (inversion H; subst; split; [reflexivity | intros C; discriminate C]).
  inversion H; subst; clear H.
  split; [intros C; exfalso; apply C; reflexivity | intros _].
  eexists deal, _.
  split; [reflexivity|].
  split; [apply String.eqb_eq; exact Eu|].
  split.
  { destruct (Deal.status deal); cbn in Es; try discriminate Es; auto. }
  split; [reflexivity|].
  split.
  { unfold deal_by_id in *. cbn [deals set_deals set_escrow_events].
    apply deal_by_id_update; [intros d; reflexivity | exact Ed]. }
  cbn [Deal.status Deal.updated_at Deal.amount_usdc Deal.creator_id escrow_events
       set_escrow_events set_deals payouts refunds transfers verification_schedules].
  repeat split.
  intros other Ho. unfold deal_rows. cbn [deals set_deals set_escrow_events].
  apply update_deal_other; [congruence | intros d; reflexivity].
Qed.

(** X1 (fund-escrow).  The route answers 200 only to the deal's advertiser,
    for a deal in PendingFunding or Failed and a transaction that went
    through; it then moves the deal to PendingVerification and records one
    Created event, paid through solana, with the signature under
    solana_signature and no tx_ref, its amount the double sum of the deal
    amount and its 2% fee; nothing else is written.  Every other answer
    leaves the store as it was: for the advertiser's deal, 400 with the
    status in the message when the deal is in another status, 400 when the
    transaction is not found and 400 when it has failed on-chain. *)
Theorem fund_escrow_funds_only_an_open_deal
        (now : Z) (user deal_id tx : string) (status : Solana.Transaction) (w w' : World)
        (r : Response) :
  Solana.fund_escrow now user deal_id tx status w = (w', r) ->
  (code_of r <> 200 -> w' = w)
  /\ (code_of r = 200 ->
      exists deal deal',
        deal_by_id w deal_id = Some deal
        /\ Deal.advertiser_id deal = user
        /\ (Deal.status deal = PendingFunding \/ Deal.status deal = Failed)
        /\ status = Solana.confirmed
        /\ deal_by_id w' deal_id = Some deal'
        /\ Deal.status deal' = PendingVerification
        /\ Deal.updated_at deal' = Some now
        /\ Deal.amount_usdc deal' = Deal.amount_usdc deal
        /\ Deal.creator_id deal' = Deal.creator_id deal
        /\ escrow_events w'
           = (escrow_events w
                ++ [EscrowEvent.mk deal_id "Created"
                      (json_number
                         (add (double_of (Deal.amount_usdc deal))
                              (mul (double_of (Deal.amount_usdc deal))
                                   (double_of (2 # 100)))))
                      (Some "solana") None (Some tx)])%list
        /\ (forall other, other <> deal_id -> deal_rows w' other = deal_rows w other)
        /\ payouts w' = payouts w /\ refunds w' = refunds w
        /\ transfers w' = transfers w
        /\ verification_schedules w' = verification_schedules w)
  /\ (truthy_string deal_id = true -> truthy_string tx = true ->
      forall deal,
        deal_by_id w deal_id = Some deal -> Deal.advertiser_id deal = user ->
        (Deal.status deal <> PendingFunding -> Deal.status deal <> Failed ->
         r = json (error_body ("Deal is not in funding state. Current status: "
                                 ++ DealStatus_name (Deal.status deal))) 400)
        /\ (Deal.status deal = PendingFunding \/ Deal.status deal = Failed ->
            (status = Solana.not_found ->
             r = json (error_body "Transaction not found or not confirmed") 400)
            /\ (status = Solana.failed_on_chain ->
                r = json (error_body "Transaction failed on-chain") 400))).
Proof.
  intros H.
  destruct (fund_escrow_effect now user deal_id tx status w w' r H) as [A B].
  split; [exact A|]. split; [exact B|].
  intros Hd1 Ht deal Hd Hu. unfold Solana.fund_escrow in H.
  rewrite Hd1, Ht, Hd, Hu, String.eqb_refl in H. cbn [negb orb] in H.
  split.
  - intros N1 N2.
    destruct (Deal.status deal); try congruence;
      cbn [negb andb DealStatus_eqb] in H; inversion H; reflexivity.
  - intros [E | E]; rewrite E in H; cbn [negb andb DealStatus_eqb] in H;
      (split; intros ->; inversion H; reflexivity).
Qed.

Lemma fund_escrow_funds_only_an_open_deal_witness :
  exists deal',
    deal_by_id (Scenario.funded 24) Scenario.dealId = Some deal'
    /\ Deal.status deal' = PendingVerification
    /\ escrow_events (Scenario.funded 24)
       = [EscrowEvent.mk Scenario.dealId "Created" (Some 51%Q) (Some "solana") None
                         (Some "tx-fund")].
Proof.
  destruct (fund_escrow_funds_only_an_open_deal
              (Scenario.T0 - Scenario.hour) Scenario.advertiser Scenario.dealId "tx-fund"
              Solana.confirmed (Scenario.accepted 24) (Scenario.funded 24)
              (json (settlement_body Scenario.dealId "tx-fund") 200))
    as (_ & H & _).
  { vm_compute. reflexivity. }
  destruct (H eq_refl) as (deal & deal' & Hd0 & _ & _ & _ & Hd & Hs & _ & _ & _ & He & _).
  vm_compute in Hd0. injection Hd0 as <-.
  exists deal'. split; [exact Hd|]. split; [exact Hs|].
  rewrite He. vm_compute. reflexivity.
Defined.

Lemma u64_inv (z amount : Z) :
  Solana.u64 (Finite (inject_Z z)) = Some amount -> amount = z /\ 0 <= z < 2 ^ 64.
Proof.
  unfold Solana.u64. rewrite Qfloor_Z.
  destruct (Qeq_bool _ _); [|discriminate].
  destruct (0 <=? z) eqn:E0; [|discriminate].
  destruct (z <? 2 ^ 64) eqn:E1; [|discriminate].
  cbn [andb]. intro H. inversion H; subst.
  apply Z.leb_le in E0. apply Z.ltb_lt in E1. auto.
Qed.

(** The amount a settlement executor sends is a whole number of lamports,
    or it is not finite and nothing can be sent. *)
Lemma lamports_of_cases (amount : number) :
  (exists z, lamports_of amount = Finite (inject_Z z))
  \/ (exists sg, lamports_of amount = Infinity sg)
  \/ lamports_of amount = NaN.
Proof.
  unfold lamports_of. destruct (mul _ _) as [q|sg|]; cbn [Math_round]; eauto.
Qed.

(** X2 (processPayoutInternal).  A payout is made only for a Completed deal
    whose creator has a wallet: the deal amount, in lamports as the double
    product gives them, goes to that wallet, the platform wallet pays it and
    the fee and, holding less than [2^53] lamports, keeps at least the
    rent-exempt minimum, and one Completed payout row of the deal amount is
    added; deals and schedules are not written.  A payout that throws
    leaves the store and the wallet as they were. *)
Theorem payout_sends_deal_amount_within_reserve (w : World) (deal_id : string) :
  0 <= platform_balance w < 2 ^ 53 ->
  match Solana.processPayoutInternal w deal_id with
  | (w', Ok signature) =>
      exists deal wallet lamports,
        deal_by_id w deal_id = Some deal
        /\ Deal.status deal = Completed
        /\ Solana.wallet_of w (Deal.creator_id deal) = Some wallet
        /\ Math_round (mul (double_of (Deal.amount_usdc deal)) (Finite 1000000000))
           = Finite (inject_Z lamports)
        /\ 0 <= lamports
        /\ transfers w' = (transfers w ++ [Transfer.mk wallet lamports])%list
        /\ platform_balance w' = platform_balance w - lamports - Solana.TX_FEE
        /\ Solana.RENT_EXEMPT_MINIMUM <= platform_balance w'
        /\ payouts w'
           = (payouts w
                ++ [Payout.mk deal_id "Solana" "Completed" (Deal.amount_usdc deal)
                              (Some signature)])%list
        /\ deals w' = deals w
        /\ verification_schedules w' = verification_schedules w
        /\ refunds w' = refunds w
  | (w', Throw _) => w' = w
  end.
Proof.
  intros Hbal. unfold Solana.processPayoutInternal.
  destruct (deal_by_id w deal_id) as [deal|] eqn:Ed; [|reflexivity].
  destruct (DealStatus_eqb (Deal.status deal) Completed) eqn:Es; cbn [negb]; [|reflexivity].
  destruct (Solana.wallet_of w (Deal.creator_id deal)) as [wallet|] eqn:Ew; [|reflexivity].
  fold (lamports_of (Deal.amount_usdc deal)).
  destruct (lamports_of_cases (Deal.amount_usdc deal)) as [[z Hz]|[[sg Hz]|Hz]]; rewrite Hz.
  - rewrite (balance_check _ z Hbal).
    destruct (platform_balance w <? z + Solana.RESERVE) eqn:Eb; [reflexivity|].
    destruct (Solana.u64 (Finite (inject_Z z))) as [amount|] eqn:Eu; [|reflexivity].
    apply u64_inv in Eu. destruct Eu as [-> [H0 _]].
    apply Z.ltb_ge in Eb.
    exists deal, wallet, z.
    split; [reflexivity|].
    split; [destruct (Deal.status deal); cbn in Es; congruence|].
    split; [exact Ew|].
    split; [exact Hz|].
    split; [exact H0|].
    repeat split; try reflexivity.
    cbn [platform_balance set_payouts set_refunds send_transfer Transfer.lamports].
    unfold Solana.RESERVE in Eb. lia.
  - rewrite (double_of_Z (platform_balance w)) by lia.
    destruct sg; reflexivity.
  - rewrite (double_of_Z (platform_balance w)) by lia. reflexivity.
Qed.

Lemma payout_sends_deal_amount_within_reserve_witness :
  exists w' signature,
    Solana.processPayoutInternal Scenario.completed_unpaid Scenario.dealId
    = (w', Ok signature)
    /\ transfers w' = [Transfer.mk "CreatorWallet" 50000000000]
    /\ Solana.RENT_EXEMPT_MINIMUM <= platform_balance w'.
Proof.
  assert (Hbal : 0 <= platform_balance Scenario.completed_unpaid < 2 ^ 53)
    by (vm_compute; split; [discriminate | reflexivity]).
  pose proof (payout_sends_deal_amount_within_reserve Scenario.completed_unpaid
                Scenario.dealId Hbal) as H.
  destruct (Solana.processPayoutInternal Scenario.completed_unpaid Scenario.dealId)
    as [w' [signature|message]] eqn:E.
  - exists w', signature. split; [reflexivity|].
    destruct H as (deal & wallet & lamports & Hd & _ & Hw & Hl & _ & Ht & _ & Hb & _).
    vm_compute in Hd. injection Hd as <-.
    vm_compute in Hw. injection Hw as <-.
    vm_compute in Hl. injection Hl as <-.
    split; [rewrite Ht; reflexivity | exact Hb].
  - vm_compute in E. discriminate E.
Defined.

(** X3 (processRefundInternal).  A Solana refund is made only for a Failed
    or Cancelled deal whose advertiser has a wallet: it returns the deal
    amount, not the total with the 2% fee recorded at funding, in lamports
    as the double product gives them and within the same reserve, and adds
    one completed refund row of the deal amount, which holds no signature;
    the deal row is not written.  A refund that throws leaves the store and
    the wallet as they were. *)
Theorem solana_refund_returns_deal_amount (w : World) (deal_id reason : string) :
  0 <= platform_balance w < 2 ^ 53 ->
  match Solana.processRefundInternal w deal_id reason with
  | (w', Ok signature) =>
      exists deal wallet lamports,
        deal_by_id w deal_id = Some deal
        /\ (Deal.status deal = Failed \/ Deal.status deal = Cancelled)
        /\ Solana.wallet_of w (Some (Deal.advertiser_id deal)) = Some wallet
        /\ Math_round (mul (double_of (Deal.amount_usdc deal)) (Finite 1000000000))
           = Finite (inject_Z lamports)
        /\ 0 <= lamports
        /\ transfers w' = (transfers w ++ [Transfer.mk wallet lamports])%list
        /\ platform_balance w' = platform_balance w - lamports - Solana.TX_FEE
        /\ Solana.RENT_EXEMPT_MINIMUM <= platform_balance w'
        /\ refunds w'
           = (refunds w
                ++ [Refund.mk deal_id (Some (Deal.amount_usdc deal)) reason "completed"
                              None])%list
        /\ deals w' = deals w
        /\ payouts w' = payouts w
        /\ escrow_events w' = escrow_events w
  | (w', Throw _) => w' = w
  end.
Proof.
  intros Hbal. unfold Solana.processRefundInternal.
  destruct (deal_by_id w deal_id) as [deal|] eqn:Ed; [|reflexivity].
  destruct (negb (DealStatus_eqb (Deal.status deal) Failed)
            && negb (DealStatus_eqb (Deal.status deal) Cancelled)) eqn:Es; [reflexivity|].
  destruct (Solana.wallet_of w (Some (Deal.advertiser_id deal))) as [wallet|] eqn:Ew;
    [|reflexivity].
  fold (lamports_of (Deal.amount_usdc deal)).
  destruct (lamports_of_cases (Deal.amount_usdc deal)) as [[z Hz]|[[sg Hz]|Hz]]; rewrite Hz.
  - rewrite (balance_check _ z Hbal).
    destruct (platform_balance w <? z + Solana.RESERVE) eqn:Eb; [reflexivity|].
    destruct (Solana.u64 (Finite (inject_Z z))) as [amount|] eqn:Eu; [|reflexivity].
    apply u64_inv in Eu. destruct Eu as [-> [H0 _]].
    apply Z.ltb_ge in Eb.
    exists deal, wallet, z.
    split; [reflexivity|].
    split; [destruct (Deal.status deal); cbn in Es; try discriminate Es; auto|].
    split; [exact Ew|].
    split; [exact Hz|].
    split; [exact H0|].
    repeat split; try reflexivity.
    cbn [platform_balance set_payouts set_refunds send_transfer Transfer.lamports].
    unfold Solana.RESERVE in Eb. lia.
  - rewrite (double_of_Z (platform_balance w)) by lia.
    destruct sg; reflexivity.
  - rewrite (double_of_Z (platform_balance w)) by lia. reflexivity.
Qed.

Lemma solana_refund_returns_deal_amount_witness :
  exists w' signature,
    Solana.processRefundInternal Scenario.failed_unrefunded Scenario.dealId
                                 "verification_failed"
    = (w', Ok signature)
    /\ refunds w'
       = [Refund.mk Scenario.dealId (Some 50%Q) "verification_failed" "completed" None]
    /\ map EscrowEvent.amount_usdc (escrow_events w') = [Some 51%Q]
    /\ transfers w' = [Transfer.mk "AdvertiserWallet" 50000000000].
Proof.
  assert (Hbal : 0 <= platform_balance Scenario.failed_unrefunded < 2 ^ 53)
    by (vm_compute; split; [discriminate | reflexivity]).
  pose proof (solana_refund_returns_deal_amount Scenario.failed_unrefunded
                Scenario.dealId "verification_failed" Hbal) as H.
  destruct (Solana.processRefundInternal Scenario.failed_unrefunded Scenario.dealId
                                         "verification_failed")
    as [w' [signature|message]] eqn:E.
  - exists w', signature. split; [reflexivity|].
    destruct H as (deal & wallet & lamports & Hd & _ & Hw & Hl & _ & Ht & _ & _ & Hr & _ & _ & He).
    vm_compute in Hd. injection Hd as <-.
    vm_compute in Hw. injection Hw as <-.
    vm_compute in Hl. injection Hl as <-.
    split; [rewrite Hr; reflexivity|].
    split; [rewrite He; reflexivity|].
    rewrite Ht. reflexivity.
  - vm_compute in E. discriminate E.
Defined.

(* ------------------------------------------------------------------ *)
(** ** The callback route: what it accepts and what it can write *)

Lemma Forall2_update_where {A} (R : A -> A -> Prop) (p : A -> bool) (f : A -> A)
      (l l' : list A) :
  (forall a b, R a b -> R a (f b)) ->
  Forall2 R l l' -> Forall2 R l (update_where p f l').
Proof.
  intros Hf H. induction H as [|a b l l' Hab H IH]; cbn; constructor; auto.
  destruct (p b); auto.
Qed.

Lemma Forall2_refl {A} (R : A -> A -> Prop) (l : list A) :
  (forall a, R a a) -> Forall2 R l l.
Proof. intros H. induction l; constructor; auto. Qed.

Lemma verdict_written_refl (d : Deal.t) : verdict_written d d.
Proof. unfold verdict_written. repeat split; auto. Qed.

Lemma callback_world_keeps (env : Env) (now : Z) (requestBody : RequestBody.t)
      (w : World) (dealId verificationStatus : string) (overallScore : number)
      (deal : Deal.t) :
  let w' := callback_world env now requestBody dealId verificationStatus overallScore deal w in
  Forall2 verdict_written (deals w) (deals w')
  /\ payouts w' = payouts w /\ escrow_events w' = escrow_events w
  /\ proof_specs w' = proof_specs w /\ identities w' = identities w
  /\ test_results w' = test_results w.
Proof.
  unfold callback_world.
  set (v := Orchestrator.decide requestBody verificationStatus overallScore).
  set (res := Orchestrator.enrichedOrchestratorResult _ _ _).
  set (w1 := set_deals w _).
  assert (H1 : Forall2 verdict_written (deals w) (deals w1)
               /\ payouts w1 = payouts w /\ escrow_events w1 = escrow_events w
               /\ proof_specs w1 = proof_specs w /\ identities w1 = identities w
               /\ test_results w1 = test_results w).
  { split; [|cbn; auto].
    subst w1. cbn [deals set_deals].
    apply Forall2_update_where; [|apply Forall2_refl, verdict_written_refl].
    intros a b (H0 & H2 & H3 & H4 & H5 & H6 & H7 & H8).
    unfold verdict_written, Orchestrator.updateData; cbn.
    repeat (split; [assumption|]).
    right. pose proof (decide_status requestBody verificationStatus overallScore) as D.
    cbv zeta in D. fold v in D. tauto. }
  set (w2 := Orchestrator.update_schedules now dealId requestBody overallScore w1).
  assert (H2 : deals w2 = deals w1 /\ payouts w2 = payouts w1
               /\ escrow_events w2 = escrow_events w1
               /\ proof_specs w2 = proof_specs w1 /\ identities w2 = identities w1
               /\ test_results w2 = test_results w1).
  { subst w2. unfold Orchestrator.update_schedules.
    destruct (Orchestrator.earliest _); cbn; auto 10. }
  set (w3 := if Orchestrator.shouldCreateHITLReview v then _ else w2).
  assert (H3 : deals w3 = deals w2 /\ payouts w3 = payouts w2
               /\ escrow_events w3 = escrow_events w2
               /\ proof_specs w3 = proof_specs w2 /\ identities w3 = identities w2
               /\ test_results w3 = test_results w2).
  { subst w3. destruct (Orchestrator.shouldCreateHITLReview v); cbn; auto 10. }
  set (w4 := if DealStatus_eqb (Orchestrator.finalStatus v) Failed then _ else w3).
  assert (H4 : Forall2 verdict_written (deals w) (deals w4)
               /\ payouts w4 = payouts w /\ escrow_events w4 = escrow_events w
               /\ proof_specs w4 = proof_specs w /\ identities w4 = identities w
               /\ test_results w4 = test_results w).
  { destruct H1 as (D1 & P1 & E1 & S1 & I1 & T1).
    destruct H2 as (D2 & P2 & E2 & S2 & I2 & T2).
    destruct H3 as (D3 & P3 & E3 & S3 & I3 & T3).
    assert (H0 : Forall2 verdict_written (deals w) (deals w3)
                 /\ payouts w3 = payouts w /\ escrow_events w3 = escrow_events w
                 /\ proof_specs w3 = proof_specs w /\ identities w3 = identities w
                 /\ test_results w3 = test_results w).
    { rewrite D3, D2. repeat split; congruence. }
    subst w4. destruct (DealStatus_eqb (Orchestrator.finalStatus v) Failed); [|exact H0].
    destruct H0 as (D0 & P0 & E0 & S0 & I0 & T0').
    unfold Orchestrator.processAutomaticRefund.
    destruct (String.eqb _ "solana"); [|repeat split; assumption].
    pose proof (processRefundInternal_keeps w3
                  (Deal.id (Orchestrator.updateData v res now overallScore deal))
                  "verification_failed") as K.
    cbv zeta in K.
    destruct (Solana.processRefundInternal w3 _ _) as [w' [sig|message]];
      cbn [fst] in K; destruct K as (KD & KP & KE & KS & KI & _ & _ & KT).
    - rewrite KD, KP, KE, KS, KI, KT. repeat split; assumption.
    - cbn [deals set_deals payouts escrow_events proof_specs identities test_results].
      rewrite KD, KP, KE, KS, KI, KT.
      split; [|repeat split; assumption].
      apply Forall2_update_where; [|exact D0].
      intros a b (A0 & A2 & A3 & A4 & A5 & A6 & A7 & A8).
      unfold verdict_written, Orchestrator.set_failure_reason; cbn.
      repeat (split; [assumption|]). exact A8. }
  destruct (DealStatus_eqb (Orchestrator.finalStatus v) Verifying && HITL_ENABLED env);
    [cbn [deals set_reviews payouts escrow_events proof_specs identities test_results]|];
    exact H4.
Qed.

(** X4 (callback, all branches).  Whatever the request, the callback route
    adds or removes no row of deals, keeps the parties, amount, deadline
    and post of every deal, writes no status other than Verifying or
    Failed, and never writes a payout, an escrow event, a proof spec or an
    identity: a deal is completed and paid by the sweep only. *)
Theorem callback_never_pays_or_completes
        (env : Env) (now : Z) (authHeader : option string) (body : option RequestBody.t)
        (w : World) :
  let w' := fst (Orchestrator.callback env now authHeader body w) in
  Forall2 verdict_written (deals w) (deals w')
  /\ payouts w' = payouts w /\ escrow_events w' = escrow_events w
  /\ proof_specs w' = proof_specs w /\ identities w' = identities w.
Proof.
  assert (Id : Forall2 verdict_written (deals w) (deals w)
               /\ payouts w = payouts w /\ escrow_events w = escrow_events w
               /\ proof_specs w = proof_specs w /\ identities w = identities w).
  { split; [apply Forall2_refl, verdict_written_refl | auto]. }
  unfold Orchestrator.callback.
  destruct authHeader as [h|]; [|exact Id].
  destruct (negb (truthy_string h) || negb (String.eqb h Orchestrator.expectedAuth));
    [exact Id|].
  destruct body as [requestBody|]; [|exact Id].
  destruct (Orchestrator.dealId (Orchestrator.parse requestBody)) as [dealId|]; [|exact Id].
  cbv zeta.
  destruct (startsWith "test-deal-" dealId); [destruct (TEST_RESULTS_KV env); exact Id|].
  destruct (deal_by_id w dealId) as [deal|]; [|exact Id].
  cbn [fst].
  pose proof (callback_world_keeps env now requestBody w dealId
                (Orchestrator.verificationStatus (Orchestrator.parse requestBody))
                (Orchestrator.overallScore (Orchestrator.parse requestBody)) deal) as K.
  cbv zeta in K. unfold callback_world in K.
  destruct K as (K1 & K2 & K3 & K4 & K5 & _).
  repeat split; assumption.
Qed.

Lemma kv_get_put {V} (key : string) (value : V) (entries : list (string * V)) :
  kv_get key (kv_put key value entries) = Some value.
Proof.
  unfold kv_get, kv_put.
  destruct (existsb (fun e => String.eqb (fst e) key) entries) eqn:E.
  - induction entries as [|[k v] rest IH]; [discriminate E|].
    cbn in *. destruct (String.eqb k key) eqn:Ek.
    + cbn. now rewrite String.eqb_refl.
    + cbn. rewrite Ek. apply IH. exact E.
  - induction entries as [|[k v] rest IH].
    + cbn. now rewrite String.eqb_refl.
    + cbn in *. destruct (String.eqb k key) eqn:Ek; [discriminate E|]. apply IH. exact E.
Qed.

Lemma kv_get_put_other {V} (key other : string) (value : V) (entries : list (string * V)) :
  other <> key -> kv_get other (kv_put key value entries) = kv_get other entries.
Proof.
  intro Hne. unfold kv_get, kv_put.
  assert (Hk : String.eqb key other = false) by (apply String.eqb_neq; congruence).
  destruct (existsb (fun e => String.eqb (fst e) key) entries).
  - induction entries as [|[k v] rest IH]; [reflexivity|].
    cbn. destruct (String.eqb k key) eqn:Ek.
    + cbn. rewrite Hk. apply String.eqb_eq in Ek. subst k. rewrite Hk. exact IH.
    + cbn. destruct (String.eqb k other); [reflexivity | exact IH].
  - induction entries as [|[k v] rest IH].
    + cbn. now rewrite Hk.
    + cbn. destruct (String.eqb k other); [reflexivity | exact IH].
Qed.

(** X5 (callback, rejections).  On a request whose body is no JSON, the
    JSON [null], or a JSON value whose fields, where present, have the
    types of the callback interface: a request without the exact bearer
    token is answered 401 whatever its body; the body [null] of an
    authorized request is answered 500; every answer other than 200 leaves
    the whole store as it was; and an authorized callback for a test deal
    is answered 200 and writes nothing but the key-value store, where the
    result stands under the deal id afterwards when the binding is set, the
    other keys keeping their values. *)
Theorem callback_rejections_leave_store
        (env : Env) (now : Z) (authHeader : option string)
        (payload : Orchestrator.Payload) (w : World) :
  let r := Orchestrator.callback_request env now authHeader payload w in
  (authHeader <> Some Orchestrator.expectedAuth ->
   r = (w, json (error_body "Unauthorized") 401))
  /\ (authHeader = Some Orchestrator.expectedAuth -> payload = Orchestrator.json_null ->
      r = (w, json (error_body "Internal Server Error") 500))
  /\ (authHeader = Some Orchestrator.expectedAuth -> payload = Orchestrator.no_json ->
      r = (w, json (error_body "Invalid JSON body") 400))
  /\ (code_of (snd r) <> 200 -> fst r = w)
  /\ (forall requestBody dealId,
        authHeader = Some Orchestrator.expectedAuth ->
        payload = Orchestrator.json_value requestBody ->
        Orchestrator.dealId (Orchestrator.parse requestBody) = Some dealId ->
        startsWith "test-deal-" dealId = true ->
        snd r = json (test_deal_body dealId
                        (Orchestrator.overallScore (Orchestrator.parse requestBody))
                        (Orchestrator.verificationStatus (Orchestrator.parse requestBody)))
                     200
        /\ deals (fst r) = deals w
        /\ verification_schedules (fst r) = verification_schedules w
        /\ reviews (fst r) = reviews w /\ refunds (fst r) = refunds w
        /\ payouts (fst r) = payouts w /\ escrow_events (fst r) = escrow_events w
        /\ transfers (fst r) = transfers w
        /\ (TEST_RESULTS_KV env = false -> fst r = w)
        /\ (TEST_RESULTS_KV env = true ->
            kv_get dealId (test_results (fst r))
            = Some (Orchestrator.verificationStatus (Orchestrator.parse requestBody),
                    Orchestrator.overallScore (Orchestrator.parse requestBody))
            /\ forall other, other <> dealId ->
                 kv_get other (test_results (fst r)) = kv_get other (test_results w))).
Proof.
  cbv zeta.
  assert (Hauth : forall body, authHeader <> Some Orchestrator.expectedAuth ->
            Orchestrator.callback env now authHeader body w
            = (w, json (error_body "Unauthorized") 401)).
  { intros body Hne. unfold Orchestrator.callback.
    destruct authHeader as [h|]; [|reflexivity].
    destruct (String.eqb h Orchestrator.expectedAuth) eqn:E.
    + apply String.eqb_eq in E. subst h. exfalso. apply Hne. reflexivity.
    + rewrite orb_true_r. reflexivity. }
  assert (Hrej : forall body, code_of (snd (Orchestrator.callback env now authHeader body w))
                              <> 200 ->
                              fst (Orchestrator.callback env now authHeader body w) = w).
  { intro body. unfold Orchestrator.callback.
    destruct authHeader as [h|]; [|reflexivity].
    destruct (_ || _); [reflexivity|].
    destruct body as [requestBody|]; [|reflexivity].
    destruct (Orchestrator.dealId _) as [dealId|]; [|reflexivity].
    cbv zeta.
    destruct (startsWith "test-deal-" dealId); [intros C; exfalso; apply C; reflexivity|].
    destruct (deal_by_id w dealId); [intros C; exfalso; apply C; reflexivity|reflexivity]. }
  split; [|split; [|split; [|split]]].
  - intros Hne. destruct payload; cbn [Orchestrator.callback_request].
    + apply Hauth. exact Hne.
    + destruct authHeader as [h|]; [|reflexivity].
      destruct (String.eqb h Orchestrator.expectedAuth) eqn:E.
      * apply String.eqb_eq in E. subst h. exfalso. apply Hne. reflexivity.
      * rewrite orb_true_r. reflexivity.
    + apply Hauth. exact Hne.
  - intros -> ->. reflexivity.
  - intros -> ->. reflexivity.
  - destruct payload; cbn [Orchestrator.callback_request]; try apply Hrej.
    destruct authHeader as [h|]; [|reflexivity].
    destruct (_ || _); reflexivity.
  - intros requestBody dealId -> -> Hid Htest.
    cbn [Orchestrator.callback_request]. unfold Orchestrator.callback.
    change (negb (truthy_string Orchestrator.expectedAuth)
            || negb (String.eqb Orchestrator.expectedAuth Orchestrator.expectedAuth))
      with false.
    cbv iota. rewrite Hid. cbv zeta. rewrite Htest. cbn [fst snd].
    split; [reflexivity|].
    destruct (TEST_RESULTS_KV env).
    + cbn [deals verification_schedules reviews refunds payouts escrow_events transfers
           set_test_results test_results].
      repeat split; try reflexivity; try discriminate.
      * apply kv_get_put.
      * intros other Hne. apply kv_get_put_other. exact Hne.
    + repeat split; try reflexivity; discriminate.
Qed.

Lemma callback_rejections_leave_store_witness :
  Orchestrator.callback_request Scenario.env (Scenario.T0 + Scenario.hour)
    (Some "Bearer guess") (Orchestrator.json_value (Scenario.completed_body 85 None []))
    (Scenario.posted 24)
  = (Scenario.posted 24, json (error_body "Unauthorized") 401).
Proof.
  apply (callback_rejections_leave_store Scenario.env (Scenario.T0 + Scenario.hour)
           (Some "Bearer guess") (Orchestrator.json_value (Scenario.completed_body 85 None []))
           (Scenario.posted 24)).
  intros C. discriminate C.
Defined.

Lemma earliest_spec (rows : list Schedule.t) :
  match Orchestrator.earliest rows with
  | Some s =>
      In s rows
      /\ forall s', In s' rows -> Schedule.scheduled_at s <= Schedule.scheduled_at s'
  | None => rows = []
  end.
Proof.
  induction rows as [|a rest IH]; [reflexivity|].
  cbn [Orchestrator.earliest].
  destruct (Orchestrator.earliest rest) as [s'|].
  - destruct IH as [Hin Hmin].
    destruct (Schedule.scheduled_at a <=? Schedule.scheduled_at s') eqn:E.
    + apply Z.leb_le in E. split; [left; reflexivity|].
      intros x [<-|Hx]; [lia|]. specialize (Hmin x Hx). lia.
    + apply Z.leb_gt in E. split; [right; exact Hin|].
      intros x [<-|Hx]; [lia|]. apply Hmin; exact Hx.
  - subst rest. split; [left; reflexivity|].
    intros x [<-|[]]. lia.
Qed.

Lemma update_where_unique_id (f : Schedule.t -> Schedule.t) (s : Schedule.t)
      (l1 l2 : list Schedule.t) :
  NoDup (map Schedule.id (l1 ++ s :: l2)) ->
  update_where (fun x => Nat.eqb (Schedule.id x) (Schedule.id s)) f (l1 ++ s :: l2)
  = (l1 ++ f s :: l2)%list.
Proof.
  intros Hnd. rewrite map_app in Hnd. cbn [map] in Hnd.
  pose proof (NoDup_remove_2 _ _ _ Hnd) as Hnot.
  assert (Hsame : forall l, (forall x, In x l -> Schedule.id x <> Schedule.id s) ->
                            update_where (fun x => Nat.eqb (Schedule.id x) (Schedule.id s)) f l
                            = l).
  { induction l as [|a l IH]; intros Hl; [reflexivity|].
    cbn. destruct (Nat.eqb (Schedule.id a) (Schedule.id s)) eqn:E.
    - apply Nat.eqb_eq in E. exfalso. apply (Hl a); [left; reflexivity | exact E].
    - f_equal. apply IH. intros x Hx. apply Hl. right; exact Hx. }
  unfold update_where in *. rewrite map_app. cbn [map].
  rewrite Nat.eqb_refl.
  rewrite (Hsame l1), (Hsame l2); [reflexivity|..].
  - intros x Hx E. apply Hnot. apply in_or_app. right.
    rewrite <- E. apply in_map; exact Hx.
  - intros x Hx E. apply Hnot. apply in_or_app. left.
    rewrite <- E. apply in_map; exact Hx.
Qed.

Lemma callback_world_schedules (env : Env) (now : Z) (requestBody : RequestBody.t)
      (w : World) (dealId verificationStatus : string) (overallScore : number)
      (deal : Deal.t) :
  verification_schedules
    (callback_world env now requestBody dealId verificationStatus overallScore deal w)
  = verification_schedules
      (Orchestrator.update_schedules now dealId requestBody overallScore w).
Proof.
  unfold callback_world.
  set (v := Orchestrator.decide requestBody verificationStatus overallScore).
  set (res := Orchestrator.enrichedOrchestratorResult _ _ _).
  set (w1 := set_deals w _).
  set (w2 := Orchestrator.update_schedules now dealId requestBody overallScore w1).
  assert (H2 : verification_schedules w2
               = verification_schedules
                   (Orchestrator.update_schedules now dealId requestBody overallScore w)).
  { subst w2 w1. unfold Orchestrator.update_schedules.
    cbn [verification_schedules set_deals].
    destruct (Orchestrator.earliest _); reflexivity. }
  set (w3 := if Orchestrator.shouldCreateHITLReview v then _ else w2).
  assert (H3 : verification_schedules w3 = verification_schedules w2).
  { subst w3. destruct (Orchestrator.shouldCreateHITLReview v); reflexivity. }
  set (w4 := if DealStatus_eqb (Orchestrator.finalStatus v) Failed then _ else w3).
  assert (H4 : verification_schedules w4 = verification_schedules w3).
  { subst w4. destruct (DealStatus_eqb (Orchestrator.finalStatus v) Failed); [|reflexivity].
    unfold Orchestrator.processAutomaticRefund.
    destruct (String.eqb _ "solana"); [|reflexivity].
    pose proof (processRefundInternal_keeps w3
                  (Deal.id (Orchestrator.updateData v res now overallScore deal))
                  "verification_failed") as K.
    cbv zeta in K.
    destruct (Solana.processRefundInternal w3 _ _) as [w' [sig|message]];
      cbn [fst] in K; destruct K as (_ & _ & _ & _ & _ & KV & _); exact KV. }
  destruct (_ && _); cbn [verification_schedules set_reviews]; congruence.
Qed.

(** X6 (callback, schedules).  An accepted callback for a stored deal closes
    exactly one schedule row when the deal has a running or pending one: the
    one scheduled first among them, which becomes completed at the time of
    the callback with the score as its confidence; every other row, of this
    deal or another, stays as it was.  Without such a row the table is not
    written. *)
Theorem callback_closes_earliest_schedule
        (env : Env) (now : Z) (requestBody : RequestBody.t) (w : World)
        (dealId verificationStatus : string) (overallScore : number) (deal : Deal.t) :
  unique_schedule_ids w ->
  Orchestrator.parse requestBody
    = Orchestrator.mkParsed (Some dealId) verificationStatus overallScore ->
  startsWith "test-deal-" dealId = false ->
  deal_by_id w dealId = Some deal ->
  let w' := fst (Orchestrator.callback env now (Some Orchestrator.expectedAuth)
                                       (Some requestBody) w) in
  (filter (Orchestrator.in_flight dealId) (verification_schedules w) = [] ->
   verification_schedules w' = verification_schedules w)
  /\ (filter (Orchestrator.in_flight dealId) (verification_schedules w) <> [] ->
      exists s before after,
        verification_schedules w = (before ++ s :: after)%list
        /\ Schedule.deal_id s = dealId
        /\ (Schedule.status s = running \/ Schedule.status s = pending)
        /\ (forall s', In s' (verification_schedules w) ->
                       Orchestrator.in_flight dealId s' = true ->
                       Schedule.scheduled_at s <= Schedule.scheduled_at s')
        /\ verification_schedules w'
           = (before ++ Orchestrator.complete_schedule now requestBody overallScore s
                     :: after)%list
        /\ Schedule.status (Orchestrator.complete_schedule now requestBody overallScore s)
           = completed
        /\ Schedule.completed_at
             (Orchestrator.complete_schedule now requestBody overallScore s) = Some now
        /\ Schedule.confidence_score
             (Orchestrator.complete_schedule now requestBody overallScore s)
           = Some overallScore).
Proof.
  intros Hnd Hp Ht Hd w'.
  subst w'. rewrite (callback_accepted env now requestBody w dealId verificationStatus
                       overallScore deal Hp Ht Hd).
  cbn [fst]. rewrite callback_world_schedules.
  unfold Orchestrator.update_schedules.
  pose proof (earliest_spec (filter (Orchestrator.in_flight dealId)
                                    (verification_schedules w))) as He.
  destruct (Orchestrator.earliest _) as [s|].
  - destruct He as [Hin Hmin]. split.
    + intros E. rewrite E in Hin. destruct Hin.
    + intros _. apply filter_In in Hin. destruct Hin as [Hin Hfl].
      destruct (in_split _ _ Hin) as (before & after & Hsplit).
      exists s, before, after.
      split; [exact Hsplit|].
      unfold Orchestrator.in_flight in Hfl. apply andb_true_iff in Hfl.
      destruct Hfl as [Hid Hst].
      split; [apply String.eqb_eq; exact Hid|].
      split.
      { destruct (Schedule.status s); cbn in Hst; try discriminate Hst; auto. }
      split.
      { intros s' Hs' Hf'. apply Hmin. apply filter_In. split; assumption. }
      split; [|repeat split].
      cbn [verification_schedules set_verification_schedules].
      rewrite Hsplit. apply update_where_unique_id.
      unfold unique_schedule_ids in Hnd. rewrite Hsplit in Hnd. exact Hnd.
  - split; [reflexivity|]. intros C. exfalso. apply C. exact He.
Qed.

Lemma callback_closes_earliest_schedule_witness :
  exists s before after,
    verification_schedules (Scenario.posted 24) = (before ++ s :: after)%list
    /\ Schedule.deal_id s = Scenario.dealId
    /\ verification_schedules (Scenario.verified 24 85)
       = (before ++ Orchestrator.complete_schedule (Scenario.T0 + Scenario.hour)
                      (Scenario.completed_body 85 (Some 90%Q) []) 85 s :: after)%list.
Proof.
  assert (Hnd : unique_schedule_ids (Scenario.posted 24)).
  { unfold unique_schedule_ids.
    replace (map Schedule.id (verification_schedules (Scenario.posted 24)))
      with (seq 1 19) by (vm_compute; reflexivity).
    apply seq_NoDup. }
  assert (Hp : Orchestrator.parse (Scenario.completed_body 85 (Some 90%Q) [])
               = Orchestrator.mkParsed (Some Scenario.dealId) "completed" 85)
    by (vm_compute; reflexivity).
  assert (Ht : startsWith "test-deal-" Scenario.dealId = false) by (vm_compute; reflexivity).
  assert (Hd : deal_by_id (Scenario.posted 24) Scenario.dealId
               = Some (Deals.post_update Scenario.T0 "https://www.tiktok.com/@creator/video/1"
                         (Deal.mk Scenario.dealId Scenario.advertiser (Some Scenario.creator)
                            "tiktok" 50 (Scenario.T0 + 72 * Scenario.hour)
                            PendingVerification None None None None None None None
                            (Some (Scenario.T0 - Scenario.hour)))))
    by (vm_compute; reflexivity).
  destruct (callback_closes_earliest_schedule Scenario.env (Scenario.T0 + Scenario.hour)
              _ _ _ _ _ _ Hnd Hp Ht Hd) as [_ H].
  destruct H as (s & before & after & H1 & H2 & _ & _ & H5 & _).
  { vm_compute. discriminate. }
  exists s, before, after. split; [exact H1|]. split; [exact H2|]. exact H5.
Defined.

(** X7 (status decision).  Every verdict is Verifying or Failed; a Failed
    verdict carries a failure reason and asks for no review, and a review is
    asked for only with Verifying.  For a completed verification a higher
    score never turns a verdict that is not Failed into Failed, and without
    failed requirements a score of 60 or more is never Failed. *)
Theorem verdict_shape_and_monotonicity
        (requestBody : RequestBody.t) (verificationStatus : string) (s s' : number) :
  let v := Orchestrator.decide requestBody verificationStatus s in
  (Orchestrator.finalStatus v = Verifying \/ Orchestrator.finalStatus v = Failed)
  /\ (Orchestrator.finalStatus v = Failed ->
      Orchestrator.shouldCreateHITLReview v = false
      /\ exists reason, Orchestrator.failureReason v = Some reason)
  /\ (Orchestrator.shouldCreateHITLReview v = true -> Orchestrator.finalStatus v = Verifying)
  /\ ((s <= s')%Q ->
      Orchestrator.finalStatus (Orchestrator.decide requestBody "completed" s) <> Failed ->
      Orchestrator.finalStatus (Orchestrator.decide requestBody "completed" s') <> Failed)
  /\ (array_or (Orchestrator.requirements_failed_of requestBody) [] = [] ->
      (60 <= s)%Q ->
      Orchestrator.finalStatus (Orchestrator.decide requestBody "completed" s) = Verifying).
Proof.
  cbv zeta.
  pose proof (decide_status requestBody verificationStatus s) as D. cbv zeta in D.
  split; [tauto|].
  split.
  { intros F. destruct D as [[V _]|[[V _]|(_ & R & E)]]; try congruence. auto. }
  split.
  { intros R. destruct D as [[V _]|[[V _]|(_ & R' & _)]]; congruence. }
  assert (Hcomp : forall x,
            Orchestrator.finalStatus (Orchestrator.decide requestBody "completed" x) = Failed
            <-> (array_or (Orchestrator.requirements_failed_of requestBody) [] <> []
                 \/ ((x < 60)%Q
                     /\ (70 <= number_or (Orchestrator.overall_confidence_of requestBody) x)%Q))).
  { intros x. unfold Orchestrator.decide. cbn [String.eqb Ascii.eqb Bool.eqb]. cbv zeta.
    destruct (array_or (Orchestrator.requirements_failed_of requestBody) [])
      as [|r rest] eqn:Er.
    - cbn [List.length Nat.ltb Nat.leb].
      destruct (ge x 80) eqn:E80.
      + cbn. split; [discriminate|].
        intros [C|[C _]]; [congruence|].
        unfold ge in E80. apply Qle_bool_iff in E80. lra.
      + destruct (ge x 60) eqn:E60; cbn [orb].
        * cbn. split; [discriminate|].
          intros [C|[C _]]; [congruence|].
          unfold ge in E60. apply Qle_bool_iff in E60. lra.
        * apply ge_false_inv in E60.
          destruct (lt (number_or (Orchestrator.overall_confidence_of requestBody) x) 70)
            eqn:E70.
          -- cbn. split; [discriminate|].
             intros [C|[_ C]]; [congruence|].
             unfold lt in E70. apply negb_true_iff in E70.
             apply Qle_bool_iff in C. congruence.
          -- cbn. split; [|reflexivity]. intros _. right.
             split; [exact E60 | apply lt_false_inv; exact E70].
    - cbn. split; [|reflexivity]. intros _. left. discriminate. }
  split.
  - intros Hle Hs Hs'. apply Hs. apply Hcomp. apply Hcomp in Hs'.
    destruct Hs' as [R|[L C]]; [left; exact R|right].
    split; [lra|].
    unfold number_or in *.
    destruct (Orchestrator.overall_confidence_of requestBody) as [c|]; [|lra].
    destruct (truthy_number c); [exact C | lra].
  - intros Hr H60.
    pose proof (decide_status requestBody "completed" s) as D2. cbv zeta in D2.
    destruct D2 as [[V _]|[[V _]|(F2 & _)]]; try exact V.
    apply Hcomp in F2. destruct F2 as [C|[C _]]; [congruence | lra].
Qed.

Lemma verdict_shape_and_monotonicity_witness :
  Orchestrator.finalStatus
    (Orchestrator.decide (Scenario.completed_body 70 (Some 90%Q) []) "completed" 70)
  = Verifying.
Proof.
  apply (verdict_shape_and_monotonicity (Scenario.completed_body 70 (Some 90%Q) [])
           "completed" 70 70).
  - reflexivity.
  - vm_compute. discriminate.
Defined.

(** X8 (callback, current format).  In the current format every status other
    than completed is read as failed, error included: for a stored deal the
    callback then sets the deal to Failed with the score, as a template
    literal prints it, in the failure reason and opens no review, and the
    advertiser of a deal paid through Solana is refunded at once; an error
    in the legacy format keeps the deal in Verifying under review. *)
Theorem current_format_error_fails_deal
        (env : Env) (now : Z) (requestBody : RequestBody.t) (w : World)
        (dealId : string) (deal : Deal.t) :
  Orchestrator.new_format_deal_id requestBody = Some dealId ->
  RequestBody.status requestBody <> Some "completed" ->
  startsWith "test-deal-" dealId = false ->
  deal_by_id w dealId = Some deal ->
  let score := number_or (Orchestrator.analysis_overall_score requestBody) 0 in
  let reason := ("Verification failed - Score: " ++ number_to_string score ++ "/100")%string in
  Orchestrator.parse requestBody = Orchestrator.mkParsed (Some dealId) "failed" score
  /\ exists w' d' tail,
      Orchestrator.callback env now (Some Orchestrator.expectedAuth) (Some requestBody) w
      = (w', json (callback_body Failed score) 200)
      /\ deal_by_id w' dealId = Some d'
      /\ Deal.status d' = Failed
      /\ Deal.failure_reason d' = Some (reason ++ tail)%string
      /\ Deal.verification_score d' = Some score
      /\ reviews w' = reviews w
      /\ (forall e wallet l,
            escrow_event_of w dealId "Created" = Some e ->
            EscrowEvent.payment_method e = Some "solana" ->
            Solana.wallet_of w (Some (Deal.advertiser_id deal)) = Some wallet ->
            lamports_of (Deal.amount_usdc deal) = Finite (inject_Z l) ->
            0 <= l -> l + Solana.RESERVE <= platform_balance w < 2 ^ 53 ->
            tail = ""%string
            /\ refunds w'
               = (refunds w ++ [Refund.mk dealId (Some (Deal.amount_usdc deal))
                                          "verification_failed" "completed" None])%list
            /\ transfers w' = (transfers w ++ [Transfer.mk wallet l])%list).
Proof.
  intros Hid Hst Ht Hd score reason.
  assert (Hp : Orchestrator.parse requestBody
               = Orchestrator.mkParsed (Some dealId) "failed" score).
  { unfold Orchestrator.parse. rewrite Hid.
    destruct (RequestBody.status requestBody) as [st|]; [|reflexivity].
    destruct (String.eqb st "completed") eqn:E; [|reflexivity].
    apply String.eqb_eq in E. subst st. exfalso. apply Hst. reflexivity. }
  split; [exact Hp|].
  assert (Hv : Orchestrator.decide requestBody "failed" score
               = Orchestrator.mkVerdict Failed (Some reason) false) by reflexivity.
  rewrite (callback_accepted env now requestBody w dealId "failed" score deal Hp Ht Hd).
  rewrite Hv. cbn [Orchestrator.finalStatus].
  pose proof (callback_writes_verdict env now requestBody w dealId "failed" score deal Hd)
    as W. cbv zeta in W. rewrite Hv in W.
  destruct W as (d' & W1 & W2 & W3 & _ & _ & W6).
  destruct (W6 eq_refl) as (tail & W7).
  exists (callback_world env now requestBody dealId "failed" score deal w), d', tail.
  split; [reflexivity|].
  split; [exact W1|].
  split; [exact W2|].
  split; [exact W7|].
  split; [exact W3|].
  split; [apply callback_world_failed_reviews; rewrite Hv; reflexivity|].
  intros e wallet l He Hm Hw Hl H0 Hb.
  destruct (callback_world_failed_refund env now requestBody w dealId "failed" score
              deal e wallet l Hd ltac:(now rewrite Hv) He Hm Hw Hl H0 Hb)
    as (R1 & R2 & _ & R4).
  rewrite Hv in R4. cbn [Orchestrator.failureReason] in R4.
  rewrite W1 in R4. cbn [option_map] in R4.
  change (Deal.failure_reason d' = Some (reason ++ tail)%string) in W7.
  rewrite W7 in R4.
  split; [|split; assumption].
  assert (E : (reason ++ tail)%string = (reason ++ "")%string)
    by (rewrite append_empty_r; congruence).
  clear -E. revert E. generalize reason. clear reason.
  induction reason as [|c rest IH]; cbn; intro E; [exact E|].
  injection E as E. apply IH. exact E.
Qed.

Lemma current_format_error_fails_deal_witness :
  exists w' d',
    Orchestrator.callback Scenario.env (Scenario.T0 + Scenario.hour)
      (Some Orchestrator.expectedAuth) (Some Scenario.error_body) (Scenario.posted 24)
    = (w', json (callback_body Failed 0) 200)
    /\ deal_by_id w' Scenario.dealId = Some d'
    /\ Deal.status d' = Failed
    /\ Deal.failure_reason d' = Some "Verification failed - Score: 0/100"
    /\ reviews w' = reviews (Scenario.posted 24)
    /\ transfers w' = [Transfer.mk "AdvertiserWallet" 50000000000].
Proof.
  assert (Hd : deal_by_id (Scenario.posted 24) Scenario.dealId = Some Scenario.posted_deal)
    by (vm_compute; reflexivity).
  destruct (current_format_error_fails_deal Scenario.env (Scenario.T0 + Scenario.hour)
              Scenario.error_body (Scenario.posted 24) Scenario.dealId _ eq_refl
              ltac:(discriminate) eq_refl Hd)
    as (_ & w' & d' & tail & H1 & H2 & H3 & H4 & _ & H6 & H7).
  assert (He : escrow_event_of (Scenario.posted 24) Scenario.dealId "Created"
               = Some Scenario.funding_event) by (vm_compute; reflexivity).
  assert (Hw : Solana.wallet_of (Scenario.posted 24)
                 (Some (Deal.advertiser_id Scenario.posted_deal)) = Some "AdvertiserWallet")
    by (vm_compute; reflexivity).
  assert (Hl : lamports_of (Deal.amount_usdc Scenario.posted_deal)
               = Finite (inject_Z 50000000000)) by (vm_compute; reflexivity).
  assert (Hb : 50000000000 + Solana.RESERVE <= platform_balance (Scenario.posted 24) < 2 ^ 53)
    by (vm_compute; split; [discriminate | reflexivity]).
  destruct (H7 Scenario.funding_event "AdvertiserWallet" 50000000000 He eq_refl Hw Hl
               ltac:(discriminate) Hb) as (T1 & _ & T3).
  exists w', d'. split; [exact H1|]. split; [exact H2|]. split; [exact H3|].
  split; [rewrite H4, T1; reflexivity|].
  split; [exact H6|].
  rewrite T3. reflexivity.
Defined.

(* ------------------------------------------------------------------ *)
(** ** Submit-post: guards and effect *)

Lemma number_rows_ids (dealId : string) (rows : list (CheckType * Z)) (i : nat) :
  map Schedule.id (Deals.number_rows dealId i rows) = seq i (List.length rows).
Proof.
  revert i. induction rows as [|[ty at_] rest IH]; intros i; [reflexivity|].
  cbn. f_equal. apply IH.
Qed.

Lemma number_rows_content (dealId : string) (rows : list (CheckType * Z)) (i : nat) :
  map (fun s => (Schedule.check_type s, Schedule.scheduled_at s))
      (Deals.number_rows dealId i rows) = rows
  /\ Forall (fun s => Schedule.deal_id s = dealId /\ Schedule.status s = pending)
            (Deals.number_rows dealId i rows).
Proof.
  revert i. induction rows as [|[ty at_] rest IH]; intros i; [split; [reflexivity|constructor]|].
  cbn. destruct (IH (S i)) as [H1 H2]. split; [f_equal; exact H1|].
  constructor; [split; reflexivity | exact H2].
Qed.

Lemma fresh_schedule_id_above (rows : list Schedule.t) (s : Schedule.t) :
  In s rows -> (Schedule.id s < fresh_schedule_id rows)%nat.
Proof.
  unfold fresh_schedule_id. induction rows as [|a rest IH]; intros H; [destruct H|].
  cbn. destruct H as [<-|H]; [lia|]. specialize (IH H). lia.
Qed.

Lemma NoDup_append_fresh (ids : list nat) (i n : nat) :
  NoDup ids -> (forall x, In x ids -> (x < i)%nat) -> NoDup (ids ++ seq i n).
Proof.
  intros Hnd Hlt. induction ids as [|a ids IH]; [apply seq_NoDup|].
  cbn. inversion Hnd; subst. constructor.
  - intros Hin. apply in_app_or in Hin. destruct Hin as [Hin|Hin]; [contradiction|].
    apply in_seq in Hin. specialize (Hlt a (or_introl eq_refl)). lia.
  - apply IH; [assumption|]. intros x Hx. apply Hlt. right; exact Hx.
Qed.

(** X9 (submit-post).  The route answers 200 only to the deal's creator, for
    a deal in PendingVerification and a URL that parses; it then moves the
    deal to Verifying with the URL and the time of the post, and appends the
    schedule ladder built from that time to the deal's deadline: rows of
    this deal, all pending, under keys not in use.  No other deal, no other
    schedule and no payment table is written, and every other answer leaves
    the store as it was. *)
Theorem submit_post_starts_verification
        (URL_parses : string -> bool) (env : Env) (now : Z) (user dealId : string)
        (post_url : option string) (w w' : World) (r : Response) :
  unique_schedule_ids w ->
  Deals.submit_post URL_parses env now user dealId post_url w = (w', r) ->
  (code_of r <> 200 -> w' = w)
  /\ (code_of r = 200 ->
      exists deal url rows,
        post_url = Some url /\ URL_parses url = true
        /\ deal_by_id w dealId = Some deal
        /\ Deal.creator_id deal = Some user
        /\ Deal.status deal = PendingVerification
        /\ deal_by_id w' dealId = Some (Deals.post_update now url deal)
        /\ Deal.status (Deals.post_update now url deal) = Verifying
        /\ Deal.posted_at (Deals.post_update now url deal) = Some now
        /\ (forall other, other <> dealId -> deal_rows w' other = deal_rows w other)
        /\ verification_schedules w' = (verification_schedules w ++ rows)%list
        /\ Forall (fun s => Schedule.deal_id s = dealId /\ Schedule.status s = pending) rows
        /\ map (fun s => (Schedule.check_type s, Schedule.scheduled_at s)) rows
           = Deals.ladder now (Deal.deadline_iso deal)
               (Deals.durationHours_of (select_star (Deals.post_update now url deal)))
        /\ unique_schedule_ids w'
        /\ payouts w' = payouts w /\ refunds w' = refunds w
        /\ escrow_events w' = escrow_events w /\ transfers w' = transfers w).
Proof.
  intros Hnd H. unfold Deals.submit_post in H.
  destruct post_url as [url|].
  2:{ inversion H; subst. split; [reflexivity | intros C; discriminate C]. }
  destruct (truthy_string url); cbn [negb] in H.
  2:{ inversion H; subst. split; [reflexivity | intros C; discriminate C]. }
  destruct (URL_parses url) eqn:Eu; cbn [negb] in H.
  2:{ inversion H; subst. split; [reflexivity | intros C; discriminate C]. }
  destruct (deal_by_id w dealId) as [deal|] eqn:Ed.
  2:{ inversion H; subst. split; [reflexivity | intros C; discriminate C]. }
  destruct (match Deal.creator_id deal with
            | Some cid => String.eqb cid user | None => false end) eqn:Ec; cbn [negb] in H.
  2:{ inversion H; subst. split; [reflexivity | intros C; discriminate C]. }
  destruct (DealStatus_eqb (Deal.status deal) PendingVerification) eqn:Es; cbn [negb] in H.
  2:{ inversion H; subst. split; [reflexivity | intros C; discriminate C]. }
  cbv zeta in H.
  set (matches := fun d : Deal.t =>
         String.eqb (Deal.id d) dealId
         && match Deal.creator_id d with
            | Some cid => String.eqb cid user | None => false end
         && DealStatus_eqb (Deal.status d) PendingVerification) in *.
  set (rows := Deals.number_rows dealId _ _) in H.
  assert (Hcreator : Deal.creator_id deal = Some user).
  { destruct (Deal.creator_id deal) as [cid|]; [|discriminate Ec].
    apply String.eqb_eq in Ec. congruence. }
  assert (Hstatus : Deal.status deal = PendingVerification).
  { destruct (Deal.status deal); cbn in Es; congruence. }
  assert (Hrows : filter (fun d => String.eqb (Deal.id d) dealId) (deals w) = [deal]).
  { apply single_some. exact Ed. }
  assert (Hdeal' : filter (fun d => String.eqb (Deal.id d) dealId)
                          (update_where matches (Deals.post_update now url) (deals w))
                   = [Deals.post_update now url deal]).
  { rewrite filter_update_where_sub.
    - rewrite Hrows. reflexivity.
    - intros x Hx Hid.
      assert (Hin : In x (filter (fun d => String.eqb (Deal.id d) dealId) (deals w)))
        by (apply filter_In; split; assumption).
      rewrite Hrows in Hin. destruct Hin as [<-|[]].
      subst matches. cbn beta. rewrite Hid, Ec, Es. reflexivity.
    - intros x Hx. subst matches. cbn beta in Hx.
      apply andb_true_iff in Hx. destruct Hx as [Hx _].
      apply andb_true_iff in Hx. destruct Hx as [Hx _]. exact Hx.
    - intros x. reflexivity. }
  assert (Hother : forall other, other <> dealId ->
            filter (fun d => String.eqb (Deal.id d) other)
                   (update_where matches (Deals.post_update now url) (deals w))
            = filter (fun d => String.eqb (Deal.id d) other) (deals w)).
  { intros other Ho. apply filter_update_where_other.
    intros x Hx. subst matches. cbn beta in Hx.
    apply andb_true_iff in Hx. destruct Hx as [Hx _].
    apply andb_true_iff in Hx. destruct Hx as [Hx _].
    apply String.eqb_eq in Hx.
    assert (E : String.eqb (Deal.id x) other = false)
      by (apply String.eqb_neq; congruence).
    split; [exact E | exact E]. }
  destruct (number_rows_content dealId
              (Deals.ladder now
                 (Deal.deadline_iso (DealRow.columns (select_star (Deals.post_update now url deal))))
                 (Deals.durationHours_of (select_star (Deals.post_update now url deal))))
              (fresh_schedule_id (verification_schedules w))) as [Hc1 Hc2].
  assert (Hunique : NoDup (map Schedule.id (verification_schedules w ++ rows))).
  { rewrite map_app. subst rows. cbn [verification_schedules set_deals].
    rewrite number_rows_ids. apply NoDup_append_fresh; [exact Hnd|].
    intros x Hx. apply in_map_iff in Hx. destruct Hx as (s & <- & Hs).
    apply fresh_schedule_id_above. exact Hs. }
  destruct (HITL_ENABLED env && negb (ORCHESTRATOR_ENABLED env));
    inversion H; subst w' r; clear H;
    (split; [intros C; exfalso; apply C; reflexivity | intros _]);
    exists deal, url, rows;
    (split; [reflexivity|]); (split; [exact Eu|]); (split; [reflexivity|]);
    (split; [exact Hcreator|]); (split; [exact Hstatus|]);
    (split; [unfold deal_by_id; cbn [deals set_deals set_verification_schedules set_reviews];
             rewrite Hdeal'; reflexivity|]);
    (split; [reflexivity|]); (split; [reflexivity|]);
    (split; [intros other Ho; unfold deal_rows;
             cbn [deals set_deals set_verification_schedules set_reviews];
             apply Hother; exact Ho|]);
    (split; [reflexivity|]);
    (split; [exact Hc2|]); (split; [exact Hc1|]);
    (split; [exact Hunique|]); repeat split.
Qed.

Lemma submit_post_starts_verification_witness :
  exists deal rows,
    deal_by_id (Scenario.posted 24) Scenario.dealId
    = Some (Deals.post_update Scenario.T0 "https://www.tiktok.com/@creator/video/1" deal)
    /\ verification_schedules (Scenario.posted 24)
       = (verification_schedules (Scenario.funded 24) ++ rows)%list
    /\ List.length rows = 19%nat.
Proof.
  assert (Hnd : unique_schedule_ids (Scenario.funded 24)) by (vm_compute; constructor).
  destruct (submit_post_starts_verification (fun _ => true) Scenario.env Scenario.T0
              Scenario.creator Scenario.dealId
              (Some "https://www.tiktok.com/@creator/video/1")
              (Scenario.funded 24) (Scenario.posted 24) (json success_body 200) Hnd)
    as [_ H].
  { vm_compute. reflexivity. }
  destruct (H eq_refl)
    as (deal & url & rows & Hu & _ & _ & _ & _ & Hd & _ & _ & _ & Hs & _ & Hl & _).
  injection Hu as <-.
  exists deal, rows. split; [exact Hd|]. split; [exact Hs|].
  rewrite <- (length_map (fun s => (Schedule.check_type s, Schedule.scheduled_at s))).
  rewrite Hl.
  assert (Hdeadline : Deal.deadline_iso deal = Scenario.T0 + 72 * Scenario.hour).
  { assert (E : option_map Deal.deadline_iso (deal_by_id (Scenario.posted 24) Scenario.dealId)
                = Some (Scenario.T0 + 72 * Scenario.hour)) by (vm_compute; reflexivity).
    rewrite Hd in E. cbn in E. injection E as E. exact E. }
  rewrite Hdeadline. vm_compute. reflexivity.
Defined.

(* ------------------------------------------------------------------ *)
(** ** The completion sweep: the failure branch and the diagnostics *)







Lemma processPayoutInternal_proof_specs (w : World) (dealId : string) :
  proof_specs (fst (Solana.processPayoutInternal w dealId)) = proof_specs w.
Proof.
  unfold Solana.processPayoutInternal.
  destruct (deal_by_id w dealId); [|reflexivity].
  destruct (negb _); [reflexivity|].
  destruct (Solana.wallet_of _ _); [|reflexivity].
  destruct (less _ _); [reflexivity|]. destruct (Solana.u64 _); reflexivity.
Qed.

Lemma processCreatorPayout_proof_specs (w : World) (dealId : string) :
  proof_specs (fst (Worker.processCreatorPayout w dealId)) = proof_specs w.
Proof.
  unfold Worker.processCreatorPayout.
  destruct (deal_by_id w dealId); [|reflexivity].
  cbv zeta. destruct (String.eqb _ "solana").
  - destruct (Worker.truthy_opt _); [|reflexivity].
    pose proof (processPayoutInternal_proof_specs w dealId) as H.
    destruct (Solana.processPayoutInternal w dealId) as [w' [sg|m]]; exact H.
  - destruct (Worker.truthy_opt _); reflexivity.
Qed.

Lemma processRefund_proof_specs (w : World) (dealId reason : string) :
  proof_specs (fst (Worker.processRefund w dealId reason)) = proof_specs w.
Proof.
  unfold Worker.processRefund.
  destruct (escrow_event_of w dealId "FundEscrow"); [|reflexivity].
  cbv zeta. destruct (match single _ with Some _ => _ | None => _ end); [reflexivity|].
  destruct (String.eqb _ "solana"); [|reflexivity].
  unfold Solana.refund_escrow. cbn [negb].
  destruct (negb (truthy_string dealId) || negb (truthy_string reason)); [reflexivity|].
  pose proof (processRefundInternal_keeps w dealId reason) as K. cbv zeta in K.
  destruct (Solana.processRefundInternal w dealId reason) as [w' [sg|m]];
    cbn [fst] in *; destruct K as (_ & _ & _ & K & _); exact K.
Qed.

(** What one pass of the sweep does to [deals] and [proof_specs]. *)
Lemma completion_step_deals (now : Z) (acc : World * Worker.Diagnostics) (row : DealRow.t) :
  let acc' := Worker.completion_step now acc row in
  proof_specs (fst acc') = proof_specs (fst acc)
  /\ ((now < Worker.completionTime row /\ fst acc' = fst acc)
      \/ (Worker.completionTime row <= now
          /\ exists g, (forall x, Deal.id (g x) = Deal.id x
                                  /\ Worker.is_candidate (g x) = false)
                       /\ deals (fst acc')
                          = update_where
                              (fun x => String.eqb (Deal.id x) (Deal.id (DealRow.columns row)))
                              g (deals (fst acc)))).
Proof.
  cbv zeta. destruct acc as [w dg]. unfold Worker.completion_step.
  destruct (Worker.completionTime row <=? now) eqn:Edue.
  - apply Z.leb_le in Edue.
    destruct (Worker.hasVerificationSuccess (DealRow.columns row)).
    + set (w1 := set_deals w _). set (w2 := set_verification_schedules w1 _).
      pose proof (processCreatorPayout_effect w2 (Deal.id (DealRow.columns row)))
        as (Hd & _ & _).
      pose proof (processCreatorPayout_proof_specs w2 (Deal.id (DealRow.columns row))) as Hp.
      destruct (Worker.processCreatorPayout w2 _) as [w3 r]. cbn [fst] in *.
      split; [rewrite Hp; reflexivity|]. right. split; [exact Edue|].
      exists (Worker.complete_update now). split; [intros x; split; reflexivity|].
      rewrite Hd. reflexivity.
    + set (w1 := set_deals w _). set (w2 := set_verification_schedules w1 _).
      pose proof (processRefund_effect w2 (Deal.id (DealRow.columns row))
                    "verification_failed") as (Hd & _ & _).
      pose proof (processRefund_proof_specs w2 (Deal.id (DealRow.columns row))
                    "verification_failed") as Hp.
      destruct (Worker.processRefund w2 _ _) as [w3 r]. cbn [fst] in *.
      split; [rewrite Hp; reflexivity|]. right. split; [exact Edue|].
      eexists (Worker.fail_update now _). split; [intros x; split; reflexivity|].
      rewrite Hd. reflexivity.
  - apply Z.leb_gt in Edue. cbn [fst]. split; [reflexivity|]. left. split; [exact Edue|reflexivity].
Qed.

Lemma settled_stays (now : Z) (rid : string) (rows : list DealRow.t)
      (acc : World * Worker.Diagnostics) :
  Forall (fun y => Deal.id y = rid -> Worker.is_candidate y = false) (deals (fst acc)) ->
  Forall (fun y => Deal.id y = rid -> Worker.is_candidate y = false)
         (deals (fst (fold_left (Worker.completion_step now) rows acc))).
Proof.
  revert acc. induction rows as [|r rows IHr]; intros acc Hnow; cbn [fold_left]; [exact Hnow|].
  apply IHr.
  pose proof (completion_step_deals now acc r) as S2. cbv zeta in S2.
  destruct S2 as (_ & [[_ E]|(_ & g & Hg & E)]); [rewrite E; exact Hnow|].
  rewrite E. unfold update_where. apply Forall_forall. intros y Hy.
  apply in_map_iff in Hy. destruct Hy as (x & <- & Hx).
  destruct (String.eqb (Deal.id x) (Deal.id (DealRow.columns r))).
  + intros _. apply Hg.
  + rewrite Forall_forall in Hnow. apply Hnow. exact Hx.
Qed.

Lemma sweep_invariant (now : Z) (w : World) (rows : list DealRow.t)
      (acc : World * Worker.Diagnostics) :
  proof_specs (fst acc) = proof_specs w ->
  Forall2 (fun x y => y = x \/ Worker.is_candidate y = false) (deals w) (deals (fst acc)) ->
  let acc' := fold_left (Worker.completion_step now) rows acc in
  proof_specs (fst acc') = proof_specs w
  /\ Forall2 (fun x y => y = x \/ Worker.is_candidate y = false) (deals w) (deals (fst acc'))
  /\ forall row, In row rows -> Worker.completionTime row <= now ->
       Forall (fun y => Deal.id y = Deal.id (DealRow.columns row) ->
                        Worker.is_candidate y = false) (deals (fst acc')).
Proof.
  revert acc. induction rows as [|row rows IH]; intros acc Hp Hd; cbn [fold_left].
  - split; [exact Hp|]. split; [exact Hd|]. intros row [].
  - pose proof (completion_step_deals now acc row) as S1. cbv zeta in S1.
    destruct S1 as (Sp & Sd).
    set (acc1 := Worker.completion_step now acc row) in *.
    assert (Hd1 : Forall2 (fun x y => y = x \/ Worker.is_candidate y = false)
                          (deals w) (deals (fst acc1))).
    { destruct Sd as [[_ E]|(_ & g & Hg & E)]; [rewrite E; exact Hd|].
      rewrite E. apply Forall2_update_where; [|exact Hd].
      intros a b _. right. apply Hg. }
    destruct (IH acc1 (eq_trans Sp Hp) Hd1) as (I1 & I2 & I3).
    split; [exact I1|]. split; [exact I2|].
    intros r [<-|Hin] Hdue; [|apply I3; assumption].
    (* the row processed first: settled by its own pass, kept so by the others *)
    assert (Hnow : Forall (fun y => Deal.id y = Deal.id (DealRow.columns row) ->
                                    Worker.is_candidate y = false) (deals (fst acc1))).
    { destruct Sd as [[Hlt _]|(_ & g & Hg & E)]; [lia|].
      rewrite E. unfold update_where. apply Forall_forall. intros y Hy.
      apply in_map_iff in Hy. destruct Hy as (x & <- & _).
      destruct (String.eqb (Deal.id x) (Deal.id (DealRow.columns row))) eqn:Ex.
      - intros _. apply Hg.
      - intros C. apply String.eqb_neq in Ex. contradiction. }
    apply settled_stays. exact Hnow.
Qed.

Lemma sweep_nothing_due (now : Z) (rows : list DealRow.t) (acc : World * Worker.Diagnostics) :
  Forall (fun row => now < Worker.completionTime row) rows ->
  fst (fold_left (Worker.completion_step now) rows acc) = fst acc.
Proof.
  revert acc. induction rows as [|row rows IH]; intros acc H; [reflexivity|].
  inversion H as [|? ? Hrow Hrest]; subst. cbn [fold_left].
  rewrite IH by exact Hrest.
  destruct acc as [w dg]. unfold Worker.completion_step.
  apply Z.leb_gt in Hrow. rewrite Hrow. reflexivity.
Qed.

(** X12 (sweep, idempotence).  A second sweep at the same instant writes
    nothing: every deal the first sweep found due has left Verifying, so
    the second finds only deals that are not due yet; the sweep by itself
    pays or fails a deal once. *)
Theorem sweep_is_idempotent (now : Z) (w : World) :
  let w1 := fst (Worker.processVerificationCompletion now w) in
  fst (Worker.processVerificationCompletion now w1) = w1
  /\ Worker.diag_completed (snd (Worker.processVerificationCompletion now w1)) = []
  /\ Worker.diag_failed (snd (Worker.processVerificationCompletion now w1)) = [].
Proof.
  cbv zeta.
  set (w1 := fst (Worker.processVerificationCompletion now w)).
  destruct (sweep_invariant now w (Worker.completionCandidates w)
              (w, Worker.mkDiagnostics (List.length (Worker.completionCandidates w)) [] [] []))
    as (Hp & Hd & Hdue).
  { reflexivity. }
  { apply Forall2_refl. intros a. left. reflexivity. }
  change (fold_left (Worker.completion_step now) (Worker.completionCandidates w)
            (w, Worker.mkDiagnostics (List.length (Worker.completionCandidates w)) [] [] []))
    with (Worker.processVerificationCompletion now w) in Hp, Hd, Hdue.
  fold w1 in Hp, Hd, Hdue.
  assert (Hnot : Forall (fun row => now < Worker.completionTime row)
                        (Worker.completionCandidates w1)).
  { unfold Worker.completionCandidates. apply Forall_forall. intros row Hrow.
    apply in_map_iff in Hrow. destruct Hrow as (y & <- & Hy).
    apply filter_In in Hy. destruct Hy as [Hy Hc].
    assert (Hx : In y (deals w)).
    { clear -Hd Hy Hc. induction Hd as [|a b l l' Hab Hd IH]; [destruct Hy|].
      destruct Hy as [<-|Hy]; [|right; apply IH; exact Hy].
      destruct Hab as [->|C]; [left; reflexivity | congruence]. }
    assert (Hsel : select_with_proof_specs w1 y = select_with_proof_specs w y)
      by (unfold select_with_proof_specs; rewrite Hp; reflexivity).
    rewrite Hsel.
    destruct (Z.lt_ge_cases now (Worker.completionTime (select_with_proof_specs w y)))
      as [Hlt|Hge]; [exact Hlt|].
    exfalso.
    assert (Hin : In (select_with_proof_specs w y) (Worker.completionCandidates w)).
    { unfold Worker.completionCandidates. apply in_map. apply filter_In. split; assumption. }
    specialize (Hdue _ Hin Hge). rewrite Forall_forall in Hdue.
    specialize (Hdue y Hy eq_refl). congruence. }
  unfold Worker.processVerificationCompletion at 1 2 3.
  set (init := (w1, Worker.mkDiagnostics (List.length (Worker.completionCandidates w1)) [] [] [])).
  split; [apply (sweep_nothing_due now _ init Hnot)|].
  assert (G : forall rows acc,
            Forall (fun row => now < Worker.completionTime row) rows ->
            Worker.diag_completed (snd (fold_left (Worker.completion_step now) rows acc))
            = Worker.diag_completed (snd acc)
            /\ Worker.diag_failed (snd (fold_left (Worker.completion_step now) rows acc))
               = Worker.diag_failed (snd acc)).
  { induction rows as [|row rows IH]; intros acc H; [split; reflexivity|].
    inversion H as [|? ? Hrow Hrest]; subst. cbn [fold_left].
    destruct (IH (Worker.completion_step now acc row) Hrest) as [E1 E2].
    rewrite E1, E2. destruct acc as [w0 dg]. unfold Worker.completion_step.
    apply Z.leb_gt in Hrow. rewrite Hrow. split; reflexivity. }
  apply (G _ init Hnot).
Qed.

(* ------------------------------------------------------------------ *)
(** ** The scheduled handler *)

Section DispatchProperties.

Variable URL_parses : string -> bool.
Variable orchestrator_accepts : string -> string -> bool.

Lemma update_where_twice {A} (p : A -> bool) (f g : A -> A) (l : list A) :
  (forall x, p (f x) = p x) ->
  update_where p g (update_where p f l) = update_where p (fun x => g (f x)) l.
Proof.
  intros Hp. unfold update_where. rewrite map_map. apply map_ext. intros x.
  destruct (p x) eqn:E; [rewrite Hp, E; reflexivity | rewrite E; reflexivity].
Qed.

Lemma dispatch_step_eq (env : Env) (now : Z) (w : World) (calls : list (nat * string))
      (row : Schedule.t * Deal.t) :
  Scheduler.dispatch_step URL_parses orchestrator_accepts env now (w, calls) row
  = (Scheduler.mark (Schedule.id (fst row)) (Scheduler.outcome URL_parses orchestrator_accepts env now row) w,
     (calls ++ (if Scheduler.attempted URL_parses now row
                then [(Schedule.id (fst row), Deal.id (snd row))] else []))%list).
Proof.
  destruct row as [s d].
  unfold Scheduler.dispatch_step, Scheduler.outcome, Scheduler.attempted.
  cbn [fst snd].
  destruct (Deal.deadline_iso d <? now); cbn [negb andb].
  { rewrite app_nil_r. reflexivity. }
  destruct (match Deal.post_url d with
            | Some u => truthy_string u && negb (Scheduler.blank u) && URL_parses u
            | None => false
            end); cbn [negb].
  2:{ rewrite app_nil_r. reflexivity. }
  destruct (Scheduler.triggerOrchestratorVerification orchestrator_accepts env d _);
    (f_equal; unfold Scheduler.mark;
     cbn [verification_schedules set_verification_schedules];
     rewrite update_where_twice by (intros x; reflexivity);
     destruct w; reflexivity).
Qed.

Lemma outcome_id (env : Env) (now : Z) (row : Schedule.t * Deal.t) (s : Schedule.t) :
  Schedule.id (Scheduler.outcome URL_parses orchestrator_accepts env now row s) = Schedule.id s
  /\ Schedule.deal_id (Scheduler.outcome URL_parses orchestrator_accepts env now row s) = Schedule.deal_id s
  /\ Schedule.status (Scheduler.outcome URL_parses orchestrator_accepts env now row s) <> pending.
Proof.
  unfold Scheduler.outcome. cbv zeta.
  destruct (_ <? _); [repeat split; discriminate|].
  destruct (negb _); [repeat split; discriminate|].
  destruct (Scheduler.triggerOrchestratorVerification _ _ _ _); repeat split; discriminate.
Qed.

(** The loop as a map over the table: a row is rewritten by the pass of the
    due row that carries its key, and no other table is written. *)
Lemma dispatch_fold (env : Env) (now : Z) (due : list (Schedule.t * Deal.t))
      (acc : World * list (nat * string)) :
  NoDup (map (fun r => Schedule.id (fst r)) due) ->
  let acc' := fold_left (Scheduler.dispatch_step URL_parses orchestrator_accepts env now)
                        due acc in
  fst acc'
  = set_verification_schedules (fst acc)
      (map (fun s =>
              match find (fun r => Nat.eqb (Schedule.id (fst r)) (Schedule.id s)) due with
              | Some r => Scheduler.outcome URL_parses orchestrator_accepts env now r s
              | None => s
              end) (verification_schedules (fst acc)))
  /\ snd acc'
     = (snd acc ++ map (fun r => (Schedule.id (fst r), Deal.id (snd r)))
                       (filter (Scheduler.attempted URL_parses now) due))%list.
Proof.
  revert acc. induction due as [|row due IH]; intros [w calls] Hnd; cbn [fold_left].
  - cbn [fst snd find filter map]. rewrite map_id, app_nil_r.
    split; [destruct w; reflexivity | reflexivity].
  - rewrite dispatch_step_eq. cbn [map] in Hnd. inversion Hnd as [|? ? Hnot Hnd']; subst.
    destruct (IH (Scheduler.mark (Schedule.id (fst row))
                    (Scheduler.outcome URL_parses orchestrator_accepts env now row) w,
                  (calls ++ (if Scheduler.attempted URL_parses now row
                             then [(Schedule.id (fst row), Deal.id (snd row))] else []))%list)
                 Hnd') as (I1 & I11).
    cbn [fst snd] in *.
    split.
    + rewrite I1. unfold Scheduler.mark.
      cbn [verification_schedules set_verification_schedules].
      unfold set_verification_schedules at 1 2 3.
      cbn [deals proof_specs escrow_events payouts refunds reviews identities test_results
           platform_balance transfers stripe_refunds].
      f_equal.
      unfold update_where. rewrite map_map. apply map_ext. intros s.
      cbn [find]. rewrite (Nat.eqb_sym (Schedule.id (fst row)) (Schedule.id s)).
      destruct (Nat.eqb (Schedule.id s) (Schedule.id (fst row))) eqn:E; [|reflexivity].
      destruct (outcome_id env now row s) as (Hid & _). rewrite Hid.
      destruct (find _ due) as [r|] eqn:F; [|reflexivity].
      exfalso. apply find_some in F. destruct F as [Hin Hr].
      apply Nat.eqb_eq in Hr. apply Nat.eqb_eq in E.
      apply Hnot. apply in_map_iff. exists r. split; [congruence | exact Hin].
    + rewrite I11, <- app_assoc. f_equal. cbn [filter].
      destruct (Scheduler.attempted URL_parses now row); reflexivity.
Qed.

Lemma select_due_spec (now : Z) (w : World) (rows : list Schedule.t)
      (s : Schedule.t) (d : Deal.t) :
  In (s, d) (Scheduler.select_due now w rows) ->
  In s rows
  /\ Schedule.status s = pending
  /\ Schedule.scheduled_at s <= now + 5 * 60 * 1000
  /\ deal_by_id w (Schedule.deal_id s) = Some d
  /\ Deal.status d = Verifying
  /\ Deal.post_url d <> None.
Proof.
  induction rows as [|a rows IH]; cbn [Scheduler.select_due]; [intros []|].
  destruct (Scheduler.due now w a) as [r|] eqn:E.
  - intros [->|Hin]; [|destruct (IH Hin) as (H1 & H2); split; [right; exact H1 | exact H2]].
    unfold Scheduler.due in E.
    destruct (ScheduleStatus_eqb (Schedule.status a) pending
              && (Schedule.scheduled_at a <=? now + 5 * 60 * 1000)) eqn:E1; [|discriminate E].
    destruct (deal_by_id w (Schedule.deal_id a)) as [d0|] eqn:E2; [|discriminate E].
    destruct (DealStatus_eqb (Deal.status d0) Verifying
              && match Deal.post_url d0 with Some _ => true | None => false end) eqn:E3;
      [|discriminate E].
    injection E as <- <-.
    apply andb_true_iff in E1. destruct E1 as [E1 E1'].
    apply andb_true_iff in E3. destruct E3 as [E3 E3'].
    split; [left; reflexivity|].
    split; [destruct (Schedule.status a); cbn in E1; congruence|].
    split; [apply Z.leb_le; exact E1'|].
    split; [exact E2|].
    split; [destruct (Deal.status d0); cbn in E3; congruence|].
    destruct (Deal.post_url d0); [discriminate | discriminate E3'].
  - intros Hin. destruct (IH Hin) as (H1 & H2). split; [right; exact H1 | exact H2].
Qed.

Lemma select_due_ids (now : Z) (w : World) (rows : list Schedule.t) :
  NoDup (map Schedule.id rows) ->
  NoDup (map (fun r => Schedule.id (fst r)) (Scheduler.select_due now w rows)).
Proof.
  induction rows as [|a rows IH]; cbn [Scheduler.select_due map]; intros Hnd; [constructor|].
  inversion Hnd as [|? ? Hnot Hnd']; subst.
  destruct (Scheduler.due now w a) as [r|] eqn:E; [|apply IH; exact Hnd'].
  assert (Hr : fst r = a).
  { unfold Scheduler.due in E.
    destruct (_ && _); [|discriminate E].
    destruct (deal_by_id _ _); [|discriminate E].
    destruct (_ && _); [|discriminate E]. injection E as <-. reflexivity. }
  cbn [map]. rewrite Hr. constructor; [|apply IH; exact Hnd'].
  intros Hin. apply Hnot. apply in_map_iff in Hin. destruct Hin as ([s d] & Hid & Hin).
  apply select_due_spec in Hin. destruct Hin as (Hin & _).
  cbn [fst] in Hid. apply in_map_iff. exists s. split; assumption.
Qed.

Lemma NoDup_firstn {A} (n : nat) (l : list A) : NoDup l -> NoDup (firstn n l).
Proof.
  intros H. rewrite <- (firstn_skipn n l) in H. apply NoDup_app_remove_r in H. exact H.
Qed.

Lemma dueSchedules_ids (now : Z) (w : World) :
  unique_schedule_ids w ->
  NoDup (map (fun r => Schedule.id (fst r)) (Scheduler.dueSchedules now w)).
Proof.
  intros Hu. unfold Scheduler.dueSchedules. rewrite <- firstn_map.
  apply NoDup_firstn. apply select_due_ids. exact Hu.
Qed.

Lemma find_due_row (due : list (Schedule.t * Deal.t)) (s : Schedule.t) (d : Deal.t) :
  NoDup (map (fun r => Schedule.id (fst r)) due) ->
  In (s, d) due ->
  find (fun r => Nat.eqb (Schedule.id (fst r)) (Schedule.id s)) due = Some (s, d).
Proof.
  induction due as [|r due IH]; intros Hnd Hin; [destruct Hin|].
  cbn [map] in Hnd. inversion Hnd as [|? ? Hnot Hnd']; subst.
  cbn [find]. destruct Hin as [->|Hin].
  - cbn [fst]. rewrite Nat.eqb_refl. reflexivity.
  - destruct (Nat.eqb (Schedule.id (fst r)) (Schedule.id s)) eqn:E; [|apply IH; assumption].
    exfalso. apply Nat.eqb_eq in E. apply Hnot. rewrite E.
    apply (in_map (fun r => Schedule.id (fst r)) due (s, d)). exact Hin.
Qed.

(** X13 (scheduled handler, dispatch).  One run selects at most twenty
    schedules, each pending, due within five minutes, of a deal in
    Verifying with a post URL.  Every selected schedule leaves pending in
    that run: it becomes expired when the deal is past its deadline, failed
    when the URL is invalid or the trigger fails, running with a request id
    when the orchestrator accepts; every other schedule row stays as it
    was.  The trigger is called exactly for the selected schedules within
    their deadline with a valid URL, and the dispatch writes no table but
    the schedules. *)
Theorem dispatch_settles_due_schedules (env : Env) (now : Z) (w : World) :
  unique_schedule_ids w ->
  let due := Scheduler.dueSchedules now w in
  let r := Scheduler.dispatch URL_parses orchestrator_accepts env now w in
  (List.length due <= 20)%nat
  /\ deals (fst r) = deals w /\ payouts (fst r) = payouts w /\ refunds (fst r) = refunds w
  /\ reviews (fst r) = reviews w /\ transfers (fst r) = transfers w
  /\ snd r = map (fun row => (Schedule.id (fst row), Deal.id (snd row)))
                 (filter (Scheduler.attempted URL_parses now) due)
  /\ (forall s d, In (s, d) due ->
        In s (verification_schedules w)
        /\ Schedule.status s = pending
        /\ Schedule.scheduled_at s <= now + 5 * 60 * 1000
        /\ deal_by_id w (Schedule.deal_id s) = Some d
        /\ Deal.status d = Verifying
        /\ In (Scheduler.outcome URL_parses orchestrator_accepts env now (s, d) s)
              (verification_schedules (fst r))
        /\ Schedule.status (Scheduler.outcome URL_parses orchestrator_accepts env now (s, d) s)
           <> pending
        /\ (Deal.deadline_iso d < now ->
            Scheduler.outcome URL_parses orchestrator_accepts env now (s, d) s
            = Scheduler.expire s
            /\ ~ In (Schedule.id s, Deal.id d) (snd r)))
  /\ (forall s, In s (verification_schedules w) ->
                (forall d, ~ In (s, d) due) ->
                In s (verification_schedules (fst r))).
Proof.
  intros Hu due r.
  pose proof (dueSchedules_ids now w Hu) as Hnd. fold due in Hnd.
  destruct (dispatch_fold env now due (w, []) Hnd) as (F0 & F11).
  change (fold_left (Scheduler.dispatch_step URL_parses orchestrator_accepts env now)
                    due (w, [])) with r in *.
  cbn [fst snd app] in *.
  assert (F1 : verification_schedules (fst r)
               = map (fun s =>
                        match find (fun r => Nat.eqb (Schedule.id (fst r)) (Schedule.id s))
                                   due with
                        | Some r => Scheduler.outcome URL_parses orchestrator_accepts
                                                      env now r s
                        | None => s
                        end) (verification_schedules w))
    by (rewrite F0; reflexivity).
  assert (F2 : deals (fst r) = deals w) by (rewrite F0; reflexivity).
  assert (F4 : payouts (fst r) = payouts w) by (rewrite F0; reflexivity).
  assert (F5 : refunds (fst r) = refunds w) by (rewrite F0; reflexivity).
  assert (F7 : reviews (fst r) = reviews w) by (rewrite F0; reflexivity).
  assert (F9 : transfers (fst r) = transfers w) by (rewrite F0; reflexivity).
  clear F0.
  assert (Hsel : forall s d, In (s, d) due ->
            In (s, d) (Scheduler.select_due now w (verification_schedules w))).
  { intros s d Hin. unfold due, Scheduler.dueSchedules in Hin.
    rewrite <- (firstn_skipn 20 (Scheduler.select_due now w (verification_schedules w))).
    apply in_or_app. left. exact Hin. }
  split; [unfold due, Scheduler.dueSchedules; apply firstn_le_length|].
  repeat (split; [assumption|]).
  split.
  - intros s d Hin.
    destruct (select_due_spec now w _ s d (Hsel s d Hin)) as (S1 & S2 & S3 & S4 & S5 & _).
    repeat (split; [assumption|]).
    split.
    { rewrite F1. apply in_map_iff. exists s. split; [|exact S1].
      rewrite (find_due_row due s d Hnd Hin). reflexivity. }
    split; [apply (outcome_id env now (s, d) s)|].
    intros Hpast. apply Z.ltb_lt in Hpast.
    split.
    + unfold Scheduler.outcome. cbn [snd]. rewrite Hpast. reflexivity.
    + rewrite F11. intros C. apply in_map_iff in C. destruct C as ([s0 d0] & E & C).
      apply filter_In in C. destruct C as [C A]. cbn [fst snd] in E.
      injection E as E1 E2.
      assert (Hsame : (s0, d0) = (s, d)).
      { pose proof (find_due_row due s0 d0 Hnd C) as G0.
        pose proof (find_due_row due s d Hnd Hin) as G.
        rewrite E1 in G0. congruence. }
      injection Hsame as -> ->.
      unfold Scheduler.attempted in A. cbn [snd] in A.
      rewrite Hpast in A. discriminate A.
  - intros s Hs Hno. rewrite F1. apply in_map_iff. exists s. split; [|exact Hs].
    destruct (find _ due) as [[s0 d0]|] eqn:F; [|reflexivity].
    exfalso. apply find_some in F. destruct F as [Hin E]. cbn [fst] in E.
    apply Nat.eqb_eq in E.
    destruct (select_due_spec now w _ s0 d0 (Hsel s0 d0 Hin)) as (S1 & _).
    assert (s0 = s).
    { clear -Hu S1 Hs E. unfold unique_schedule_ids in Hu.
      induction (verification_schedules w) as [|a l IH]; [destruct Hs|].
      cbn [map] in Hu. inversion Hu as [|? ? Hnot Hu']; subst.
      destruct S1 as [<-|S1], Hs as [<-|Hs]; try reflexivity.
      - exfalso. apply Hnot. rewrite E. apply in_map. exact Hs.
      - exfalso. apply Hnot. rewrite <- E. apply in_map. exact S1.
      - apply IH; assumption. }
    subst s0. apply (Hno d0). exact Hin.
Qed.

End DispatchProperties.

Lemma dispatch_settles_due_schedules_witness :
  exists s',
    In s' (verification_schedules
             (fst (Scheduler.dispatch (fun _ => true) (fun _ _ => true) Scenario.env
                                      Scenario.T0 (Scenario.posted 24))))
    /\ Schedule.status s' = running
    /\ Schedule.orchestrator_request_id s' = Some "cron-1"
    /\ Schedule.check_type s' = initial.
Proof.
  assert (Hnd : unique_schedule_ids (Scenario.posted 24)).
  { unfold unique_schedule_ids.
    replace (map Schedule.id (verification_schedules (Scenario.posted 24)))
      with (seq 1 19) by (vm_compute; reflexivity).
    apply seq_NoDup. }
  assert (Hdue : Scheduler.dueSchedules Scenario.T0 (Scenario.posted 24)
                 = [Dispatching.first_due]) by (vm_compute; reflexivity).
  destruct (dispatch_settles_due_schedules (fun _ => true) (fun _ _ => true) Scenario.env
              Scenario.T0 (Scenario.posted 24) Hnd) as (_ & _ & _ & _ & _ & _ & _ & H & _).
  destruct (H (fst Dispatching.first_due) (snd Dispatching.first_due))
    as (_ & _ & _ & _ & _ & Hin & _).
  { rewrite Hdue. left. reflexivity. }
  eexists. split; [exact Hin|]. vm_compute. repeat split.
Defined.

(** *** The sweep does not read the schedules *)

Lemma processPayoutInternal_schedules (w : World) (l : list Schedule.t) (dealId : string) :
  Solana.processPayoutInternal (set_verification_schedules w l) dealId
  = (set_verification_schedules (fst (Solana.processPayoutInternal w dealId)) l,
     snd (Solana.processPayoutInternal w dealId)).
Proof.
  unfold Solana.processPayoutInternal.
  change (deal_by_id (set_verification_schedules w l) dealId) with (deal_by_id w dealId).
  destruct (deal_by_id w dealId) as [deal|]; [|reflexivity].
  destruct (negb _); [reflexivity|].
  change (Solana.wallet_of (set_verification_schedules w l) (Deal.creator_id deal))
    with (Solana.wallet_of w (Deal.creator_id deal)).
  destruct (Solana.wallet_of w (Deal.creator_id deal)); [|reflexivity].
  cbn [platform_balance set_verification_schedules].
  destruct (less _ _); [reflexivity|]. destruct (Solana.u64 _); reflexivity.
Qed.

Lemma processRefundInternal_schedules (w : World) (l : list Schedule.t)
      (dealId reason : string) :
  Solana.processRefundInternal (set_verification_schedules w l) dealId reason
  = (set_verification_schedules (fst (Solana.processRefundInternal w dealId reason)) l,
     snd (Solana.processRefundInternal w dealId reason)).
Proof.
  unfold Solana.processRefundInternal.
  change (deal_by_id (set_verification_schedules w l) dealId) with (deal_by_id w dealId).
  destruct (deal_by_id w dealId) as [deal|]; [|reflexivity].
  destruct (_ && _); [reflexivity|].
  change (Solana.wallet_of (set_verification_schedules w l) (Some (Deal.advertiser_id deal)))
    with (Solana.wallet_of w (Some (Deal.advertiser_id deal))).
  destruct (Solana.wallet_of w (Some (Deal.advertiser_id deal))); [|reflexivity].
  cbn [platform_balance set_verification_schedules].
  destruct (less _ _); [reflexivity|]. destruct (Solana.u64 _); reflexivity.
Qed.

Lemma processCreatorPayout_schedules (w : World) (l : list Schedule.t) (dealId : string) :
  Worker.processCreatorPayout (set_verification_schedules w l) dealId
  = (set_verification_schedules (fst (Worker.processCreatorPayout w dealId)) l,
     snd (Worker.processCreatorPayout w dealId)).
Proof.
  unfold Worker.processCreatorPayout.
  change (deal_by_id (set_verification_schedules w l) dealId) with (deal_by_id w dealId).
  destruct (deal_by_id w dealId) as [deal|]; [|reflexivity].
  change (Worker.creator_of (set_verification_schedules w l) deal)
    with (Worker.creator_of w deal).
  change (escrow_event_of (set_verification_schedules w l) dealId "Created")
    with (escrow_event_of w dealId "Created").
  cbv zeta. destruct (String.eqb _ "solana").
  - destruct (Worker.truthy_opt _); [|reflexivity].
    rewrite processPayoutInternal_schedules.
    destruct (Solana.processPayoutInternal w dealId) as [w' [sg|m]]; reflexivity.
  - destruct (Worker.truthy_opt _); reflexivity.
Qed.

Lemma processRefund_schedules (w : World) (l : list Schedule.t) (dealId reason : string) :
  Worker.processRefund (set_verification_schedules w l) dealId reason
  = (set_verification_schedules (fst (Worker.processRefund w dealId reason)) l,
     snd (Worker.processRefund w dealId reason)).
Proof.
  unfold Worker.processRefund.
  change (escrow_event_of (set_verification_schedules w l) dealId "FundEscrow")
    with (escrow_event_of w dealId "FundEscrow").
  destruct (escrow_event_of w dealId "FundEscrow") as [escrow|]; [|reflexivity].
  cbv zeta. cbn [refunds set_verification_schedules].
  destruct (match single _ with Some _ => _ | None => _ end); [reflexivity|].
  destruct (String.eqb _ "solana"); [|reflexivity].
  unfold Solana.refund_escrow. cbn [negb].
  destruct (negb (truthy_string dealId) || negb (truthy_string reason)); [reflexivity|].
  rewrite processRefundInternal_schedules.
  destruct (Solana.processRefundInternal w dealId reason) as [w' [sg|m]]; reflexivity.
Qed.

Lemma completion_step_schedules (now : Z) (w : World) (dg : Worker.Diagnostics)
      (l : list Schedule.t) (row : DealRow.t) :
  exists l',
    Worker.completion_step now (set_verification_schedules w l, dg) row
    = (set_verification_schedules (fst (Worker.completion_step now (w, dg) row)) l',
       snd (Worker.completion_step now (w, dg) row)).
Proof.
  unfold Worker.completion_step.
  destruct (Worker.completionTime row <=? now).
  - destruct (Worker.hasVerificationSuccess (DealRow.columns row)).
    + cbn [deals verification_schedules set_verification_schedules set_deals].
      eexists.
      match goal with
      | |- context [Worker.processCreatorPayout ?x ?i] =>
          change x with (set_verification_schedules
                           (set_verification_schedules
                              (set_deals w (update_where
                                              (fun d => String.eqb (Deal.id d) i)
                                              (Worker.complete_update now) (deals w)))
                              (Worker.close_pending i completed
                                 "Deal completed - duration requirement met"
                                 (verification_schedules w)))
                           (Worker.close_pending i completed
                              "Deal completed - duration requirement met" l))
      end.
      rewrite processCreatorPayout_schedules.
      match goal with
      | |- context [Worker.processCreatorPayout ?x ?i] =>
          destruct (Worker.processCreatorPayout x i) as [w3 r]
      end.
      cbn [fst snd]. reflexivity.
    + cbn [deals verification_schedules set_verification_schedules set_deals].
      eexists.
      match goal with
      | |- context [Worker.processRefund ?x ?i ?rs] =>
          change x with (set_verification_schedules
                           (set_verification_schedules
                              (set_deals w (update_where
                                              (fun d => String.eqb (Deal.id d) i)
                                              (Worker.fail_update now
                                                 ("Duration completed ("
                                                    ++ number_to_string (Worker.durationHours row)
                                                    ++ "h) without successful verification"))
                                              (deals w)))
                              (Worker.close_pending i cancelled
                                 "Deal failed - duration completed without successful verification"
                                 (verification_schedules w)))
                           (Worker.close_pending i cancelled
                              "Deal failed - duration completed without successful verification"
                              l))
      end.
      rewrite processRefund_schedules.
      match goal with
      | |- context [Worker.processRefund ?x ?i ?rs] =>
          destruct (Worker.processRefund x i rs) as [w3 r]
      end.
      cbn [fst snd]. reflexivity.
  - exists l. reflexivity.
Qed.

Lemma sweep_fold_schedules (now : Z) (rows : list DealRow.t) (w : World)
      (dg : Worker.Diagnostics) (l : list Schedule.t) :
  exists l',
    fold_left (Worker.completion_step now) rows (set_verification_schedules w l, dg)
    = (set_verification_schedules
         (fst (fold_left (Worker.completion_step now) rows (w, dg))) l',
       snd (fold_left (Worker.completion_step now) rows (w, dg))).
Proof.
  revert w dg l. induction rows as [|row rows IH]; intros w dg l; cbn [fold_left].
  - exists l. reflexivity.
  - destruct (completion_step_schedules now w dg l row) as (l1 & E). rewrite E.
    destruct (Worker.completion_step now (w, dg) row) as [w1 dg1]. cbn [fst snd].
    apply IH.
Qed.

Lemma dispatch_only_schedules
      (URL_parses : string -> bool) (orchestrator_accepts : string -> string -> bool)
      (env : Env) (now : Z) (due : list (Schedule.t * Deal.t))
      (acc : World * list (nat * string)) :
  exists l,
    fst (fold_left (Scheduler.dispatch_step URL_parses orchestrator_accepts env now) due acc)
    = set_verification_schedules (fst acc) l.
Proof.
  revert acc. induction due as [|row due IH]; intros [w calls]; cbn [fold_left].
  - exists (verification_schedules w). destruct w; reflexivity.
  - rewrite dispatch_step_eq. destruct (IH (Scheduler.mark (Schedule.id (fst row))
                    (Scheduler.outcome URL_parses orchestrator_accepts env now row) w,
                  (calls ++ (if Scheduler.attempted URL_parses now row
                             then [(Schedule.id (fst row), Deal.id (snd row))] else []))%list))
      as (l & E).
    exists l. rewrite E. reflexivity.
Qed.

(** X14 (scheduled handler).  With the orchestrator disabled a run of the
    scheduled handler writes nothing: it neither dispatches a check nor
    runs the completion sweep.  With it enabled the run settles exactly
    what the sweep alone would: the dispatch changes schedule rows only,
    and deals, payouts, refunds, escrow events, transfers and the platform
    balance after the run are those the sweep yields from the store as it
    was. *)
Theorem scheduled_run_settles_as_the_sweep
        (URL_parses : string -> bool) (orchestrator_accepts : string -> string -> bool)
        (env : Env) (now : Z) (w : World) :
  let w' := Scheduler.scheduled URL_parses orchestrator_accepts env now w in
  let swept := fst (Worker.processVerificationCompletion now w) in
  (ORCHESTRATOR_ENABLED env = false -> w' = w)
  /\ (ORCHESTRATOR_ENABLED env = true ->
      deals w' = deals swept /\ payouts w' = payouts swept /\ refunds w' = refunds swept
      /\ escrow_events w' = escrow_events swept /\ transfers w' = transfers swept
      /\ platform_balance w' = platform_balance swept
      /\ stripe_refunds w' = stripe_refunds swept).
Proof.
  intros w' swept. subst w' swept. unfold Scheduler.scheduled.
  split; intros E; rewrite E; [reflexivity|].
  destruct (dispatch_only_schedules URL_parses orchestrator_accepts env now
              (Scheduler.dueSchedules now w) (w, [])) as (l & F0).
  fold (Scheduler.dispatch URL_parses orchestrator_accepts env now w) in F0.
  cbn [fst] in F0. rewrite F0.
  unfold Worker.processVerificationCompletion.
  change (Worker.completionCandidates (set_verification_schedules w l))
    with (Worker.completionCandidates w).
  match goal with
  | |- context [fold_left _ _ (set_verification_schedules w l, ?dg)] =>
      destruct (sweep_fold_schedules now (Worker.completionCandidates w) w dg l) as (l' & S)
  end.
  rewrite S. cbn [fst]. repeat split.
Qed.

(* ------------------------------------------------------------------ *)
(** ** Manual payout trigger *)

Lemma filter_other_payouts (dealId other : string) (l : list Payout.t) :
  other <> dealId ->
  filter (fun p => String.eqb (Payout.deal_id p) other)
         (filter (fun p => negb (String.eqb (Payout.deal_id p) dealId)) l)
  = filter (fun p => String.eqb (Payout.deal_id p) other) l.
Proof.
  intros Ho. induction l as [|p l IH]; [reflexivity|].
  cbn [filter]. destruct (String.eqb (Payout.deal_id p) dealId) eqn:E; cbn [negb].
  - apply String.eqb_eq in E.
    assert (String.eqb (Payout.deal_id p) other = false) as ->
      by (apply String.eqb_neq; congruence).
    exact IH.
  - cbn [filter]. rewrite IH. reflexivity.
Qed.

Lemma filter_own_payouts (dealId : string) (l : list Payout.t) :
  filter (fun p => String.eqb (Payout.deal_id p) dealId)
         (filter (fun p => negb (String.eqb (Payout.deal_id p) dealId)) l) = [].
Proof.
  induction l as [|p l IH]; [reflexivity|].
  cbn [filter]. destruct (String.eqb (Payout.deal_id p) dealId) eqn:E; cbn [negb]; [exact IH|].
  cbn [filter]. rewrite E. exact IH.
Qed.

(** X15 (trigger-payout).  The route acts only on a Completed deal (404 or
    400 leave the store as it was).  It then deletes every payout row of
    the deal, whatever its status, and runs the creator payout: on 200 the
    deal is left with exactly one payout row, the new one; on 500 with
    none.  The payout rows of the other deals and the deals themselves are
    not written. *)
Theorem trigger_payout_replaces_payout_rows (dealId : string) (w w' : World) (r : Response) :
  Scheduler.trigger_payout dealId w = (w', r) ->
  (code_of r = 200 \/ code_of r = 400 \/ code_of r = 404 \/ code_of r = 500)
  /\ (code_of r = 404 \/ code_of r = 400 -> w' = w)
  /\ (code_of r = 200 \/ code_of r = 500 ->
      (exists deal, deal_by_id w dealId = Some deal /\ Deal.status deal = Completed)
      /\ deals w' = deals w
      /\ (forall other, other <> dealId -> payouts_of w' other = payouts_of w other)
      /\ (code_of r = 200 ->
          exists p, payouts_of w' dealId = [p] /\ Payout.deal_id p = dealId)
      /\ (code_of r = 500 -> payouts_of w' dealId = [])).
Proof.
  unfold Scheduler.trigger_payout. intros H.
  destruct (deal_by_id w dealId) as [deal|] eqn:Ed.
  2:{ inversion H; subst. cbn. split; [auto|]. split; [reflexivity|].
      intros [C|C]; discriminate C. }
  destruct (DealStatus_eqb (Deal.status deal) Completed) eqn:Es; cbn [negb] in H.
  2:{ inversion H; subst. cbn. split; [auto|]. split; [reflexivity|].
      intros [C|C]; discriminate C. }
  cbv zeta in H.
  set (w1 := match filter _ (payouts w) with [] => w | _ :: _ => _ end) in H.
  assert (H1 : deals w1 = deals w
               /\ payouts_of w1 dealId = []
               /\ forall other, other <> dealId -> payouts_of w1 other = payouts_of w other).
  { subst w1. unfold payouts_of.
    destruct (filter (fun p => String.eqb (Payout.deal_id p) dealId) (payouts w)) eqn:Ef.
    - split; [reflexivity|]. split; [exact Ef|]. reflexivity.
    - cbn [deals payouts set_payouts]. split; [reflexivity|].
      split; [apply filter_own_payouts|].
      intros other Ho. apply filter_other_payouts. exact Ho. }
  destruct H1 as (D1 & P1 & O1).
  pose proof (processCreatorPayout_effect w1 dealId) as (Hd & _ & Hp).
  assert (Hstatus : Deal.status deal = Completed)
    by (destruct (Deal.status deal); cbn in Es; congruence).
  destruct (Worker.processCreatorPayout w1 dealId) as [w2 [u|message]];
    cbn [fst snd] in Hd, Hp; inversion H; subst w' r; clear H; cbn [code_of].
  - split; [auto|]. split; [intros [C|C]; discriminate C|]. intros _.
    split; [exists deal; split; [reflexivity | exact Hstatus]|].
    split; [congruence|].
    destruct Hp as (p & Hp & Hid).
    split.
    { intros other Ho. unfold payouts_of in *. rewrite Hp, filter_app. cbn [filter].
      rewrite Hid.
      assert (String.eqb dealId other = false) as ->
        by (apply String.eqb_neq; congruence).
      rewrite app_nil_r. apply O1. exact Ho. }
    split; [|intros C; discriminate C].
    intros _. exists p. split; [|exact Hid].
    unfold payouts_of in *. rewrite Hp, filter_app, P1. cbn [filter app].
    rewrite Hid, String.eqb_refl. reflexivity.
  - split; [auto 6|]. split; [intros [C|C]; discriminate C|]. intros _.
    split; [exists deal; split; [reflexivity | exact Hstatus]|].
    split; [congruence|].
    split.
    { intros other Ho. unfold payouts_of in *. rewrite Hp. apply O1. exact Ho. }
    split; [intros C; discriminate C|].
    intros _. unfold payouts_of in *. rewrite Hp. exact P1.
Qed.

Lemma trigger_payout_replaces_payout_rows_witness :
  exists w' p,
    Scheduler.trigger_payout Scenario.dealId (Scenario.swept 85)
    = (w', json success_body 200)
    /\ List.length (payouts_of (Scenario.swept 85) Scenario.dealId) = 1%nat
    /\ payouts_of w' Scenario.dealId = [p]
    /\ List.length (transfers w') = 2%nat.
Proof.
  destruct (Scheduler.trigger_payout Scenario.dealId (Scenario.swept 85)) as [w' r] eqn:E.
  destruct (trigger_payout_replaces_payout_rows Scenario.dealId (Scenario.swept 85) w' r E)
    as (_ & _ & H).
  assert (Hr : r = json success_body 200)
    by (apply (f_equal snd) in E; cbn [snd] in E; rewrite <- E; vm_compute; reflexivity).
  subst r.
  destruct (H (or_introl eq_refl)) as (_ & _ & _ & H200 & _).
  destruct (H200 eq_refl) as (p & Hp & _).
  exists w', p. split; [reflexivity|]. split; [vm_compute; reflexivity|].
  split; [exact Hp|].
  apply (f_equal fst) in E. cbn [fst] in E. rewrite <- E. vm_compute. reflexivity.
Defined.

(* ------------------------------------------------------------------ *)
(** ** Deals router: accept, fund, mark-completed, update-proof-spec *)

(** An update of the one row a key selects, through a filter that the row
    passes. *)
Lemma update_selected_deal (dealId : string) (q : Deal.t -> bool) (f : Deal.t -> Deal.t)
      (deal : Deal.t) (ds : list Deal.t) :
  single (filter (fun d => String.eqb (Deal.id d) dealId) ds) = Some deal ->
  q deal = true ->
  (forall d, q d = true -> String.eqb (Deal.id d) dealId = true) ->
  (forall d, Deal.id (f d) = Deal.id d) ->
  filter (fun d => String.eqb (Deal.id d) dealId) (update_where q f ds) = [f deal]
  /\ filter q ds = [deal]
  /\ forall other, other <> dealId ->
       filter (fun d => String.eqb (Deal.id d) other) (update_where q f ds)
       = filter (fun d => String.eqb (Deal.id d) other) ds.
Proof.
  intros Hs Hq Hsub Hid. apply single_some in Hs.
  split; [|split].
  - rewrite filter_update_where_sub.
    + rewrite Hs. reflexivity.
    + intros x Hx Hxid.
      assert (Hin : In x (filter (fun d => String.eqb (Deal.id d) dealId) ds))
        by (apply filter_In; split; assumption).
      rewrite Hs in Hin. destruct Hin as [<-|[]]. exact Hq.
    + exact Hsub.
    + intros x. rewrite Hid. reflexivity.
  - clear Hid f. revert Hs. induction ds as [|a ds IH]; intros Hs; [discriminate Hs|].
    cbn [filter] in *. destruct (String.eqb (Deal.id a) dealId) eqn:Ea.
    + injection Hs as -> Hrest. rewrite Hq. f_equal.
      clear IH. induction ds as [|b ds IH]; [reflexivity|].
      cbn [filter] in *. destruct (String.eqb (Deal.id b) dealId) eqn:Eb; [discriminate Hrest|].
      destruct (q b) eqn:Eq; [apply Hsub in Eq; congruence|]. apply IH. exact Hrest.
    + destruct (q a) eqn:Eq; [apply Hsub in Eq; congruence|]. apply IH. exact Hs.
  - intros other Ho. apply filter_update_where_other.
    intros x Hx. apply Hsub in Hx. apply String.eqb_eq in Hx.
    assert (E : String.eqb (Deal.id x) other = false) by (apply String.eqb_neq; congruence).
    rewrite Hid. split; exact E.
Qed.

Lemma accept_ok (user dealId : string) (w : World) (deal : Deal.t) :
  deal_by_id w dealId = Some deal ->
  Deal.advertiser_id deal <> user ->
  Deal.status deal = PendingAcceptance ->
  let w' := set_deals w (update_where (DealRoutes.accept_filter dealId)
                                      (DealRoutes.accept_update user) (deals w)) in
  DealRoutes.accept user dealId w = (w', json success_body 200)
  /\ deal_by_id w' dealId = Some (DealRoutes.accept_update user deal)
  /\ forall other, other <> dealId -> deal_rows w' other = deal_rows w other.
Proof.
  intros Hd Hu Hs w'. subst w'.
  destruct (update_selected_deal dealId (DealRoutes.accept_filter dealId)
              (DealRoutes.accept_update user) deal (deals w) Hd) as (U1 & U2 & U3).
  { unfold DealRoutes.accept_filter. rewrite Hs.
    apply single_some in Hd.
    assert (Hin : In deal (filter (fun d => String.eqb (Deal.id d) dealId) (deals w)))
      by (rewrite Hd; left; reflexivity).
    apply filter_In in Hin. destruct Hin as [_ ->]. reflexivity. }
  { intros d Hq. unfold DealRoutes.accept_filter in Hq.
    apply andb_true_iff in Hq. apply Hq. }
  { intros d. reflexivity. }
  unfold DealRoutes.accept. rewrite Hd.
  assert (String.eqb (Deal.advertiser_id deal) user = false) as ->
    by (apply String.eqb_neq; exact Hu).
  rewrite Hs. cbn [DealStatus_eqb negb]. rewrite U2. cbn [single].
  split; [reflexivity|]. split.
  - unfold deal_by_id. cbn [deals set_deals]. rewrite U1. reflexivity.
  - intros other Ho. unfold deal_rows. cbn [deals set_deals]. apply U3. exact Ho.
Qed.

(** X16 (accept).  The route answers 200 only for a stored deal in
    PendingAcceptance and a user other than its advertiser; that user then
    becomes the creator and the deal moves to PendingFunding, every other
    column and every other deal staying as it was.  Every other answer
    leaves the store as it was; a deal that was accepted cannot be accepted
    again. *)
Theorem accept_assigns_the_creator (user dealId : string) (w w' : World) (r : Response) :
  DealRoutes.accept user dealId w = (w', r) ->
  (code_of r <> 200 -> w' = w)
  /\ (code_of r = 200 ->
      exists deal,
        deal_by_id w dealId = Some deal
        /\ Deal.advertiser_id deal <> user
        /\ Deal.status deal = PendingAcceptance
        /\ deal_by_id w' dealId = Some (DealRoutes.accept_update user deal)
        /\ Deal.creator_id (DealRoutes.accept_update user deal) = Some user
        /\ Deal.status (DealRoutes.accept_update user deal) = PendingFunding
        /\ (forall other, other <> dealId -> deal_rows w' other = deal_rows w other)
        /\ escrow_events w' = escrow_events w
        /\ verification_schedules w' = verification_schedules w
        /\ (forall user', code_of (snd (DealRoutes.accept user' dealId w')) = 400)).
Proof.
  intros H.
  destruct (deal_by_id w dealId) as [deal|] eqn:Ed.
  2:{ unfold DealRoutes.accept in H. rewrite Ed in H. inversion H; subst.
      split; [reflexivity | intros C; discriminate C]. }
  destruct (String.eqb (Deal.advertiser_id deal) user) eqn:Eu.
  { unfold DealRoutes.accept in H. rewrite Ed, Eu in H. inversion H; subst.
    split; [reflexivity | intros C; discriminate C]. }
  destruct (DealStatus_eqb (Deal.status deal) PendingAcceptance) eqn:Es.
  2:{ unfold DealRoutes.accept in H. rewrite Ed, Eu, Es in H. inversion H; subst.
      split; [reflexivity | intros C; discriminate C]. }
  apply String.eqb_neq in Eu.
  assert (Hs : Deal.status deal = PendingAcceptance)
    by (destruct (Deal.status deal); cbn in Es; congruence).
  destruct (accept_ok user dealId w deal Ed Eu Hs) as (A1 & A2 & A3).
  rewrite A1 in H. inversion H; subst w' r; clear H.
  split; [intros C; exfalso; apply C; reflexivity | intros _].
  exists deal. repeat (split; [first [assumption | reflexivity]|]).
  intros user'. unfold DealRoutes.accept. rewrite A2.
  cbn [Deal.advertiser_id Deal.status DealRoutes.accept_update DealStatus_eqb negb].
  destruct (String.eqb (Deal.advertiser_id deal) user'); reflexivity.
Qed.

Lemma accept_assigns_the_creator_witness :
  deal_by_id (Scenario.accepted 24) Scenario.dealId
  = Some (DealRoutes.accept_update Scenario.creator Offer.offered_deal)
  /\ code_of (snd (DealRoutes.accept "creator-2" Scenario.dealId (Scenario.accepted 24)))
     = 400.
Proof.
  destruct (accept_assigns_the_creator Scenario.creator Scenario.dealId Offer.offered
              (Scenario.accepted 24) (json success_body 200)) as [_ H].
  { vm_compute. reflexivity. }
  destruct (H eq_refl) as (deal & Hd & _ & _ & Hd' & _ & _ & _ & _ & _ & Hagain).
  vm_compute in Hd. injection Hd as <-.
  split; [exact Hd' | apply Hagain].
Defined.

Lemma fund_escrow_ok (now : Z) (user dealId tx : string) (w : World) (deal : Deal.t) :
  truthy_string dealId = true -> truthy_string tx = true ->
  deal_by_id w dealId = Some deal ->
  Deal.advertiser_id deal = user ->
  Deal.status deal = PendingFunding \/ Deal.status deal = Failed ->
  exists w' deal',
    Solana.fund_escrow now user dealId tx Solana.confirmed w
    = (w', json (settlement_body dealId tx) 200)
    /\ deal_by_id w' dealId = Some deal'
    /\ Deal.status deal' = PendingVerification
    /\ Deal.creator_id deal' = Deal.creator_id deal
    /\ Deal.advertiser_id deal' = Deal.advertiser_id deal
    /\ Deal.deadline_iso deal' = Deal.deadline_iso deal
    /\ verification_schedules w' = verification_schedules w
    /\ escrow_events w'
       = (escrow_events w
            ++ [EscrowEvent.mk dealId "Created"
                  (json_number
                     (add (double_of (Deal.amount_usdc deal))
                          (mul (double_of (Deal.amount_usdc deal))
                               Solana.PLATFORM_FEE_PERCENT)))
                  (Some "solana") None (Some tx)])%list.
Proof.
  intros Hd1 Ht Hd Hu Hs. subst user.
  unfold Solana.fund_escrow. rewrite Hd1, Ht, Hd. cbn [negb orb].
  rewrite String.eqb_refl. cbn [negb].
  assert ((negb (DealStatus_eqb (Deal.status deal) PendingFunding)
           && negb (DealStatus_eqb (Deal.status deal) Failed)) = false) as ->
    by (destruct Hs as [-> | ->]; reflexivity).
  cbn [negb]. eexists _, _. split; [reflexivity|].
  split.
  { unfold deal_by_id in *. cbn [deals set_deals set_escrow_events].
    apply deal_by_id_update; [intros d; reflexivity | exact Hd]. }
  cbn [Deal.status Deal.creator_id Deal.advertiser_id Deal.deadline_iso
       verification_schedules escrow_events set_deals set_escrow_events].
  repeat (split; [reflexivity|]). reflexivity.
Qed.

Lemma submit_post_ok (URL_parses : string -> bool) (env : Env) (now : Z)
      (user dealId url : string) (w : World) (deal : Deal.t) :
  truthy_string url = true -> URL_parses url = true ->
  deal_by_id w dealId = Some deal ->
  Deal.creator_id deal = Some user ->
  Deal.status deal = PendingVerification ->
  exists w',
    Deals.submit_post URL_parses env now user dealId (Some url) w = (w', json success_body 200)
    /\ deal_by_id w' dealId = Some (Deals.post_update now url deal)
    /\ escrow_events w' = escrow_events w
    /\ schedules_of w' dealId
       = (schedules_of w dealId
            ++ Deals.number_rows dealId (fresh_schedule_id (verification_schedules w))
                 (Deals.ladder now (Deal.deadline_iso deal)
                    (Deals.durationHours_of (select_star (Deals.post_update now url deal)))))%list.
Proof.
  intros Ht Hp Hd Hc Hs.
  unfold Deals.submit_post. rewrite Ht, Hp, Hd, Hc, Hs, String.eqb_refl.
  cbn [negb DealStatus_eqb]. cbv zeta.
  set (matches := fun d : Deal.t =>
         String.eqb (Deal.id d) dealId
         && match Deal.creator_id d with
            | Some cid => String.eqb cid user | None => false end
         && DealStatus_eqb (Deal.status d) PendingVerification).
  destruct (update_selected_deal dealId matches (Deals.post_update now url) deal (deals w) Hd)
    as (U1 & _ & _).
  { subst matches. cbn beta. rewrite Hc, Hs, String.eqb_refl.
    apply single_some in Hd.
    assert (Hin : In deal (filter (fun d => String.eqb (Deal.id d) dealId) (deals w)))
      by (rewrite Hd; left; reflexivity).
    apply filter_In in Hin. destruct Hin as [_ ->]. reflexivity. }
  { intros d Hq. subst matches. cbn beta in Hq.
    apply andb_true_iff in Hq. destruct Hq as [Hq _].
    apply andb_true_iff in Hq. apply Hq. }
  { intros d. reflexivity. }
  assert (Hsch : forall rows,
            filter (fun s => String.eqb (Schedule.deal_id s) dealId)
                   (verification_schedules w ++ Deals.number_rows dealId
                      (fresh_schedule_id (verification_schedules w)) rows)
            = (schedules_of w dealId
                 ++ Deals.number_rows dealId (fresh_schedule_id (verification_schedules w))
                      rows)%list).
  { intros rows. rewrite filter_app. unfold schedules_of. f_equal.
    generalize (fresh_schedule_id (verification_schedules w)).
    induction rows as [|[ty at_] rows IH]; intros i; [reflexivity|].
    cbn [Deals.number_rows filter Deals.pending_row Schedule.deal_id].
    rewrite String.eqb_refl. f_equal. apply IH. }
  destruct (HITL_ENABLED env && negb (ORCHESTRATOR_ENABLED env));
    eexists; (split; [reflexivity|]);
    (split; [unfold deal_by_id;
             cbn [deals set_deals set_verification_schedules set_reviews];
             rewrite U1; reflexivity|]);
    (split; [reflexivity|]);
    unfold schedules_of at 1;
    cbn [verification_schedules set_deals set_verification_schedules set_reviews];
    apply Hsch.
Qed.

(** X17 (lifecycle).  Accept, fund-escrow and submit-post compose: for a
    stored deal in PendingAcceptance, a creator other than the advertiser,
    a confirmed funding transaction and a post URL that parses, each of
    the three routes answers 200 in this order, and the deal ends in
    Verifying with that creator, the post and its time on record, one
    Created escrow event more, and the schedule ladder of the deal
    appended to its schedules. *)
Theorem lifecycle_reaches_verifying
        (URL_parses : string -> bool) (env : Env) (funded_at posted_at : Z)
        (creator dealId tx url : string) (w : World) (deal : Deal.t) :
  deal_by_id w dealId = Some deal ->
  Deal.status deal = PendingAcceptance ->
  Deal.advertiser_id deal <> creator ->
  truthy_string dealId = true -> truthy_string tx = true ->
  truthy_string url = true -> URL_parses url = true ->
  exists w1 w2 w3 d3,
    DealRoutes.accept creator dealId w = (w1, json success_body 200)
    /\ Solana.fund_escrow funded_at (Deal.advertiser_id deal) dealId tx Solana.confirmed w1
       = (w2, json (settlement_body dealId tx) 200)
    /\ Deals.submit_post URL_parses env posted_at creator dealId (Some url) w2
       = (w3, json success_body 200)
    /\ deal_by_id w3 dealId = Some d3
    /\ Deal.status d3 = Verifying
    /\ Deal.creator_id d3 = Some creator
    /\ Deal.advertiser_id d3 = Deal.advertiser_id deal
    /\ Deal.post_url d3 = Some url
    /\ Deal.posted_at d3 = Some posted_at
    /\ List.length (escrow_events w3) = S (List.length (escrow_events w))
    /\ exists rows,
         schedules_of w3 dealId = (schedules_of w dealId ++ rows)%list
         /\ map (fun s => (Schedule.check_type s, Schedule.scheduled_at s)) rows
            = Deals.ladder posted_at (Deal.deadline_iso deal)
                           (Deals.durationHours_of (select_star d3)).
Proof.
  intros Hd Hs Hu Hid Htx Hurl Hp.
  destruct (accept_ok creator dealId w deal Hd Hu Hs) as (A1 & A2 & _).
  set (w1 := set_deals w _) in *.
  destruct (fund_escrow_ok funded_at (Deal.advertiser_id deal) dealId tx w1
              (DealRoutes.accept_update creator deal) Hid Htx A2 eq_refl
              (or_introl eq_refl))
    as (w2 & d2 & F1 & F2 & F3 & F4 & F5 & F6 & F7 & F8).
  destruct (submit_post_ok URL_parses env posted_at creator dealId url w2 d2 Hurl Hp F2
              F4 F3) as (w3 & S1 & S2 & S3 & S4).
  exists w1, w2, w3, (Deals.post_update posted_at url d2).
  split; [exact A1|]. split; [exact F1|]. split; [exact S1|]. split; [exact S2|].
  split; [reflexivity|]. split; [exact F4|]. split; [exact F5|].
  split; [reflexivity|]. split; [reflexivity|].
  split.
  { rewrite S3, F8, length_app. cbn [List.length escrow_events set_deals w1]. lia. }
  eexists. split.
  - rewrite S4. unfold schedules_of at 1 2. rewrite F7. reflexivity.
  - cbn [Deals.post_update Deal.deadline_iso] .
    rewrite F6.
    apply (proj1 (number_rows_content dealId _ _)).
Qed.

Lemma lifecycle_reaches_verifying_witness :
  exists w1 w2 w3 d3,
    DealRoutes.accept Scenario.creator Scenario.dealId Offer.offered
    = (w1, json success_body 200)
    /\ Solana.fund_escrow (Scenario.T0 - Scenario.hour) Scenario.advertiser Scenario.dealId
                          "tx-fund" Solana.confirmed w1
       = (w2, json (settlement_body Scenario.dealId "tx-fund") 200)
    /\ Deals.submit_post (fun _ => true) Scenario.env Scenario.T0 Scenario.creator
                         Scenario.dealId (Some "https://www.tiktok.com/@creator/video/1") w2
       = (w3, json success_body 200)
    /\ deal_by_id w3 Scenario.dealId = Some d3
    /\ Deal.status d3 = Verifying
    /\ Deal.creator_id d3 = Some Scenario.creator.
Proof.
  destruct (lifecycle_reaches_verifying (fun _ => true) Scenario.env
              (Scenario.T0 - Scenario.hour) Scenario.T0 Scenario.creator Scenario.dealId
              "tx-fund" "https://www.tiktok.com/@creator/video/1" Offer.offered
              Offer.offered_deal)
    as (w1 & w2 & w3 & d3 & H1 & H2 & H3 & H4 & H5 & H6 & _);
    try reflexivity.
  { vm_compute. discriminate. }
  exists w1, w2, w3, d3. repeat split; assumption.
Defined.



Lemma fund_appends_event (user dealId signature : string) (w w' : World) :
  DealRoutes.fund user dealId (Some signature) w = (w', json success_body 200) ->
  exists amount,
    escrow_events w'
    = (escrow_events w
         ++ [EscrowEvent.mk dealId "Created" amount (Some "solana") (Some signature)
                            None])%list.
Proof.
  unfold DealRoutes.fund. intros H.
  destruct (negb (truthy_string signature)); [discriminate H|].
  destruct (deal_by_id w dealId) as [deal|]; [|discriminate H].
  destruct (negb (String.eqb (Deal.advertiser_id deal) user)); [discriminate H|].
  destruct (negb _ && negb _); [discriminate H|].
  cbv zeta in H.
  destruct (filter _ _); [discriminate H|].
  injection H as <-. exists (Some (Deal.amount_usdc deal)). reflexivity.
Qed.

(** X19 (second funding).  Funding a deal that already has a Created event,
    which the fund route allows for a Failed deal, leaves two Created
    events: the lookup of the payment by deal and event type no longer
    finds a single row.  From then on the refunds route answers that no
    payment was found, the automatic refund of the callback route does
    nothing, and the creator payout sends no transfer, the payment method
    falling back to stripe. *)
Theorem second_funding_hides_the_payment
        (user dealId : string) (signature : string) (w w' : World) (e : EscrowEvent.t) :
  escrow_event_of w dealId "Created" = Some e ->
  DealRoutes.fund user dealId (Some signature) w = (w', json success_body 200) ->
  escrow_event_of w' dealId "Created" = None
  /\ (forall now reason,
        In reason Refunds.validReasons -> truthy_string dealId = true ->
        Refunds.process now (Some dealId) (Some reason) w'
        = (w', json (error_body "No payment found for this deal") 404))
  /\ (forall deal reason,
        Deal.id deal = dealId -> Orchestrator.processAutomaticRefund w' deal reason = w')
  /\ transfers (fst (Worker.processCreatorPayout w' dealId)) = transfers w'.
Proof.
  intros He H.
  destruct (fund_appends_event user dealId signature w w' H) as (amount & Hev).
  assert (Hnone : escrow_event_of w' dealId "Created" = None).
  { unfold escrow_event_of in *. rewrite Hev, filter_app.
    apply single_some in He. rewrite He. cbn [filter EscrowEvent.deal_id
      EscrowEvent.event_type]. rewrite !String.eqb_refl. reflexivity. }
  split; [exact Hnone|].
  split; [|split].
  - intros now reason Hr Ht. unfold Refunds.process. rewrite Ht. cbn [negb orb].
    assert (truthy_string reason = true) as ->.
    { unfold Refunds.validReasons in Hr.
      destruct Hr as [<-|[<-|[<-|[<-|[]]]]]; reflexivity. }
    cbn [negb].
    assert (existsb (String.eqb reason) Refunds.validReasons = true) as ->.
    { apply existsb_exists. exists reason. split; [exact Hr | apply String.eqb_refl]. }
    cbn [negb]. rewrite Hnone. reflexivity.
  - intros d reason Hid. unfold Orchestrator.processAutomaticRefund.
    rewrite Hid, Hnone. reflexivity.
  - unfold Worker.processCreatorPayout.
    destruct (deal_by_id w' dealId); [|reflexivity].
    cbv zeta. rewrite Hnone. cbn [string_or String.eqb Ascii.eqb Bool.eqb].
    destruct (Worker.truthy_opt _); reflexivity.
Qed.

Lemma second_funding_hides_the_payment_witness :
  escrow_event_of Scenario.failed_unrefunded Scenario.dealId "Created"
  = Some (EscrowEvent.mk Scenario.dealId "Created" (Some 51%Q) (Some "solana") None
                         (Some "tx-fund"))
  /\ escrow_event_of
       (fst (DealRoutes.fund Scenario.advertiser Scenario.dealId (Some "tx-again")
                             Scenario.failed_unrefunded))
       Scenario.dealId "Created" = None.
Proof.
  split; [reflexivity|].
  destruct (DealRoutes.fund Scenario.advertiser Scenario.dealId (Some "tx-again")
                            Scenario.failed_unrefunded) as [w' r] eqn:E.
  assert (Hr : r = json success_body 200)
    by (apply (f_equal snd) in E; cbn [snd] in E; rewrite <- E; vm_compute; reflexivity).
  subst r. cbn [fst].
  apply (second_funding_hides_the_payment Scenario.advertiser Scenario.dealId "tx-again"
           Scenario.failed_unrefunded w'
           (EscrowEvent.mk Scenario.dealId "Created" (Some 51%Q) (Some "solana") None
                         (Some "tx-fund"))
           eq_refl E).
Defined.

(** X20 (mark-completed).  The mark-completed route, called by the deal's
    advertiser or creator, sets the deal to Completed whatever its status,
    with the time of the call as the time of the post; of the tables of the
    store it writes no other (the row it may add to the proof wall is not
    part of the store): no verification score is looked at and no payout is
    made.  A payout can then be released for the deal: when the amount in
    lamports, the product of the two doubles rounded, is the whole number
    [l], and the balance of the platform wallet, below 2^53, covers [l] and
    the reserve, release-escrow sends [l] lamports to the creator's wallet
    and records the payout of the deal amount. *)
Theorem mark_completed_applies_in_any_status
        (now : Z) (user : string) (w : World) (d : Deal.t) :
  unique_deal_ids w ->
  In d (deals w) ->
  Deal.advertiser_id d = user \/ Deal.creator_id d = Some user ->
  exists w',
    DealRoutes.mark_completed now user (Deal.id d) w = (w', json success_body 200)
    /\ deal_by_id w' (Deal.id d) = Some (DealRoutes.completed_update now d)
    /\ Deal.status (DealRoutes.completed_update now d) = Completed
    /\ Deal.posted_at (DealRoutes.completed_update now d) = Some now
    /\ (forall other, other <> Deal.id d -> deal_rows w' other = deal_rows w other)
    /\ payouts w' = payouts w /\ transfers w' = transfers w
    /\ verification_schedules w' = verification_schedules w
    /\ (forall wallet l,
          Deal.id d <> "" ->
          Solana.wallet_of w (Deal.creator_id d) = Some wallet ->
          Math_round (mul (double_of (Deal.amount_usdc d)) (Finite 1000000000))
          = Finite (inject_Z l) ->
          0 <= l -> l + Solana.RESERVE <= platform_balance w < 2 ^ 53 ->
          exists w'' signature,
            Solana.release_escrow true (Deal.id d) w'
            = (w'', json (settlement_body (Deal.id d) signature) 200)
            /\ transfers w'' = (transfers w ++ [Transfer.mk wallet l])%list
            /\ payouts w''
               = (payouts w
                    ++ [Payout.mk (Deal.id d) "Solana" "Completed" (Deal.amount_usdc d)
                                  (Some signature)])%list
            /\ platform_balance w'' = platform_balance w - l - Solana.TX_FEE).
Proof.
  intros Hu Hin Huser.
  assert (Hrow : filter (fun x => String.eqb (Deal.id x) (Deal.id d)) (deals w) = [d])
    by (apply unique_row; assumption).
  assert (Hd : deal_by_id w (Deal.id d) = Some d)
    by (unfold deal_by_id; rewrite Hrow; reflexivity).
  destruct (update_selected_deal (Deal.id d) (Deals.cancel_filter user (Deal.id d))
              (DealRoutes.completed_update now) d (deals w) Hd) as (U1 & U2 & U3).
  { unfold Deals.cancel_filter. rewrite String.eqb_refl. cbn [andb].
    destruct Huser as [<- | ->]; rewrite String.eqb_refl; [reflexivity | apply orb_true_r]. }
  { intros x Hx. unfold Deals.cancel_filter in Hx. apply andb_true_iff in Hx. apply Hx. }
  { intros x. reflexivity. }
  unfold DealRoutes.mark_completed. rewrite U2. cbn [single].
  eexists. split; [reflexivity|].
  assert (Hd' : deal_by_id
                  (set_deals w (update_where (Deals.cancel_filter user (Deal.id d))
                                             (DealRoutes.completed_update now) (deals w)))
                  (Deal.id d) = Some (DealRoutes.completed_update now d))
    by (unfold deal_by_id; cbn [deals set_deals]; rewrite U1; reflexivity).
  split; [exact Hd'|].
  split; [reflexivity|]. split; [reflexivity|].
  split; [intros other Ho; unfold deal_rows; cbn [deals set_deals]; apply U3; exact Ho|].
  split; [reflexivity|]. split; [reflexivity|]. split; [reflexivity|].
  intros wallet l Hid Hw Hl H0 Hb.
  unfold Solana.release_escrow. cbn [negb].
  assert (truthy_string (Deal.id d) = true) as ->
    by (unfold truthy_string; apply negb_true_iff, String.eqb_neq; exact Hid).
  cbn [negb].
  rewrite (processPayoutInternal_sends _ (DealRoutes.completed_update now d) (Deal.id d)
             wallet l Hd' eq_refl Hw Hl H0 Hb).
  eexists _, _. split; [reflexivity|].
  split; [reflexivity|]. split; reflexivity.
Qed.

Lemma mark_completed_applies_in_any_status_witness :
  exists w' w'' signature,
    DealRoutes.mark_completed Scenario.T0 Scenario.creator Scenario.dealId
                              (Scenario.accepted 24)
    = (w', json success_body 200)
    /\ option_map Deal.status (deal_by_id (Scenario.accepted 24) Scenario.dealId)
       = Some PendingFunding
    /\ escrow_events (Scenario.accepted 24) = []
    /\ option_map Deal.status (deal_by_id w' Scenario.dealId) = Some Completed
    /\ Solana.release_escrow true Scenario.dealId w'
       = (w'', json (settlement_body Scenario.dealId signature) 200)
    /\ transfers w'' = [Transfer.mk "CreatorWallet" 50000000000].
Proof.
  assert (Hdeals : deals (Scenario.accepted 24)
                   = [DealRoutes.accept_update Scenario.creator Offer.offered_deal])
    by reflexivity.
  assert (Hu : unique_deal_ids (Scenario.accepted 24)).
  { unfold unique_deal_ids. rewrite Hdeals. constructor; [intros []|constructor]. }
  destruct (mark_completed_applies_in_any_status Scenario.T0 Scenario.creator
              (Scenario.accepted 24)
              (DealRoutes.accept_update Scenario.creator Offer.offered_deal) Hu
              (or_introl eq_refl) (or_intror eq_refl))
    as (w' & H1 & H2 & _ & _ & _ & _ & _ & _ & H9).
  destruct (H9 "CreatorWallet" 50000000000) as (w'' & signature & R1 & R2 & _).
  { discriminate. }
  { reflexivity. }
  { vm_compute. reflexivity. }
  { discriminate. }
  { vm_compute. split; [discriminate | reflexivity]. }
  exists w', w'', signature.
  split; [exact H1|]. split; [reflexivity|]. split; [reflexivity|].
  split; [change Scenario.dealId
            with (Deal.id (DealRoutes.accept_update Scenario.creator Offer.offered_deal));
          rewrite H2; reflexivity|].
  split; [exact R1 | exact R2].
Defined.

Lemma includes_valid (h : number) :
  DealRoutes.includes DealRoutes.validDurations h = true ->
  (exists v, In v DealRoutes.validDurations /\ (h == v)%Q) /\ truthy_number h = true.
Proof.
  unfold DealRoutes.includes. intros H. apply existsb_exists in H.
  destruct H as (v & Hin & Hv). apply Qeq_bool_iff in Hv.
  split; [exists v; split; assumption|].
  unfold truthy_number. apply negb_true_iff.
  destruct (Qeq_bool h 0) eqn:E; [|reflexivity].
  apply Qeq_bool_iff in E. exfalso.
  assert (X : (0 == v)%Q) by (apply Qeq_trans with h; [apply Qeq_sym; exact E | exact Hv]).
  unfold DealRoutes.validDurations in Hin.
  destruct Hin as [<-|[<-|[<-|[<-|[<-|[]]]]]]; vm_compute in X; discriminate X.
Qed.

(** X21 (update-proof-spec).  The route writes the proof spec only: deals,
    schedules and payments stay as they were.  It answers 200 only to the
    deal's creator while the deal is in PendingAcceptance, PendingFunding,
    PendingVerification or Verifying, for a text of at most 2000 characters
    and a duration, when one is given, from 0.0833, 24, 72, 168 and 720
    hours.  The duration given replaces the stored one, and it is the
    duration the completion sweep reads from then on, also for a deal
    already in verification. *)
Theorem update_proof_spec_sets_the_duration
        (user dealId : string) (body : DealRoutes.ProofSpecUpdate.t) (w w' : World)
        (r : Response) :
  DealRoutes.update_proof_spec user dealId body w = (w', r) ->
  deals w' = deals w /\ verification_schedules w' = verification_schedules w
  /\ payouts w' = payouts w /\ refunds w' = refunds w /\ escrow_events w' = escrow_events w
  /\ (code_of r <> 200 -> w' = w)
  /\ (code_of r = 200 ->
      (forall h, DealRoutes.ProofSpecUpdate.duration_hours body = Some h ->
                 exists v, In v DealRoutes.validDurations /\ (h == v)%Q)
      /\ (forall t, DealRoutes.ProofSpecUpdate.text_proof body = Some t ->
                    (String.length t <= 2000)%nat)
      /\ exists deal,
          In deal (deals w') /\ Deal.id deal = dealId
          /\ Deal.creator_id deal = Some user
          /\ (Deal.status deal = PendingAcceptance \/ Deal.status deal = PendingFunding
              \/ Deal.status deal = PendingVerification \/ Deal.status deal = Verifying)
          /\ forall old,
               DealRow.proof_specs (select_with_proof_specs w deal) = Some old ->
               DealRow.proof_specs (select_with_proof_specs w' deal)
               = Some (DealRoutes.newValues body old old)
               /\ forall h, DealRoutes.ProofSpecUpdate.duration_hours body = Some h ->
                            Worker.durationHours (select_with_proof_specs w' deal) = h).
Proof.
  unfold DealRoutes.update_proof_spec. intros H.
  destruct (negb _ && negb _ && negb _ && negb _ && negb _).
  { inversion H; subst. do 5 (split; [reflexivity|]).
    split; [intros _; reflexivity | intros C; discriminate C]. }
  destruct (match DealRoutes.ProofSpecUpdate.duration_hours body with
            | Some h => negb (DealRoutes.includes DealRoutes.validDurations h)
            | None => false end) eqn:Edur.
  { inversion H; subst. do 5 (split; [reflexivity|]).
    split; [intros _; reflexivity | intros C; discriminate C]. }
  destruct (match DealRoutes.ProofSpecUpdate.text_proof body with
            | Some t => (2000 <? String.length t)%nat
            | None => false end) eqn:Etext.
  { inversion H; subst. do 5 (split; [reflexivity|]).
    split; [intros _; reflexivity | intros C; discriminate C]. }
  destruct (single (filter (DealRoutes.modifiable user dealId) (deals w))) as [deal|] eqn:Ed.
  2:{ inversion H; subst. do 5 (split; [reflexivity|]).
      split; [intros _; reflexivity | intros C; discriminate C]. }
  assert (Hvalid : forall h, DealRoutes.ProofSpecUpdate.duration_hours body = Some h ->
                             DealRoutes.includes DealRoutes.validDurations h = true).
  { intros h Hh. rewrite Hh in Edur. apply negb_false_iff in Edur. exact Edur. }
  assert (Htext : forall t, DealRoutes.ProofSpecUpdate.text_proof body = Some t ->
                            (String.length t <= 2000)%nat).
  { intros t Ht. rewrite Ht in Etext. apply Nat.ltb_ge in Etext. exact Etext. }
  pose proof (single_some _ _ Ed) as Hrow.
  assert (Hin : In deal (filter (DealRoutes.modifiable user dealId) (deals w)))
    by (rewrite Hrow; left; reflexivity).
  apply filter_In in Hin. destruct Hin as [Hin Hmod].
  unfold DealRoutes.modifiable in Hmod.
  apply andb_true_iff in Hmod. destruct Hmod as [Hmod Hst].
  apply andb_true_iff in Hmod. destruct Hmod as [Hid Hcr].
  apply String.eqb_eq in Hid.
  assert (Hcreator : Deal.creator_id deal = Some user).
  { destruct (Deal.creator_id deal) as [cid|]; [|discriminate Hcr].
    apply String.eqb_eq in Hcr. congruence. }
  assert (Hstatus : Deal.status deal = PendingAcceptance \/ Deal.status deal = PendingFunding
                    \/ Deal.status deal = PendingVerification
                    \/ Deal.status deal = Verifying).
  { destruct (Deal.status deal); cbn in Hst; try discriminate Hst; auto. }
  assert (Hsweep : forall w1 old,
            single (filter (fun ps => String.eqb (ProofSpec.deal_id ps) (Deal.id deal))
                           (proof_specs w)) = Some old ->
            proof_specs w1
            = update_where (fun ps => String.eqb (ProofSpec.deal_id ps) dealId)
                           (DealRoutes.newValues body old) (proof_specs w) ->
            DealRow.proof_specs (select_with_proof_specs w1 deal)
            = Some (DealRoutes.newValues body old old)
            /\ forall h, DealRoutes.ProofSpecUpdate.duration_hours body = Some h ->
                         Worker.durationHours (select_with_proof_specs w1 deal) = h).
  { intros w1 old Hold Hw1.
    assert (Hnew : DealRow.proof_specs (select_with_proof_specs w1 deal)
                   = Some (DealRoutes.newValues body old old)).
    { unfold select_with_proof_specs. cbn [DealRow.proof_specs]. rewrite Hw1, Hid.
      rewrite filter_update_where_same by (intros x Hx; exact Hx).
      rewrite single_map. rewrite Hid in Hold. rewrite Hold. reflexivity. }
    split; [exact Hnew|].
    intros h Hh. unfold Worker.durationHours. rewrite Hnew.
    cbn [DealRoutes.newValues ProofSpec.duration_hours]. rewrite Hh.
    destruct (includes_valid h (Hvalid h Hh)) as [_ Ht].
    unfold number_or at 2. rewrite Ht. unfold number_or. rewrite Ht. reflexivity. }
  unfold select_with_proof_specs in H at 1. cbn [DealRow.proof_specs] in H.
  destruct (single (filter (fun ps => String.eqb (ProofSpec.deal_id ps) (Deal.id deal))
                           (proof_specs w))) as [old|] eqn:Eold;
    inversion H; subst w' r; clear H;
    do 5 (split; [reflexivity|]);
    (split; [intros C; try reflexivity; exfalso; apply C; reflexivity|]);
    intros _;
    (split; [intros h Hh; apply includes_valid; apply Hvalid; exact Hh|]);
    (split; [exact Htext|]);
    exists deal;
    (split; [exact Hin|]); (split; [exact Hid|]);
    (split; [exact Hcreator|]); (split; [exact Hstatus|]).
  - intros old' Hold'. unfold select_with_proof_specs in Hold'.
    cbn [DealRow.proof_specs] in Hold'. rewrite Eold in Hold'. injection Hold' as <-.
    apply Hsweep; reflexivity.
  - intros old' Hold'. unfold select_with_proof_specs in Hold'.
    cbn [DealRow.proof_specs] in Hold'. rewrite Eold in Hold'. discriminate Hold'.
Qed.

Lemma update_proof_spec_sets_the_duration_witness :
  let body := DealRoutes.ProofSpecUpdate.mk None (Some (833 # 10000)%Q) None None None in
  let w' := fst (DealRoutes.update_proof_spec Scenario.creator Scenario.dealId body
                                              (Scenario.verified 24 85)) in
  Worker.durationHours (select_with_proof_specs w' Scenario.verified_deal) = (833 # 10000)%Q
  /\ option_map Deal.status
       (deal_by_id (fst (Worker.processVerificationCompletion
                           (Scenario.T0 + 2 * Scenario.hour) (Scenario.verified 24 85)))
                   Scenario.dealId) = Some Verifying
  /\ option_map Deal.status
       (deal_by_id (fst (Worker.processVerificationCompletion
                           (Scenario.T0 + 2 * Scenario.hour) w'))
                   Scenario.dealId) = Some Completed.
Proof.
  cbv zeta.
  destruct (DealRoutes.update_proof_spec Scenario.creator Scenario.dealId
              (DealRoutes.ProofSpecUpdate.mk None (Some (833 # 10000)%Q) None None None)
              (Scenario.verified 24 85)) as [w' r] eqn:E.
  destruct (update_proof_spec_sets_the_duration _ _ _ _ _ _ E)
    as (_ & _ & _ & _ & _ & _ & H).
  assert (Hr : r = json success_body 200)
    by (apply (f_equal snd) in E; cbn [snd] in E; rewrite <- E; vm_compute; reflexivity).
  subst r.
  destruct (H eq_refl) as (_ & _ & deal & Hin & _ & _ & _ & Hold).
  assert (Hdeal : deal = Scenario.verified_deal).
  { assert (Hd : deals w' = [Scenario.verified_deal])
      by (apply (f_equal fst) in E; cbn [fst] in E; rewrite <- E; vm_compute; reflexivity).
    rewrite Hd in Hin. destruct Hin as [<-|[]]. reflexivity. }
  subst deal. cbn [fst].
  split.
  - apply (Hold (ProofSpec.mk Scenario.dealId "mention the sponsor" 24)); reflexivity.
  - apply (f_equal fst) in E. cbn [fst] in E. rewrite <- E.
    split; vm_compute; reflexivity.
Defined.

(* ------------------------------------------------------------------ *)
(** ** Refunds route *)

(** X22 (refunds route).  The route refunds a deal once: for a deal without
    a refund row, a call that answers 200 creates one Stripe refund and one
    refund row in status processing of the amount of the Created event,
    sets the deal to Cancelled with the reason on record whatever its
    status was, and sends no transfer; every later call for the deal is
    answered 400 and writes nothing. *)
Theorem refunds_route_refunds_once
        (now : Z) (dealId reason : string) (w w' : World) :
  filter (fun r => String.eqb (Refund.deal_id r) dealId) (refunds w) = [] ->
  Refunds.process now (Some dealId) (Some reason) w = (w', json success_body 200) ->
  (exists e reference,
      escrow_event_of w dealId "Created" = Some e
      /\ In reason Refunds.validReasons
      /\ refunds w'
         = (refunds w ++ [Refund.mk dealId (EscrowEvent.amount_usdc e) reason "processing"
                                    (Some reference)])%list
      /\ List.length (stripe_refunds w') = S (List.length (stripe_refunds w)))
  /\ Forall2 (fun d d' =>
                Deal.id d' = Deal.id d
                /\ (Deal.id d <> dealId -> d' = d)
                /\ (Deal.id d = dealId ->
                    Deal.status d' = Cancelled
                    /\ Deal.failure_reason d' = Some ("Refund processed: " ++ reason)%string
                    /\ Deal.cancelled_at d' = Some now))
             (deals w) (deals w')
  /\ transfers w' = transfers w /\ payouts w' = payouts w
  /\ (forall later reason',
        code_of (snd (Refunds.process later (Some dealId) reason' w')) = 400
        /\ fst (Refunds.process later (Some dealId) reason' w') = w').
Proof.
  intros Hnone H. unfold Refunds.process in H.
  destruct (negb (truthy_string dealId) || negb (truthy_string reason)) eqn:Et;
    [discriminate H|].
  destruct (existsb (String.eqb reason) Refunds.validReasons) eqn:Er; cbn [negb] in H;
    [|discriminate H].
  destruct (escrow_event_of w dealId "Created") as [e|] eqn:Ee; [|discriminate H].
  cbv zeta in H. rewrite Hnone in H. cbn [single] in H.
  injection H as H. subst w'.
  assert (Hreason : In reason Refunds.validReasons).
  { apply existsb_exists in Er. destruct Er as (x & Hx & E).
    apply String.eqb_eq in E. subst x. exact Hx. }
  split.
  { exists e. eexists. split; [reflexivity|]. split; [exact Hreason|].
    unfold Refunds.refund_now.
    cbn [refunds set_escrow_events set_deals set_refunds stripe_refunds_create
         stripe_refunds].
    split; [reflexivity|]. rewrite length_app. cbn [List.length]. lia. }
  split.
  { unfold Refunds.refund_now.
    cbn [deals set_escrow_events set_deals set_refunds stripe_refunds_create].
    induction (deals w) as [|d ds IH]; cbn [update_where map]; constructor; [|exact IH].
    destruct (String.eqb (Deal.id d) dealId) eqn:E.
    - apply String.eqb_eq in E. split; [reflexivity|].
      split; [intros C; contradiction | intros _; repeat split].
    - apply String.eqb_neq in E. split; [reflexivity|].
      split; [reflexivity | intros C; contradiction]. }
  split; [reflexivity|]. split; [reflexivity|].
  intros later reason'.
  unfold Refunds.process.
  destruct reason' as [reason'|]; [|split; reflexivity].
  destruct (negb (truthy_string dealId) || negb (truthy_string reason'));
    [split; reflexivity|].
  destruct (negb (existsb (String.eqb reason') Refunds.validReasons));
    [split; reflexivity|].
  assert (Hev : escrow_event_of (Refunds.refund_now now dealId reason e w) dealId "Created"
                = Some e).
  { unfold escrow_event_of in *. unfold Refunds.refund_now.
    cbn [escrow_events set_escrow_events set_deals set_refunds stripe_refunds_create].
    rewrite filter_app. cbn [filter EscrowEvent.deal_id EscrowEvent.event_type].
    rewrite String.eqb_refl. cbn [andb String.eqb Ascii.eqb Bool.eqb].
    rewrite app_nil_r. exact Ee. }
  rewrite Hev. cbv zeta.
  assert (Hrow : single (filter (fun r => String.eqb (Refund.deal_id r) dealId)
                                (refunds (Refunds.refund_now now dealId reason e w)))
                 = Some (Refund.mk dealId (EscrowEvent.amount_usdc e) reason "processing"
                           (Some ("re_" ++ NilZero.string_of_uint
                                             (Nat.to_uint (List.length (stripe_refunds w))))))).
  { unfold Refunds.refund_now.
    cbn [refunds set_escrow_events set_deals set_refunds stripe_refunds_create].
    rewrite filter_app, Hnone. cbn [filter Refund.deal_id app].
    rewrite String.eqb_refl. reflexivity. }
  rewrite Hrow. cbn [Refund.status String.eqb Ascii.eqb Bool.eqb].
  split; reflexivity.
Qed.

Lemma refunds_route_refunds_once_witness :
  exists w',
    Refunds.process (Scenario.T0 + 30 * Scenario.hour) (Some Scenario.dealId)
                    (Some "verification_failed") StripeDeal.failed
    = (w', json success_body 200)
    /\ option_map Deal.status (deal_by_id w' Scenario.dealId) = Some Cancelled
    /\ stripe_refunds w' = [("pi_1", "requested_by_customer")]
    /\ code_of (snd (Refunds.process (Scenario.T0 + 31 * Scenario.hour)
                                     (Some Scenario.dealId) (Some "dispute") w')) = 400.
Proof.
  destruct (Refunds.process (Scenario.T0 + 30 * Scenario.hour) (Some Scenario.dealId)
                            (Some "verification_failed") StripeDeal.failed)
    as [w' r] eqn:E.
  assert (Hr : r = json success_body 200)
    by (apply (f_equal snd) in E; cbn [snd] in E; rewrite <- E; vm_compute; reflexivity).
  subst r.
  assert (Hn : filter (fun r => String.eqb (Refund.deal_id r) Scenario.dealId)
                      (refunds StripeDeal.failed) = []) by reflexivity.
  destruct (refunds_route_refunds_once _ _ _ _ _ Hn E) as (_ & _ & _ & _ & Hlater).
  exists w'. split; [reflexivity|].
  split; [|split; [|apply Hlater]];
    apply (f_equal fst) in E; cbn [fst] in E; rewrite <- E; vm_compute; reflexivity.
Defined.

(* ------------------------------------------------------------------ *)
(** ** The next verification shown by the schedule route *)

Lemma latest_bounds (s : Schedule.t) (rest : list Schedule.t) :
  Forall (fun x => Schedule.scheduled_at x <= ScheduleRoutes.latest s rest) (s :: rest).
Proof.
  unfold ScheduleRoutes.latest.
  assert (G : forall l m,
            m <= fold_left (fun m x => Z.max m (Schedule.scheduled_at x)) l m
            /\ Forall (fun x => Schedule.scheduled_at x
                                <= fold_left (fun m x => Z.max m (Schedule.scheduled_at x)) l m)
                      l).
  { induction l as [|a l IH]; intros m; cbn [fold_left]; [split; [lia|constructor]|].
    destruct (IH (Z.max m (Schedule.scheduled_at a))) as [H1 H2].
    split; [lia|]. constructor; [lia | exact H2]. }
  destruct (G rest (Schedule.scheduled_at s)) as [H1 H2].
  constructor; assumption.
Qed.

Lemma latest_attained (s : Schedule.t) (rest : list Schedule.t) :
  exists x, In x (s :: rest) /\ Schedule.scheduled_at x = ScheduleRoutes.latest s rest.
Proof.
  unfold ScheduleRoutes.latest.
  assert (G : forall l m,
            fold_left (fun m x => Z.max m (Schedule.scheduled_at x)) l m = m
            \/ exists x, In x l
                         /\ Schedule.scheduled_at x
                            = fold_left (fun m x => Z.max m (Schedule.scheduled_at x)) l m).
  { induction l as [|a l IH]; intros m; cbn [fold_left]; [left; reflexivity|].
    destruct (IH (Z.max m (Schedule.scheduled_at a))) as [E | (x & Hx & E)].
    - rewrite E. destruct (Z.max_spec m (Schedule.scheduled_at a)) as [[_ M] | [_ M]];
        rewrite M; [right; exists a; split; [left|]; reflexivity | left; reflexivity].
    - right. exists x. split; [right; exact Hx | exact E]. }
  destruct (G rest (Schedule.scheduled_at s)) as [E | (x & Hx & E)].
  - exists s. split; [left; reflexivity | symmetry; exact E].
  - exists x. split; [right; exact Hx | exact E].
Qed.

(** X23 (calculateNextVerification).  A next verification is computed
    exactly for a deal in PendingVerification or Verifying: the second
    status test removes Completed, which the first admits.  The interval is
    4 hours for a duration of at most 24 hours, 12 hours up to 72 and 24
    hours beyond, the duration being the proof spec's or 24.  When a pending
    schedule lies in the future the result is the first such row of the
    list.  Otherwise the result is one interval after the latest schedule,
    or after the post when there is no schedule (after the time of the call
    when there is no post either), as a periodic check; when that time lies
    past the deadline the result is the deadline, as the final check. *)
Theorem next_verification_stays_within_deadline
        (now : Z) (deal : DealRow.t) (existingSchedules : list Schedule.t) :
  let d := DealRow.columns deal in
  let h := number_or (match DealRow.proof_specs deal with
                      | Some ps => Some (ProofSpec.duration_hours ps)
                      | None => None
                      end) 24 in
  let r := ScheduleRoutes.calculateNextVerification now deal existingSchedules in
  (r <> None <-> Deal.status d = PendingVerification \/ Deal.status d = Verifying)
  /\ forall n, r = Some n ->
       (((h <= 24)%Q /\ ScheduleRoutes.interval_hours n = 4)
        \/ ((24 < h)%Q /\ (h <= 72)%Q /\ ScheduleRoutes.interval_hours n = 12)
        \/ ((72 < h)%Q /\ ScheduleRoutes.interval_hours n = 24))
       /\ ((exists before s after,
               existingSchedules = (before ++ s :: after)%list
               /\ Forall (fun x => ~ (now < Schedule.scheduled_at x
                                      /\ Schedule.status x = pending)) before
               /\ now < Schedule.scheduled_at s /\ Schedule.status s = pending
               /\ ScheduleRoutes.scheduled_at n = Schedule.scheduled_at s
               /\ ScheduleRoutes.check_type n = Schedule.check_type s)
           \/ (Forall (fun x => ~ (now < Schedule.scheduled_at x
                                   /\ Schedule.status x = pending)) existingSchedules
               /\ ScheduleRoutes.scheduled_at n <= Deal.deadline_iso d
               /\ exists last,
                   ((existingSchedules = []
                     /\ last = match Deal.posted_at d with Some t => t | None => now end)
                    \/ ((exists s, In s existingSchedules /\ Schedule.scheduled_at s = last)
                        /\ Forall (fun x => Schedule.scheduled_at x <= last)
                                  existingSchedules))
                   /\ (Deal.deadline_iso d
                       < last + ScheduleRoutes.interval_hours n * 3600000 ->
                       ScheduleRoutes.scheduled_at n = Deal.deadline_iso d
                       /\ ScheduleRoutes.check_type n = final)
                   /\ (last + ScheduleRoutes.interval_hours n * 3600000
                       <= Deal.deadline_iso d ->
                       ScheduleRoutes.scheduled_at n
                       = last + ScheduleRoutes.interval_hours n * 3600000
                       /\ ScheduleRoutes.check_type n = periodic))).
Proof.
  cbv zeta. unfold ScheduleRoutes.calculateNextVerification. cbv zeta.
  set (d := DealRow.columns deal).
  set (h := number_or _ 24).
  set (interval := if Qle_bool h 24 then 4 else if Qle_bool h 72 then 12 else 24).
  assert (Hint : ((h <= 24)%Q /\ interval = 4)
                 \/ ((24 < h)%Q /\ (h <= 72)%Q /\ interval = 12)
                 \/ ((72 < h)%Q /\ interval = 24)).
  { subst interval. destruct (Qle_bool h 24) eqn:E1.
    - left. split; [apply Qle_bool_iff; exact E1 | reflexivity].
    - assert (H24 : (24 < h)%Q).
      { apply Qnot_le_lt. intro C. apply Qle_bool_iff in C. congruence. }
      destruct (Qle_bool h 72) eqn:E2.
      + right. left. split; [exact H24|]. split; [apply Qle_bool_iff; exact E2|reflexivity].
      + right. right. split; [|reflexivity].
        apply Qnot_le_lt. intro C. apply Qle_bool_iff in C. congruence. }
  clearbody interval.
  assert (Hfilter : forall l,
            match filter (fun s => (now <? Schedule.scheduled_at s)
                                   && ScheduleStatus_eqb (Schedule.status s) pending) l with
            | s :: _ =>
                exists before after,
                  l = (before ++ s :: after)%list
                  /\ Forall (fun x => ~ (now < Schedule.scheduled_at x
                                         /\ Schedule.status x = pending)) before
                  /\ now < Schedule.scheduled_at s /\ Schedule.status s = pending
            | [] => Forall (fun x => ~ (now < Schedule.scheduled_at x
                                        /\ Schedule.status x = pending)) l
            end).
  { induction l as [|a l IH]; cbn [filter]; [constructor|].
    destruct ((now <? Schedule.scheduled_at a)
              && ScheduleStatus_eqb (Schedule.status a) pending) eqn:E.
    - apply andb_true_iff in E. destruct E as [E1 E2]. apply Z.ltb_lt in E1.
      exists [], l. split; [reflexivity|]. split; [constructor|]. split; [exact E1|].
      destruct (Schedule.status a); cbn in E2; congruence.
    - assert (Ha : ~ (now < Schedule.scheduled_at a /\ Schedule.status a = pending)).
      { intros [A1 A2]. apply Z.ltb_lt in A1. rewrite A1, A2 in E. discriminate E. }
      destruct (filter _ l) as [|s rest].
      + constructor; assumption.
      + destruct IH as (before & after & -> & Hb & Hs).
        exists (a :: before), after. split; [reflexivity|].
        split; [constructor; assumption | exact Hs]. }
  set (last := match existingSchedules with
               | s :: rest => ScheduleRoutes.latest s rest
               | [] => match Deal.posted_at d with Some t => t | None => now end
               end).
  assert (Hlast : (existingSchedules = []
                   /\ last = match Deal.posted_at d with Some t => t | None => now end)
                  \/ ((exists s, In s existingSchedules /\ Schedule.scheduled_at s = last)
                      /\ Forall (fun x => Schedule.scheduled_at x <= last) existingSchedules)).
  { subst last. destruct existingSchedules as [|s0 rest0]; [left; split; reflexivity|].
    right. split; [apply latest_attained | apply latest_bounds]. }
  clearbody last.
  assert (Hbody : forall n,
            match filter (fun s => (now <? Schedule.scheduled_at s)
                                   && ScheduleStatus_eqb (Schedule.status s) pending)
                         existingSchedules with
            | s :: _ =>
                Some (ScheduleRoutes.mkNextVerification (Schedule.scheduled_at s)
                        (Schedule.check_type s) interval)
            | [] =>
                if Deal.deadline_iso d <? last + interval * 60 * 60 * 1000
                then Some (ScheduleRoutes.mkNextVerification (Deal.deadline_iso d) final
                             interval)
                else Some (ScheduleRoutes.mkNextVerification
                             (last + interval * 60 * 60 * 1000) periodic interval)
            end = Some n ->
            (((h <= 24)%Q /\ ScheduleRoutes.interval_hours n = 4)
             \/ ((24 < h)%Q /\ (h <= 72)%Q /\ ScheduleRoutes.interval_hours n = 12)
             \/ ((72 < h)%Q /\ ScheduleRoutes.interval_hours n = 24))
            /\ ((exists before s after,
                    existingSchedules = (before ++ s :: after)%list
                    /\ Forall (fun x => ~ (now < Schedule.scheduled_at x
                                           /\ Schedule.status x = pending)) before
                    /\ now < Schedule.scheduled_at s /\ Schedule.status s = pending
                    /\ ScheduleRoutes.scheduled_at n = Schedule.scheduled_at s
                    /\ ScheduleRoutes.check_type n = Schedule.check_type s)
                \/ (Forall (fun x => ~ (now < Schedule.scheduled_at x
                                        /\ Schedule.status x = pending)) existingSchedules
                    /\ ScheduleRoutes.scheduled_at n <= Deal.deadline_iso d
                    /\ exists last0,
                        ((existingSchedules = []
                          /\ last0 = match Deal.posted_at d with
                                     | Some t => t | None => now end)
                         \/ ((exists s, In s existingSchedules
                                        /\ Schedule.scheduled_at s = last0)
                             /\ Forall (fun x => Schedule.scheduled_at x <= last0)
                                       existingSchedules))
                        /\ (Deal.deadline_iso d
                            < last0 + ScheduleRoutes.interval_hours n * 3600000 ->
                            ScheduleRoutes.scheduled_at n = Deal.deadline_iso d
                            /\ ScheduleRoutes.check_type n = final)
                        /\ (last0 + ScheduleRoutes.interval_hours n * 3600000
                            <= Deal.deadline_iso d ->
                            ScheduleRoutes.scheduled_at n
                            = last0 + ScheduleRoutes.interval_hours n * 3600000
                            /\ ScheduleRoutes.check_type n = periodic)))).
  { intros n Hn. specialize (Hfilter existingSchedules).
    destruct (filter _ existingSchedules) as [|s rest].
    - destruct (Deal.deadline_iso d <? _) eqn:Edl; injection Hn as <-;
        cbn [ScheduleRoutes.interval_hours ScheduleRoutes.scheduled_at
             ScheduleRoutes.check_type].
      + apply Z.ltb_lt in Edl. split; [exact Hint|]. right. split; [exact Hfilter|].
        split; [lia|]. exists last. split; [exact Hlast|].
        split; intro C; [split; reflexivity | lia].
      + apply Z.ltb_ge in Edl. split; [exact Hint|]. right. split; [exact Hfilter|].
        split; [lia|]. exists last. split; [exact Hlast|].
        split; intro C; [lia | split; [lia | reflexivity]].
    - injection Hn as <-.
      cbn [ScheduleRoutes.interval_hours ScheduleRoutes.scheduled_at
           ScheduleRoutes.check_type].
      split; [exact Hint|]. left.
      destruct Hfilter as (before & after & E1 & E2 & E3 & E4).
      exists before, s, after. repeat split; assumption. }
  assert (Hsome : match filter (fun s => (now <? Schedule.scheduled_at s)
                                   && ScheduleStatus_eqb (Schedule.status s) pending)
                         existingSchedules with
                  | s :: _ =>
                      Some (ScheduleRoutes.mkNextVerification (Schedule.scheduled_at s)
                              (Schedule.check_type s) interval)
                  | [] =>
                      if Deal.deadline_iso d <? last + interval * 60 * 60 * 1000
                      then Some (ScheduleRoutes.mkNextVerification (Deal.deadline_iso d) final
                                   interval)
                      else Some (ScheduleRoutes.mkNextVerification
                                   (last + interval * 60 * 60 * 1000) periodic interval)
                  end <> None).
  { destruct (filter _ existingSchedules); [|discriminate].
    destruct (_ <? _); discriminate. }
  destruct (Deal.status d) eqn:Es; cbn [DealStatus_eqb orb negb];
    try (split; [split; [intros C; exfalso; apply C; reflexivity
                        | intros [C|C]; discriminate C]
                | intros n C; discriminate C]).
  - split; [split; [intros _; left; reflexivity | intros _; exact Hsome] | exact Hbody].
  - split; [split; [intros _; right; reflexivity | intros _; exact Hsome] | exact Hbody].
Qed.

Lemma next_verification_stays_within_deadline_witness :
  let deal := select_with_proof_specs (Scenario.verified 24 85) Scenario.verified_deal in
  let rows := schedules_of (Scenario.verified 24 85) Scenario.dealId in
  ScheduleRoutes.calculateNextVerification (Scenario.T0 + 2 * Scenario.hour) deal rows
  = Some (ScheduleRoutes.mkNextVerification (Scenario.T0 + 4 * Scenario.hour) periodic 4)
  /\ ScheduleRoutes.calculateNextVerification (Scenario.T0 + 2 * Scenario.hour) deal []
     = Some (ScheduleRoutes.mkNextVerification (Scenario.T0 + 4 * Scenario.hour) periodic 4)
  /\ ScheduleRoutes.calculateNextVerification (Scenario.T0 + 80 * Scenario.hour) deal rows
     = Some (ScheduleRoutes.mkNextVerification (Scenario.T0 + 72 * Scenario.hour) final 4).
Proof.
  cbv zeta.
  pose proof (next_verification_stays_within_deadline (Scenario.T0 + 2 * Scenario.hour)
                (select_with_proof_specs (Scenario.verified 24 85) Scenario.verified_deal)
                []) as H.
  cbv zeta in H. destruct H as [H _].
  assert (E : ScheduleRoutes.calculateNextVerification (Scenario.T0 + 2 * Scenario.hour)
                (select_with_proof_specs (Scenario.verified 24 85) Scenario.verified_deal)
                [] <> None) by (apply H; right; reflexivity).
  split; [vm_compute; reflexivity|]. split; [|vm_compute; reflexivity].
  destruct (ScheduleRoutes.calculateNextVerification _ _ []) as [n|] eqn:En;
    [|exfalso; apply E; reflexivity].
  rewrite <- En. vm_compute. reflexivity.
Defined.

(* ------------------------------------------------------------------ *)
(** ** The schedule ladder and the worker's refund helper *)

(** X24 (schedule ladder).  For any duration read, the ladder is the
    initial row at the time of the post, periodic rows one interval apart
    from that time on, each before the deadline and none missing up to it,
    and the final row at the deadline; a deadline within one interval of
    the post gives the initial and the final row alone.  The interval is about
    100 seconds for a duration of at most 0.1 hours, 4 hours up to 24, 12
    hours up to 72 and 24 hours beyond. *)
Theorem schedule_ladder_covers_the_window (now deadline : Z) (durationHours : number) :
  exists (i : Z) (checks : list Z),
    Deals.ladder now deadline durationHours
    = ((initial, now) :: map (fun t => (periodic, t)) checks ++ [(final, deadline)])%list
    /\ (((durationHours <= 1 # 10)%Q /\ i = 100080)
        \/ ((1 # 10 < durationHours)%Q /\ (durationHours <= 24)%Q /\ i = 4 * 3600000)
        \/ ((24 < durationHours)%Q /\ (durationHours <= 72)%Q /\ i = 12 * 3600000)
        \/ ((72 < durationHours)%Q /\ i = 24 * 3600000))
    /\ Forall (fun t => now < t < deadline) checks
    /\ spaced i (now :: checks)
    /\ deadline <= last checks now + i
    /\ (deadline <= now + i -> checks = []).
Proof.
  destruct (ladder_shape now deadline durationHours) as (i & checks & L1 & L2 & L3 & L4 & L5).
  destruct (checkInterval_table durationHours) as (i' & T1 & T2).
  assert (i' = i) by (specialize (L2 0); specialize (T1 0); lia). subst i'.
  assert (Hpos : 0 < i)
    by (destruct T2 as [[_ ->]|[(_ & _ & ->)|[(_ & _ & ->)|[_ ->]]]]; lia).
  assert (Hlow : forall l a, spaced i (a :: l) -> Forall (fun t => a < t) l).
  { induction l as [|b l IH]; intros a S; [constructor|].
    cbn [spaced] in S. destruct S as [-> S]. constructor; [lia|].
    specialize (IH _ S). eapply Forall_impl; [|exact IH]. cbn beta. intros t Ht. lia. }
  exists i, checks. split; [exact L1|]. split; [exact T2|].
  split.
  { pose proof (Hlow checks now L4) as Hl. rewrite Forall_forall in *.
    intros t Ht. split; [apply Hl; exact Ht | apply L3; exact Ht]. }
  split; [exact L4|]. split; [exact L5|].
  intros Hshort. destruct checks as [|c rest]; [reflexivity|].
  exfalso. inversion L3 as [|? ? Hc _]; subst.
  cbn [spaced] in L4. destruct L4 as [-> _]. lia.
Qed.

(** X25 (processRefund).  The worker's refund helper refunds a Stripe
    payment once: for a deal whose payment is on record as a FundEscrow
    event not made through solana and that has no refund row, the first
    call creates one Stripe refund for the payment intent, one refund row
    in status processing of the amount paid and one Refunded event, and
    sends no transfer; a second call finds the row and writes nothing.
    Without a FundEscrow event the helper writes nothing at all. *)
Theorem worker_refund_refunds_once
        (w : World) (dealId reason : string) (escrow : EscrowEvent.t) :
  escrow_event_of w dealId "FundEscrow" = Some escrow ->
  String.eqb (string_or (EscrowEvent.payment_method escrow) "stripe") "solana" = false ->
  filter (fun r => String.eqb (Refund.deal_id r) dealId) (refunds w) = [] ->
  let w1 := fst (Worker.processRefund w dealId reason) in
  (exists reference,
      refunds w1
      = (refunds w ++ [Refund.mk dealId (EscrowEvent.amount_usdc escrow) reason
                                 "processing" (Some reference)])%list
      /\ escrow_events w1
         = (escrow_events w ++ [EscrowEvent.mk dealId "Refunded"
                                  (EscrowEvent.amount_usdc escrow) None (Some reference)
                                  None])%list)
  /\ List.length (stripe_refunds w1) = S (List.length (stripe_refunds w))
  /\ transfers w1 = transfers w /\ deals w1 = deals w
  /\ List.length (non_failed_refunds w1 dealId) = 1%nat
  /\ Worker.processRefund w1 dealId reason = (w1, Ok tt)
  /\ (forall w0 dealId0 reason0,
        escrow_event_of w0 dealId0 "FundEscrow" = None ->
        Worker.processRefund w0 dealId0 reason0 = (w0, Ok tt)).
Proof.
  intros He Hm Hr w1.
  destruct (processRefund_stripe_idempotent w dealId reason escrow He Hm Hr) as [I1 I2].
  fold w1 in I1, I2.
  assert (E : w1 = fst (Worker.processRefund w dealId reason)) by reflexivity.
  unfold Worker.processRefund in E. rewrite He, Hr, Hm in E. cbn [single fst] in E.
  cbv zeta in E.
  split.
  { eexists. rewrite E.
    cbn [refunds escrow_events set_escrow_events set_refunds stripe_refunds_create].
    split; reflexivity. }
  split.
  { rewrite E. cbn [stripe_refunds set_escrow_events set_refunds stripe_refunds_create].
    rewrite length_app. cbn [List.length]. lia. }
  split; [rewrite E; reflexivity|]. split; [rewrite E; reflexivity|].
  split; [exact I1|]. split; [exact I2|].
  intros w0 dealId0 reason0. apply processRefund_without_FundEscrow.
Qed.

Lemma worker_refund_refunds_once_witness :
  let w1 := fst (Worker.processRefund StripeDeal.failed_FundEscrow Scenario.dealId
                                      "verification_failed") in
  stripe_refunds w1 = [("pi_1", "requested_by_customer")]
  /\ List.length (non_failed_refunds w1 Scenario.dealId) = 1%nat
  /\ Worker.processRefund w1 Scenario.dealId "verification_failed" = (w1, Ok tt).
Proof.
  cbv zeta.
  destruct (worker_refund_refunds_once StripeDeal.failed_FundEscrow Scenario.dealId
              "verification_failed"
              (EscrowEvent.mk Scenario.dealId "FundEscrow" (Some 50%Q) (Some "stripe")
                              (Some "pi_1") None)
              eq_refl eq_refl eq_refl) as (_ & _ & _ & _ & H5 & H6 & _).
  split; [vm_compute; reflexivity|]. split; [exact H5 | exact H6].
Defined.

(* ------------------------------------------------------------------ *)
(** ** The creator payout and what the sweep reads from a callback *)

Lemma payout_effect_of_internal (w : World) (dealId : string) :
  match Solana.processPayoutInternal w dealId with
  | (w', Ok signature) =>
      deals w' = deals w /\ refunds w' = refunds w
      /\ signature = Solana.next_signature w
      /\ List.length (transfers w') = S (List.length (transfers w))
  | (w', Throw _) => w' = w
  end.
Proof.
  unfold Solana.processPayoutInternal.
  destruct (deal_by_id w dealId) as [deal|]; [|reflexivity].
  destruct (negb _); [reflexivity|].
  destruct (Solana.wallet_of _ _); [|reflexivity].
  destruct (less _ _); [reflexivity|]. destruct (Solana.u64 _); [|reflexivity].
  cbn [deals refunds transfers set_payouts send_transfer].
  rewrite length_app. cbn [List.length].
  repeat split. lia.
Qed.

(** X26 (processCreatorPayout).  The payout follows the payment method of
    the deal's single Created event, stripe when there is none.  For solana
    it is the Solana payout: one transfer to the creator's wallet and one
    Completed row.  For stripe nothing is transferred: one row in status
    pending_settlement of the deal amount is recorded for the creator's
    Stripe account.  A payout that throws leaves the store as it was. *)
Theorem creator_payout_follows_payment_method (w : World) (dealId : string) :
  let method :=
    string_or (match escrow_event_of w dealId "Created" with
               | Some e => EscrowEvent.payment_method e
               | None => None
               end) "stripe" in
  match Worker.processCreatorPayout w dealId with
  | (w', Ok _) =>
      exists deal,
        deal_by_id w dealId = Some deal
        /\ deals w' = deals w /\ refunds w' = refunds w
        /\ ((method = "solana"
             /\ Solana.processPayoutInternal w dealId
                = (w', Ok (Solana.next_signature w))
             /\ List.length (transfers w') = S (List.length (transfers w)))
            \/ (method <> "solana"
                /\ transfers w' = transfers w
                /\ platform_balance w' = platform_balance w
                /\ exists account,
                     option_map Identity.stripe_connect_account_id (Worker.creator_of w deal)
                     = Some (Some account)
                     /\ payouts w'
                        = (payouts w ++ [Payout.mk dealId "stripe" "pending_settlement"
                                           (Deal.amount_usdc deal) (Some account)])%list))
  | (w', Throw _) => w' = w
  end.
Proof.
  cbv zeta. unfold Worker.processCreatorPayout.
  destruct (deal_by_id w dealId) as [deal|] eqn:Ed; [|reflexivity].
  cbv zeta.
  destruct (String.eqb (string_or _ "stripe") "solana") eqn:Em.
  - destruct (Worker.truthy_opt _); [|reflexivity].
    pose proof (payout_effect_of_internal w dealId) as P.
    destruct (Solana.processPayoutInternal w dealId) as [w' [sg|m]] eqn:Ep.
    + destruct P as (P1 & P2 & P3 & P4).
      exists deal. split; [reflexivity|]. split; [exact P1|]. split; [exact P2|].
      left. split; [apply String.eqb_eq; exact Em|].
      split; [rewrite P3; reflexivity | exact P4].
    + exact P.
  - destruct (Worker.truthy_opt
                (match Worker.creator_of w deal with
                 | Some i => Identity.stripe_connect_account_id i
                 | None => None end)) as [account|] eqn:Ea; [|reflexivity].
    exists deal. split; [reflexivity|]. split; [reflexivity|]. split; [reflexivity|].
    right. split; [apply String.eqb_neq; exact Em|].
    split; [reflexivity|]. split; [reflexivity|].
    exists account. split; [|reflexivity].
    destruct (Worker.creator_of w deal) as [i|]; [|discriminate Ea].
    cbn [option_map]. unfold Worker.truthy_opt in Ea.
    destruct (Identity.stripe_connect_account_id i) as [a|]; [|discriminate Ea].
    destruct (truthy_string a); [|discriminate Ea]. injection Ea as ->. reflexivity.
Qed.

Lemma creator_payout_follows_payment_method_witness :
  exists w',
    Worker.processCreatorPayout StripeDeal.completed Scenario.dealId = (w', Ok tt)
    /\ transfers w' = []
    /\ payouts w' = [Payout.mk Scenario.dealId "stripe" "pending_settlement" 50
                               (Some "acct_1")].
Proof.
  pose proof (creator_payout_follows_payment_method StripeDeal.completed Scenario.dealId)
    as H.
  cbv zeta in H.
  destruct (Worker.processCreatorPayout StripeDeal.completed Scenario.dealId)
    as [w' [u|m]] eqn:E.
  - destruct u. exists w'. split; [reflexivity|].
    destruct H as (deal & Hd & _ & _ & [(C & _)|(_ & Ht & _ & account & Ha & Hp)]).
    + vm_compute in C. discriminate C.
    + vm_compute in Hd. injection Hd as <-.
      vm_compute in Ha. injection Ha as <-.
      split; [rewrite Ht; reflexivity | rewrite Hp; reflexivity].
  - vm_compute in E. discriminate E.
Defined.

(** X27 (callback and sweep).  After an accepted callback in the current
    format the sweep's test of a successful verification depends on that
    callback alone: it holds exactly when the score of the callback is 80
    or more, whatever score or result the deal carried before. *)
Theorem last_callback_decides_success
        (env : Env) (now : Z) (requestBody : RequestBody.t) (w : World)
        (dealId : string) (deal : Deal.t) :
  Orchestrator.new_format_deal_id requestBody = Some dealId ->
  startsWith "test-deal-" dealId = false ->
  deal_by_id w dealId = Some deal ->
  let score := number_or (Orchestrator.analysis_overall_score requestBody) 0 in
  exists d',
    deal_by_id (fst (Orchestrator.callback env now (Some Orchestrator.expectedAuth)
                                           (Some requestBody) w)) dealId = Some d'
    /\ Deal.verification_score d' = Some score
    /\ Worker.hasVerificationSuccess d' = ge score 80.
Proof.
  intros Hid Ht Hd score.
  set (vs := match RequestBody.status requestBody with
             | Some s => if String.eqb s "completed" then "completed" else "failed"
             | None => "failed" end).
  assert (Hp : Orchestrator.parse requestBody
               = Orchestrator.mkParsed (Some dealId) vs score)
    by (unfold Orchestrator.parse; rewrite Hid; reflexivity).
  rewrite (callback_accepted env now requestBody w dealId vs score deal Hp Ht Hd).
  cbn [fst].
  pose proof (callback_writes_verdict env now requestBody w dealId vs score deal Hd) as W.
  cbv zeta in W. destruct W as (d' & W1 & _ & W3 & _ & W5 & _).
  exists d'. split; [exact W1|]. split; [exact W3|].
  unfold Worker.hasVerificationSuccess. rewrite W3, W5.
  destruct (ge score 80) eqn:E80; [reflexivity|]. cbn [orb].
  unfold Orchestrator.enrichedOrchestratorResult.
  destruct (Orchestrator.needs_enrichment requestBody vs score).
  - unfold Orchestrator.analysis_overall_score, Orchestrator.analysis_of.
    cbn [RequestBody.data CallbackData.analysis Analysis.overall_score]. exact E80.
  - fold score in E80. unfold score in E80 |- *.
    destruct (Orchestrator.analysis_overall_score requestBody) as [s|]; [|reflexivity].
    unfold number_or in E80. destruct (truthy_number s) eqn:Ts; [exact E80|].
    unfold truthy_number in Ts. apply negb_false_iff in Ts. apply Qeq_bool_iff in Ts.
    apply ge_false. rewrite Ts. reflexivity.
Qed.

Lemma last_callback_decides_success_witness :
  exists d',
    deal_by_id (fst (Orchestrator.callback Scenario.env (Scenario.T0 + 2 * Scenario.hour)
                       (Some Orchestrator.expectedAuth)
                       (Some (Scenario.completed_body 65 (Some 90%Q) []))
                       (Scenario.verified 24 85))) Scenario.dealId = Some d'
    /\ Worker.hasVerificationSuccess Scenario.verified_deal = true
    /\ Worker.hasVerificationSuccess d' = false.
Proof.
  destruct (last_callback_decides_success Scenario.env (Scenario.T0 + 2 * Scenario.hour)
              (Scenario.completed_body 65 (Some 90%Q) []) (Scenario.verified 24 85)
              Scenario.dealId Scenario.verified_deal eq_refl eq_refl)
    as (d' & H1 & _ & H3).
  { vm_compute. reflexivity. }
  exists d'. split; [exact H1|]. split; [reflexivity | exact H3].
Defined.
